(** * StarPy: the FastAGI and AMI protocol engines, embedded and verified

    A shallow embedding of [starpy/fastagi.py] and [starpy/manager.py].
    The Python objects of the two modules become records, the methods become
    functions that thread the object explicitly, and every effect the methods
    have on the outside (a line written to the transport, a Deferred fired, a
    handler called, a log record) is appended to a trace.

    Conventions.
    - Text is a [string] whose characters are the code points U+0000..U+00FF.
    - A Python [int] is a [Z]; a Python [float] is a binary64 [float].
    - A Python [dict] is an insertion-ordered association list ([Py.dict]),
      as CPython iterates it.
    - The interpreter is Python 3, which [manager.py] tests for by
      [sys.version_info]. *)

From Stdlib Require Import String Ascii List ZArith Lia Bool Arith.
From Stdlib Require Decimal DecimalString DecimalZ.
From Stdlib Require Import Floats.
Import ListNotations.

Open Scope string_scope.
Open Scope Z_scope.

(* ================================================================= *)
(** ** The Python runtime the modules rely on *)

Module Py.

(** *** Characters *)

Definition LF : ascii := "010"%char.
Definition CR : ascii := "013"%char.
Definition SP : ascii := " "%char.

Definition ord (c : ascii) : N := N_of_ascii c.

Definition in_range (lo hi : N) (c : ascii) : bool :=
  (N.leb lo (ord c) && N.leb (ord c) hi)%bool.

(** [str.isspace] on one character, which is also [\s] of [re] on text
    patterns: TAB..CR, FS..US, SPACE, NEL and NBSP. *)
Definition isspace (c : ascii) : bool :=
  (in_range 9 13 c || in_range 28 31 c || N.eqb (ord c) 32
   || N.eqb (ord c) 133 || N.eqb (ord c) 160)%bool.

(** The blanks [bytes.strip] removes (the C locale's): TAB..CR and SPACE. *)
Definition isspace_ascii (c : ascii) : bool :=
  (in_range 9 13 c || N.eqb (ord c) 32)%bool.

(** The blanks [int(text)] skips around the number: the C locale's, and the
    Unicode spaces above U+007F. *)
Definition isspace_int (c : ascii) : bool :=
  (isspace_ascii c || N.eqb (ord c) 133 || N.eqb (ord c) 160)%bool.

(** [str.isdecimal] on one character, which is also [\d] of [re]. *)
Definition isdigit (c : ascii) : bool := in_range 48 57 c.

Definition digit_value (c : ascii) : Z := Z.of_N (ord c) - 48.

(** [str.lower] on one character. *)
Definition lower_char (c : ascii) : ascii :=
  if (in_range 65 90 c
      || (in_range 192 222 c && negb (N.eqb (ord c) 215)))%bool
  then ascii_of_N (ord c + 32)
  else c.

(** *** Text *)

Fixpoint forall_chars (p : ascii -> bool) (s : string) : bool :=
  match s with
  | EmptyString => true
  | String c r => (p c && forall_chars p r)%bool
  end.

Definition is_empty (s : string) : bool :=
  match s with EmptyString => true | _ => false end.

Fixpoint lower (s : string) : string :=
  match s with
  | EmptyString => EmptyString
  | String c r => String (lower_char c) (lower r)
  end.

Fixpoint lstrip_with (p : ascii -> bool) (s : string) : string :=
  match s with
  | EmptyString => EmptyString
  | String c r => if p c then lstrip_with p r else s
  end.

Fixpoint rstrip_with (p : ascii -> bool) (s : string) : string :=
  match s with
  | EmptyString => EmptyString
  | String c r =>
      let r' := rstrip_with p r in
      if (is_empty r' && p c)%bool then EmptyString else String c r'
  end.

Definition strip_with (p : ascii -> bool) (s : string) : string :=
  rstrip_with p (lstrip_with p s).

(** [s.strip()] on text. *)
Definition strip : string -> string := strip_with isspace.

(** [b.strip()] on bytes, read on the decoded text: a UTF-8 byte is a C
    blank exactly when it encodes one of the six characters of
    [isspace_ascii]. *)
Definition bytes_strip : string -> string := strip_with isspace_ascii.

(** [s.strip('()')]. *)
Definition strip_chars (chars : string) : string -> string :=
  strip_with (fun c => existsb (Ascii.eqb c) (list_ascii_of_string chars)).

(** [s[len(p):]] when [s.startswith(p)]. *)
Fixpoint drop_prefix (p s : string) : option string :=
  match p, s with
  | EmptyString, _ => Some s
  | String a p', String b s' =>
      if Ascii.eqb a b then drop_prefix p' s' else None
  | String _ _, EmptyString => None
  end.

Definition startswith (s p : string) : bool :=
  match drop_prefix p s with Some _ => true | None => false end.

Fixpoint rev_string (acc s : string) : string :=
  match s with
  | EmptyString => acc
  | String c r => rev_string (String c acc) r
  end.

Definition reverse (s : string) : string := rev_string EmptyString s.

(** [s[0:-len(p)]] when [s.endswith(p)]. *)
Definition drop_suffix (p s : string) : option string :=
  match drop_prefix (reverse p) (reverse s) with
  | Some r => Some (reverse r)
  | None => None
  end.

Definition endswith (s p : string) : bool :=
  match drop_suffix p s with Some _ => true | None => false end.

(** [s.split(sep, 1)] for a one-character separator: one piece when [sep]
    does not occur, else the text before and after its first occurrence. *)
Fixpoint split_first (sep : ascii) (s : string) : option (string * string) :=
  match s with
  | EmptyString => None
  | String c r =>
      if Ascii.eqb c sep then Some (EmptyString, r)
      else match split_first sep r with
           | Some (a, b) => Some (String c a, b)
           | None => None
           end
  end.

(** [s.split(sep)] for a one-character separator. *)
Fixpoint split (sep : ascii) (s : string) : list string :=
  match s with
  | EmptyString => [EmptyString]
  | String c r =>
      if Ascii.eqb c sep then EmptyString :: split sep r
      else match split sep r with
           | p :: ps => String c p :: ps
           | [] => [String c EmptyString]
           end
  end.

(** [sep.join(parts)]. *)
Fixpoint join (sep : string) (parts : list string) : string :=
  match parts with
  | [] => EmptyString
  | [p] => p
  | p :: ps => p ++ sep ++ join sep ps
  end.

(** *** Integers and text *)

(** [str(n)] for an [int]. *)
Definition str_int (z : Z) : string := DecimalString.NilZero.string_of_int (Z.to_int z).

(** The digits of an [int] literal as [int(text)] reads them: decimal
    digits, with single underscores allowed between two digits. *)
Fixpoint int_digits (acc : Z) (after_digit : bool) (s : string) : option Z :=
  match s with
  | EmptyString => if after_digit then Some acc else None
  | String c r =>
      if isdigit c then int_digits (acc * 10 + digit_value c) true r
      else if (Ascii.eqb c "_" && after_digit)%bool then int_digits acc false r
      else None
  end.

Definition int_signed (s : string) : option Z :=
  match s with
  | String "-" r => option_map Z.opp (int_digits 0 false r)
  | String "+" r => int_digits 0 false r
  | _ => int_digits 0 false s
  end.

(** [int(text)]: [None] stands for the [ValueError] it raises.  The
    interpreter's optional limit on the number of digits is not modelled. *)
Definition int_of_str (s : string) : option Z :=
  int_signed (strip_with isspace_int s).

(** *** Values *)

(** The objects that travel as message values, sentinels and fault codes. *)
Inductive value : Type :=
| PyNone
| PyInt (z : Z)
| PyStr (s : string).

(** [a == b]: an [int] never equals a [str]. *)
Definition eqb (a b : value) : bool :=
  match a, b with
  | PyNone, PyNone => true
  | PyInt x, PyInt y => Z.eqb x y
  | PyStr x, PyStr y => String.eqb x y
  | _, _ => false
  end.

(** [str(v)]. *)
Definition str (v : value) : string :=
  match v with
  | PyNone => "None"
  | PyInt z => str_int z
  | PyStr s => s
  end.

(** *** Numbers given as durations *)

Inductive number : Type :=
| NumInt (z : Z)
| NumFloat (f : float).

(** [x *= 1000]: exact on [int]; on [float] the constant is converted and
    the product is the IEEE 754 binary64 one. *)
Definition times_1000 (x : number) : number :=
  match x with
  | NumInt z => NumInt (z * 1000)
  | NumFloat f => NumFloat (f * 1000)%float
  end.

(** The integer a finite float denotes, when it denotes one. *)
Definition float_integral (f : float) : option Z :=
  match Prim2SF f with
  | S754_zero _ => Some 0
  | S754_finite s m e =>
      let sign := if s then (-1) else 1 in
      if 0 <=? e then Some (sign * (Z.pos m * 2 ^ e))
      else if (Z.pos m mod 2 ^ (- e) =? 0)
           then Some (sign * (Z.pos m / 2 ^ (- e)))
           else None
  | _ => None
  end.

(** [repr(f)] for a [float], on the floats that denote an integer below
    [10^16] in magnitude, which print as that integer followed by [.0];
    [None] elsewhere (shortest round-trip digits and exponents are not
    modelled). *)
Definition repr_float (f : float) : option string :=
  match float_integral f with
  | Some z =>
      if Z.abs z <? 10 ^ 16 then
        match Prim2SF f with
        | S754_zero true => Some "-0.0"
        | _ => Some (str_int z ++ ".0")
        end
      else None
  | None => None
  end.

(** ['{}'.format(x)] for a number. *)
Definition format_number (x : number) : option string :=
  match x with
  | NumInt z => Some (str_int z)
  | NumFloat f => repr_float f
  end.

(** *** Dictionaries *)

Section Dict.
Context {K V : Type} (keq : K -> K -> bool).

Definition dict : Type := list (K * V).

(** [d.get(k)]. *)
Fixpoint get (k : K) (d : dict) : option V :=
  match d with
  | [] => None
  | (k', v) :: r => if keq k k' then Some v else get k r
  end.

(** [k in d]. *)
Definition mem (k : K) (d : dict) : bool :=
  match get k d with Some _ => true | None => false end.

(** [d[k] = v]: a present key keeps its place, a new one goes last. *)
Fixpoint set (k : K) (v : V) (d : dict) : dict :=
  match d with
  | [] => [(k, v)]
  | (k', v') :: r =>
      if keq k k' then (k, v) :: r else (k', v') :: set k v r
  end.

(** [del d[k]]: the key is gone; an absent key, on which Python raises
    [KeyError], leaves the dict as it is. *)
Definition del (k : K) (d : dict) : dict :=
  filter (fun kv => negb (keq k (fst kv))) d.

(** [dict(pairs)]. *)
Definition of_pairs (pairs : list (K * V)) : dict :=
  fold_left (fun d kv => set (fst kv) (snd kv) d) pairs [].

End Dict.


(** *** Further text operations *)

(** [s.split(sep, n)] for a one-character separator: at most [n] cuts. *)
Fixpoint split_max (sep : ascii) (n : nat) (s : string) : list string :=
  match n with
  | O => [s]
  | S n =>
      match split_first sep s with
      | Some (a, b) => a :: split_max sep n b
      | None => [s]
      end
  end.

(** [s.replace(c, '')] for a one-character [c]. *)
Fixpoint remove_char (c : ascii) (s : string) : string :=
  match s with
  | EmptyString => EmptyString
  | String x r =>
      if Ascii.eqb x c then remove_char c r else String x (remove_char c r)
  end.

(** [s[:-1]]. *)
Fixpoint drop_last (s : string) : string :=
  match s with
  | EmptyString => EmptyString
  | String _ EmptyString => EmptyString
  | String c r => String c (drop_last r)
  end.

(** [s[1:-1]]. *)
Definition slice_1_m1 (s : string) : string :=
  match s with
  | EmptyString => EmptyString
  | String _ r => drop_last r
  end.

(** [s[n:]]. *)
Fixpoint slice_from (n : nat) (s : string) : string :=
  match n, s with
  | O, _ => s
  | S n, String _ r => slice_from n r
  | S _, EmptyString => EmptyString
  end.

(** [s.split('\r\n')]. *)
Definition cons_first (c : ascii) (parts : list string) : list string :=
  match parts with
  | p :: ps => String c p :: ps
  | [] => [String c EmptyString]
  end.

Fixpoint split_crlf (s : string) : list string :=
  match s with
  | EmptyString => [EmptyString]
  | String c r =>
      match r with
      | String d r' =>
          if (Ascii.eqb c CR && Ascii.eqb d LF)%bool
          then EmptyString :: split_crlf r'
          else cons_first c (split_crlf r)
      | EmptyString => [String c EmptyString]
      end
  end.

(** The longest run of decimal digits at the start, and the rest. *)
Fixpoint take_digits (s : string) : string * string :=
  match s with
  | EmptyString => (EmptyString, EmptyString)
  | String c r =>
      if isdigit c then let '(d, rest) := take_digits r in (String c d, rest)
      else (EmptyString, s)
  end.

End Py.

(* ================================================================= *)
(** ** Exceptions, results and the trace of effects *)

(** Modelled from the spec: [starpy/error.py], which declares the two fault
    classes, is not among the sources.  The spec calls them typed faults
    that carry the code and data ([AGICommandFailure]) or the full message
    ([AMICommandFailure]); they are constructors holding the arguments the
    modules pass.  The other constructors are Python's and Twisted's own;
    [ApplicationError] stands for any [Exception] that code of the
    application raises. *)
Inductive exn : Type :=
| AGICommandFailure (code : Py.value) (data : string)
| AMICommandFailure (message : list (string * string))
| ConnectionDone (text : string)
| ValueError
| AttributeError
| RuntimeError (text : string)
| AlreadyCalledError
| ApplicationError (tag : nat).

(** What a call yields: a value, or a raised exception. *)
Inductive pyresult (A : Type) : Type :=
| Return (a : A)
| Raise (e : exn).
Arguments Return {A} a.
Arguments Raise {A} e.

Definition bind {A B} (r : pyresult A) (k : A -> pyresult B) : pyresult B :=
  match r with
  | Return a => k a
  | Raise e => Raise e
  end.

Notation "x <- r ;; k" := (bind r (fun x => k))
  (at level 61, r at next level, right associativity).

(** A [Deferred] is known by its identity: the order of its creation. *)
Definition deferred : Type := nat.

Definition dquote : string := String "034" EmptyString.

(** ['"{}"'.format(s)]. *)
Definition quoted (s : string) : string := dquote ++ s ++ dquote.

Definition CRLF : string := String Py.CR (String Py.LF EmptyString).


(** The exceptions of Python that the parsing callbacks and the AMI result
    callbacks raise besides those of [exn]. *)
Inductive pyerror : Type :=
| Known (e : exn)
| TypeError
| KeyError
| NameError.

(** What such a call yields. *)
Inductive outcome (A : Type) : Type :=
| Ok (a : A)
| Fail (e : pyerror).
Arguments Ok {A} a.
Arguments Fail {A} e.

Definition lift {A} (r : pyresult A) : outcome A :=
  match r with
  | Return a => Ok a
  | Raise e => Fail (Known e)
  end.

Definition and_then {A B} (r : outcome A) (k : A -> outcome B) : outcome B :=
  match r with
  | Ok a => k a
  | Fail e => Fail e
  end.

(** [fmt % args] for a tuple [args] and a format that uses only [%s] and
    [%%]: arguments left over, and arguments missing, are a [TypeError];
    any other conversion is outside what is modelled ([None]). *)
Fixpoint percent (fmt : string) (args : list Py.value)
  : option (outcome string) :=
  match fmt with
  | EmptyString =>
      match args with
      | [] => Some (Ok EmptyString)
      | _ :: _ => Some (Fail TypeError)
      end
  | String "%" (String "s" r) =>
      match args with
      | a :: rest =>
          match percent r rest with
          | Some (Ok t) => Some (Ok (Py.str a ++ t))
          | other => other
          end
      | [] => Some (Fail TypeError)
      end
  | String "%" (String "%" r) =>
      match percent r args with
      | Some (Ok t) => Some (Ok (String "%" t))
      | other => other
      end
  | String "%" _ => None
  | String c r =>
      match percent r args with
      | Some (Ok t) => Some (Ok (String c t))
      | other => other
      end
  end.

(* ================================================================= *)
(** ** [starpy/fastagi.py] *)

Module FastAGI.

Definition FAILURE_CODE : Z := -1.

(** What the protocol does to the outside.  Records of [log.debug] and
    [log.info] are left out; warnings and errors are kept.  Firing a
    Deferred is one effect: the callbacks that the operations and the
    application added to it run outside the protocol object and are taken to
    leave it alone. *)
Inductive effect : Type :=
| SendLine (line : string)
| Callback (df : deferred) (data : string)
| Errback (df : deferred) (e : exn)
| LostConnectionErrback (df : deferred) (reason : exn)
| OnConnect
| LogWarn (text : string) (line : string)
| LogError (text : string) (line : string).

(** The instance attributes of [FastAGIProtocol]; [on_connect] tells
    whether a callable was given, and [created] counts the [Deferred]
    objects made so far and gives the next one its identity. *)
Record FastAGIProtocol : Type := {
  on_connect : bool;
  messageCache : list string;
  variables : Py.dict (K := string) (V := string);
  pendingMessages : list deferred;
  reading_variables : bool;
  lostConnectionDeferred : option deferred;
  created : nat
}.

(** [__init__]. *)
Definition init (on_connect : bool) : FastAGIProtocol := {|
  on_connect := on_connect;
  messageCache := [];
  variables := [];
  pendingMessages := [];
  reading_variables := false;
  lostConnectionDeferred := None;
  created := 0
|}.

Definition set_pendingMessages (q : list deferred) (self : FastAGIProtocol)
  : FastAGIProtocol := {|
  on_connect := self.(on_connect);
  messageCache := self.(messageCache);
  variables := self.(variables);
  pendingMessages := q;
  reading_variables := self.(reading_variables);
  lostConnectionDeferred := self.(lostConnectionDeferred);
  created := self.(created)
|}.

Definition set_reading_variables (b : bool) (self : FastAGIProtocol)
  : FastAGIProtocol := {|
  on_connect := self.(on_connect);
  messageCache := self.(messageCache);
  variables := self.(variables);
  pendingMessages := self.(pendingMessages);
  reading_variables := b;
  lostConnectionDeferred := self.(lostConnectionDeferred);
  created := self.(created)
|}.

Definition set_variables (v : Py.dict) (self : FastAGIProtocol)
  : FastAGIProtocol := {|
  on_connect := self.(on_connect);
  messageCache := self.(messageCache);
  variables := v;
  pendingMessages := self.(pendingMessages);
  reading_variables := self.(reading_variables);
  lostConnectionDeferred := self.(lostConnectionDeferred);
  created := self.(created)
|}.

(** [Deferred()]: a new object. *)
Definition new_deferred (self : FastAGIProtocol)
  : deferred * FastAGIProtocol :=
  (self.(created),
   {| on_connect := self.(on_connect);
      messageCache := self.(messageCache);
      variables := self.(variables);
      pendingMessages := self.(pendingMessages);
      reading_variables := self.(reading_variables);
      lostConnectionDeferred := self.(lostConnectionDeferred);
      created := S self.(created) |}).

(** [connectionMade]. *)
Definition connectionMade (self : FastAGIProtocol) : FastAGIProtocol :=
  set_reading_variables true self.

(** [connectionLost]: every pending Deferred gets the errback, in list
    order; the [finally] clause then fires the close waiter, when there is
    one, and empties the list. *)
Definition connectionLost (self : FastAGIProtocol) (reason : exn)
  : FastAGIProtocol * list effect :=
  let loop :=
    map (fun df => Errback df (ConnectionDone "FastAGI connection lost"))
        self.(pendingMessages) in
  let waiter :=
    match self.(lostConnectionDeferred) with
    | Some d => [LostConnectionErrback d reason]
    | None => []
    end in
  (set_pendingMessages [] self, (loop ++ waiter)%list).

(** [onClose]. *)
Definition onClose (self : FastAGIProtocol) : deferred * FastAGIProtocol :=
  match self.(lostConnectionDeferred) with
  | Some d => (d, self)
  | None =>
      let '(d, self) := new_deferred self in
      (d, {| on_connect := self.(on_connect);
             messageCache := self.(messageCache);
             variables := self.(variables);
             pendingMessages := self.(pendingMessages);
             reading_variables := self.(reading_variables);
             lostConnectionDeferred := Some d;
             created := self.(created) |})
  end.

(** *** The three patterns

    The patterns are quoted with blanks between their parts. *)

(** [( .* )] at the end of a pattern: the longest run without a newline,
    and what follows it. *)
Fixpoint dot_star (s : string) : string * string :=
  match s with
  | EmptyString => (EmptyString, EmptyString)
  | String c r =>
      if Ascii.eqb c Py.LF then (EmptyString, s)
      else let '(a, b) := dot_star r in (String c a, b)
  end.

(** [( .* ) $]: [$] holds at the end of the text and before a newline that
    ends it. *)
Definition dot_star_eol (s : string) : option string :=
  let '(a, b) := dot_star s in
  match b with
  | EmptyString => Some a
  | String _ EmptyString => Some a
  | _ => None
  end.

(** [\s+ ( .* ) $]: the blanks are taken greedily and given back one at a
    time. *)
Fixpoint spaces_then_data (s : string) : option string :=
  match s with
  | EmptyString => None
  | String c r =>
      if Py.isspace c then
        match spaces_then_data r with
        | Some d => Some d
        | None => dot_star_eol r
        end
      else None
  end.

(** [line_re], the pattern [^ (\d{3}) \s+ ( .* ) $] applied with [match]:
    groups 1 and 2. *)
Definition line_re (line : string) : option (string * string) :=
  match line with
  | String a (String b (String c r)) =>
      if (Py.isdigit a && Py.isdigit b && Py.isdigit c)%bool then
        match spaces_then_data r with
        | Some d => Some (String a (String b (String c EmptyString)), d)
        | None => None
        end
      else None
  | _ => None
  end.

(** [agi_variable_re], the pattern [^ ( agi_ .* ) :\x20 ( .* ) $] applied
    with [match]: group 1 is the longest key for which the rest still
    matches. *)
Fixpoint variable_rest (s : string) : option (string * string) :=
  match s with
  | EmptyString => None
  | String c r =>
      let here :=
        match s with
        | String ":" (String " " v) =>
            match dot_star_eol v with
            | Some d => Some (EmptyString, d)
            | None => None
            end
        | _ => None
        end in
      if Ascii.eqb c Py.LF then here
      else match variable_rest r with
           | Some (k, d) => Some (String c k, d)
           | None => here
           end
  end.

Definition agi_variable_re (line : string) : option (string * string) :=
  match Py.drop_prefix "agi_" line with
  | Some r =>
      match variable_rest r with
      | Some (k, d) => Some ("agi_" ++ k, d)
      | None => None
      end
  | None => None
  end.

(** The tail of [result_re] after [result=]: the lazy group 1 grows one
    character at a time; at each length the optional group [(?: \x20 ( .* ) )?] is
    tried first (a space, then everything to the end, which [\Z] allows
    only when no newline follows), then [\Z] alone. *)
Fixpoint result_tail (group1 s : string) : option (string * option string) :=
  match s with
  | EmptyString => Some (group1, None)
  | String c r =>
      if (Ascii.eqb c Py.SP && Py.forall_chars (fun x => negb (Ascii.eqb x Py.LF)) r)%bool
      then Some (group1, Some r)
      else if Ascii.eqb c Py.LF then None
      else result_tail (group1 ++ String c EmptyString) r
  end.

(** [result_re], the pattern [\A result= ( .*? ) (?: \x20 ( .* ) )? \Z]
    applied with [match]: groups 1 and 2. *)
Definition result_re (s : string) : option (string * option string) :=
  match Py.drop_prefix "result=" s with
  | Some r => result_tail EmptyString r
  | None => None
  end.

(** *** Receiving and sending *)

(** [lineReceived], on the decoded line. *)
Definition lineReceived (self : FastAGIProtocol) (line : string)
  : FastAGIProtocol * list effect :=
  if self.(reading_variables) then
    if Py.is_empty line then
      (set_reading_variables false self,
       if self.(on_connect) then [OnConnect] else [])
    else
      match agi_variable_re line with
      | None => (self, [LogError "Invalid variable line" line])
      | Some (key, value) =>
          (set_variables (Py.set String.eqb key value self.(variables)) self, [])
      end
  else
    match line_re line with
    | None => (self, [LogWarn "Unexpected line" line])
    | Some (code, data) =>
        match self.(pendingMessages) with
        | [] => (self, [LogWarn "Line received without pending deferred" line])
        | df :: rest =>
            (set_pendingMessages rest self,
             if String.eqb code "200" then [Callback df data]
             else [Errback df (AGICommandFailure (Py.PyStr code) data)])
        end
    end.

(** [sendCommand]: the new Deferred joins the queue before the line goes
    out. *)
Definition sendCommand (self : FastAGIProtocol) (commandString : string)
  : deferred * FastAGIProtocol * list effect :=
  let '(df, self) := new_deferred self in
  let self := set_pendingMessages (self.(pendingMessages) ++ [df])%list self in
  (df, self, [SendLine commandString]).

(** *** Reading the result line *)

(** [checkFailure(result, failure)]. *)
Definition checkFailure (result : string) (failure : Py.value)
  : pyresult string :=
  match result_re result with
  | Some (group1, result_data) =>
      match Py.int_of_str group1 with
      | None => Raise ValueError
      | Some result_code =>
          if Py.eqb (Py.PyInt result_code) failure
          then Raise (AGICommandFailure (Py.PyInt FAILURE_CODE) result)
          else Return result
      end
  | None => Raise (AGICommandFailure (Py.PyInt FAILURE_CODE) result)
  end.

(** [resultAsInt(result)]: the [ValueError] of [int] is caught and turned
    into the fault. *)
Definition resultAsInt (result : string) : pyresult Z :=
  match result_re result with
  | Some (group1, _) =>
      match Py.int_of_str group1 with
      | Some n => Return n
      | None => Raise (AGICommandFailure (Py.PyInt FAILURE_CODE) result)
      end
  | None => Raise (AGICommandFailure (Py.PyInt FAILURE_CODE) result)
  end.

(** [secondResultItem(result)]: [None] when the line has no second item. *)
Definition secondResultItem (result : string) : pyresult (option string) :=
  match result_re result with
  | Some (group1, data) =>
      match Py.int_of_str group1 with
      | Some _ => Return data
      | None => Raise ValueError
      end
  | None => Raise (AGICommandFailure (Py.PyInt FAILURE_CODE) result)
  end.


(** [checkWaitForDigit(line)]; the digit is given by the code point handed
    to [chr]. *)
Definition checkWaitForDigit (line : string) : pyresult (option Z * bool) :=
  match result_re line with
  | Some (result, data) =>
      if String.eqb result "-1"
      then Raise (AGICommandFailure (Py.PyInt FAILURE_CODE) line)
      else if String.eqb result "0" then Return (None, true)
      else match Py.int_of_str result with
           | Some n =>
               if ((0 <=? n) && (n <=? 1114111))%bool
               then Return (Some n, false)
               else Raise ValueError
           | None => Raise ValueError
           end
  | None => Raise (AGICommandFailure (Py.PyInt FAILURE_CODE) line)
  end.

(** *** Operations: the command line, and the callbacks on its reply *)

Definition send_formatted (self : FastAGIProtocol) (command : option string)
  : option (deferred * FastAGIProtocol * list effect) :=
  option_map (sendCommand self) command.

(** [databaseDel]: the command. *)
Definition databaseDel_command (family key : string) : string :=
  "DATABASE DEL " ++ quoted family ++ " " ++ quoted key.

(** [databaseDel]: [checkFailure] with [failure = '0'], then
    [resultAsInt]. *)
Definition databaseDel_callbacks (data : string) : pyresult Z :=
  r <- checkFailure data (Py.PyStr "0") ;; resultAsInt r.

Definition databaseDel (self : FastAGIProtocol) (family key : string)
  : deferred * FastAGIProtocol * list effect :=
  sendCommand self (databaseDel_command family key).

(** [execute]: the command. *)
Definition execute_command (application : string) (options : list Py.value)
           (comma_delimiter : bool) : string :=
  let command := "EXEC " ++ quoted application in
  match options with
  | [] => command
  | _ =>
      let delimiter := if comma_delimiter then "," else "|" in
      command ++ " " ++ quoted (Py.join delimiter (map Py.str options))
  end.

(** [execute]: [checkFailure] with [failure = '-2']. *)
Definition execute_callbacks (data : string) : pyresult string :=
  checkFailure data (Py.PyStr "-2").

Definition execute (self : FastAGIProtocol) (application : string)
           (options : list Py.value) (comma_delimiter : bool)
  : deferred * FastAGIProtocol * list effect :=
  sendCommand self (execute_command application options comma_delimiter).

(** [tddMode]'s callbacks: [checkFailure] twice, the default sentinel and
    then ['0'], and [resultAsInt]. *)
Definition tddMode_callbacks (data : string) : pyresult Z :=
  r <- checkFailure data (Py.PyInt (-1)) ;;
  r <- checkFailure r (Py.PyStr "0") ;;
  resultAsInt r.

(** [getData]: the command.  [timeout] defaults to [2.0]. *)
Definition getData_command (filename : string) (timeout : Py.number)
           (maxDigits : option Z) : option string :=
  let timeout := Py.times_1000 timeout in
  match Py.format_number timeout with
  | Some t =>
      let command := "GET DATA " ++ quoted filename ++ " " ++ t in
      Some match maxDigits with
           | Some m => command ++ " " ++ Py.str_int m
           | None => command
           end
  | None => None
  end.

Definition getData (self : FastAGIProtocol) (filename : string)
           (timeout : Py.number) (maxDigits : option Z) :=
  send_formatted self (getData_command filename timeout maxDigits).




(** [recordFile]: the command.  [timeout] defaults to [-1], [beep] to
    [True]. *)
Definition recordFile_command (filename format escapeDigits : string)
           (timeout : Py.number) (offsetSamples : option Z) (beep : bool)
           (silence : option Py.number) : option string :=
  let timeout := Py.times_1000 timeout in
  match Py.format_number timeout with
  | Some t =>
      let command :=
        "RECORD FILE " ++ quoted filename ++ " " ++ quoted format ++ " "
        ++ escapeDigits ++ " " ++ t in
      let command :=
        match offsetSamples with
        | Some o => command ++ " " ++ Py.str_int o
        | None => command
        end in
      let command := if beep then command ++ " BEEP" else command in
      match silence with
      | Some s => option_map (fun t => command ++ " s=" ++ t) (Py.format_number s)
      | None => Some command
      end
  | None => None
  end.

Definition recordFile (self : FastAGIProtocol) (filename format escapeDigits : string)
           (timeout : Py.number) (offsetSamples : option Z) (beep : bool)
           (silence : option Py.number) :=
  send_formatted self
    (recordFile_command filename format escapeDigits timeout offsetSamples beep silence).


(** [waitForDigit]: the command. *)
Definition waitForDigit_command (timeout : Py.number) : option string :=
  let timeout := Py.times_1000 timeout in
  option_map (fun t => "WAIT FOR DIGIT " ++ t) (Py.format_number timeout).

Definition waitForDigit (self : FastAGIProtocol) (timeout : Py.number) :=
  send_formatted self (waitForDigit_command timeout).

(** *** Further callbacks and operations *)

(** The callbacks of [answer], and of [channelStatus], [hangup], [noop],
    [sayDateTime], [sendImage], [sendText] and [setAutoHangup] alike:
    [checkFailure] with the default sentinel, then [resultAsInt]. *)
Definition answer_callbacks (data : string) : pyresult Z :=
  r <- checkFailure data (Py.PyInt (-1)) ;; resultAsInt r.

(** [returnValue] of [databaseGet] and [getVariable]: the second item
    without its brackets; [None] has no slice. *)
Definition returnValue (resultLine : option string) : outcome string :=
  match resultLine with
  | Some s => Ok (Py.slice_1_m1 s)
  | None => Fail TypeError
  end.

(** The callbacks of [getVariable], and of [databaseGet] alike:
    [checkFailure] with [failure = '0'], [secondResultItem],
    [returnValue]. *)
Definition getVariable_callbacks (data : string) : outcome string :=
  and_then (lift (r <- checkFailure data (Py.PyStr "0") ;; secondResultItem r))
           returnValue.

(** [getVariable]: the command. *)
Definition getVariable_command (variable : string) : string :=
  "GET VARIABLE " ++ quoted variable.

(** [endpos_re], the pattern [endpos= (\d+)] applied with [search]: the
    digits after the first [endpos=] that has one. *)
Fixpoint endpos_re (s : string) : option string :=
  match s with
  | EmptyString => None
  | String _ r =>
      match Py.drop_prefix "endpos=" s with
      | Some rest =>
          match Py.take_digits rest with
          | (EmptyString, _) => endpos_re r
          | (digits, _) => Some digits
          end
      | None => endpos_re r
      end
  end.

(** [onStreamingComplete(result, skipMS)]. *)
Definition onStreamingComplete (result : string) (skipMS : Py.value)
  : outcome (Z * Z) :=
  match result_re result with
  | None =>
      Fail (Known (AGICommandFailure (Py.PyInt FAILURE_CODE)
                     "result line doesn't match"))
  | Some (group1, result_data) =>
      match Py.int_of_str group1 with
      | None => Fail (Known ValueError)
      | Some result_code =>
          match result_data with
          | None => Fail TypeError
          | Some data =>
              match endpos_re data with
              | None =>
                  Fail (Known (AGICommandFailure (Py.PyInt FAILURE_CODE)
                                 "no endpos"))
              | Some digits =>
                  match Py.int_of_str digits with
                  | None => Fail (Known ValueError)
                  | Some endpos =>
                      if Py.eqb (Py.PyInt endpos) skipMS then
                        Fail (Known (AGICommandFailure (Py.PyInt FAILURE_CODE)
                                ("End position " ++ Py.str_int endpos
                                 ++ " == original position, result code "
                                 ++ Py.str_int result_code)))
                      else Ok (result_code, endpos)
                  end
              end
          end
      end
  end.

(** [streamFile]: the command; [offset] defaults to [0]. *)
Definition streamFile_command (filename escapeDigits : string)
           (offset : option Z) : string :=
  let command := "STREAM FILE " ++ quoted filename ++ " " ++ quoted escapeDigits in
  match offset with
  | Some o => command ++ " " ++ Py.str_int o
  | None => command
  end.

(** The callbacks of [streamFile]: [checkFailure], then
    [onStreamingComplete] with [skipMS = offset]. *)
Definition streamFile_callbacks (offset : option Z) (data : string)
  : outcome (Z * Z) :=
  and_then (lift (checkFailure data (Py.PyInt (-1))))
           (fun r => onStreamingComplete r
                       match offset with
                       | Some o => Py.PyInt o
                       | None => Py.PyNone
                       end).

(** [onRecordingComplete(resultLine)]: [int(digit)] stands in the [else]
    clause, outside the [try]. *)
Definition onRecordingComplete (resultLine : string)
  : pyresult (Z * string * Z) :=
  match Py.split_max " " 2 resultLine with
  | [digit; exitType; endposStuff] =>
      match Py.int_of_str digit with
      | None => Raise ValueError
      | Some digit =>
          let exitType := Py.strip_chars "()" exitType in
          let endposStuff := Py.strip endposStuff in
          if Py.startswith endposStuff "endpos=" then
            match Py.int_of_str (Py.strip (Py.slice_from 7 endposStuff)) with
            | Some endpos => Return (digit, exitType, endpos)
            | None => Raise ValueError
            end
          else Raise ValueError
      end
  | _ => Raise ValueError
  end.

(** The callback of [recordFile] is [onRecordingComplete], on the data of
    the reply as it comes. *)
Definition recordFile_callbacks (data : string) : pyresult (Z * string * Z) :=
  onRecordingComplete data.

(** [onControlStreamFileComplete(resultLine)]; the log record of an
    unexpected second part is left out. *)
Definition onControlStreamFileComplete (resultLine : string)
  : pyresult (Z * option Z) :=
  let parts := Py.split_max " " 1 resultLine in
  match parts with
  | [] => Raise ValueError
  | first :: others =>
      match Py.int_of_str first with
      | None => Raise ValueError
      | Some result =>
          match others with
          | [second] =>
              let endposStuff := Py.strip second in
              if Py.startswith endposStuff "endpos=" then
                match Py.int_of_str (Py.slice_from 7 endposStuff) with
                | Some endpos => Return (result, Some endpos)
                | None => Raise ValueError
                end
              else Return (result, None)
          | _ => Return (result, None)
          end
      end
  end.

(** The callbacks of [controlStreamFile]: [checkFailure], then
    [onControlStreamFileComplete]. *)
Definition controlStreamFile_callbacks (data : string)
  : pyresult (Z * option Z) :=
  r <- checkFailure data (Py.PyInt (-1)) ;; onControlStreamFileComplete r.

(** [setVariable]: the command; the double quotes of the value are
    removed. *)
Definition setVariable_command (variable : string) (value : Py.value) : string :=
  let value := quoted (Py.remove_char "034" (Py.str value)) in
  "SET VARIABLE " ++ quoted variable ++ " " ++ value.

(** [sayXXX]: the command is built with [%] on a format that holds braces
    and no conversion; the line is sent only if that yields a text. *)
Definition sayXXX_command (baseCommand : string) (value : Py.value)
           (escapeDigits : option string) : option (outcome string) :=
  let escapeDigits :=
    match escapeDigits with
    | Some e => e
    | None => EmptyString
    end in
  percent ("{} {} " ++ quoted "{}")
          [Py.PyStr baseCommand; value; Py.PyStr escapeDigits].

Definition sayXXX (self : FastAGIProtocol) (baseCommand : string)
           (value : Py.value) (escapeDigits : option string)
  : option (outcome deferred * FastAGIProtocol * list effect) :=
  match sayXXX_command baseCommand value escapeDigits with
  | Some (Ok command) =>
      let '(df, self, e) := sendCommand self command in Some (Ok df, self, e)
  | Some (Fail err) => Some (Fail err, self, [])
  | None => None
  end.


(** [databaseDeltree]: with a [keyTree] the name [keytree] is looked up,
    which nothing defines; without one the command goes out, and then
    [addCallback] is looked up on the protocol object, which has none. *)
Definition databaseDeltree (self : FastAGIProtocol) (family : string)
           (keyTree : option string)
  : outcome deferred * FastAGIProtocol * list effect :=
  let command := "DATABASE DELTREE " ++ quoted family in
  let given :=
    match keyTree with
    | Some k => negb (Py.is_empty k)
    | None => false
    end in
  if given then (Fail NameError, self, [])
  else
    let '(_, self, e) := sendCommand self command in
    (Fail (Known AttributeError), self, e).

(** [playback]: the option that stands for [doAnswer]. *)
Definition playback_option (doAnswer : Z) : option string :=
  if Z.eqb doAnswer (-1) then Some "skip"
  else if Z.eqb doAnswer 0 then Some "noanswer"
  else if Z.eqb doAnswer 1 then Some "answer"
  else None.

(** [playback]: the application handed to [execute]. *)
Definition playback_command (filename option : string) : string :=
  "PLAYBACK " ++ quoted filename ++ " " ++ quoted option.

(** [playback]: the callback of [execute], then [checkFailure] and
    [resultAsInt]. *)
Definition playback_callbacks (data : string) : pyresult Z :=
  r <- execute_callbacks data ;;
  r <- checkFailure r (Py.PyInt (-1)) ;;
  resultAsInt r.

Definition playback (self : FastAGIProtocol) (filename : string) (doAnswer : Z)
  : outcome deferred * FastAGIProtocol * list effect :=
  match playback_option doAnswer with
  | Some option =>
      let '(d, self, e) :=
        execute self (playback_command filename option) [] false in
      (Ok d, self, e)
  | None => (Fail TypeError, self, [])
  end.

(** *** [InSequence] *)

Section InSequence.

(** [World] is whatever the actions act on, [Value] what they yield. *)
Variables World Value : Type.

(** What [maybeDeferred(function, *args, **kwargs)] comes to once its
    Deferred has fired, if it ever does. *)
Inductive fired : Type :=
| Succeeds (result : Value)
| Fails (reason : exn)
| NeverFires.

Definition action : Type := World -> fired * World.

Record InSequence : Type := {
  actions : list action;
  results : list Value
}.

(** What [finalDF] receives: the results, or the failure with the
    results attached as [reason.results]. *)
Inductive final : Type :=
| FinalCallback (results : list Value)
| FinalErrback (reason : exn) (results : list Value)
| FinalPending.

(** [__init__]. *)
Definition InSequence_init : InSequence := {| actions := []; results := [] |}.

(** [append]. *)
Definition append (self : InSequence) (function : action) : InSequence :=
  {| actions := (self.(actions) ++ [function])%list; results := self.(results) |}.

(** [onActionSuccess], with [recordResult] and [onActionFailure] as the
    callbacks it adds to the Deferred of the action it pops. *)
Fixpoint onActionSuccess (actions : list action) (results : list Value)
         (w : World) : InSequence * final * World :=
  match actions with
  | function :: actions =>
      match function w with
      | (Succeeds result, w) =>
          onActionSuccess actions (results ++ [result])%list w
      | (Fails reason, w) =>
          ({| actions := actions; results := results |},
           FinalErrback reason results, w)
      | (NeverFires, w) =>
          ({| actions := actions; results := results |}, FinalPending, w)
      end
  | [] =>
      ({| actions := []; results := results |}, FinalCallback results, w)
  end.

(** [__call__], that is [_doSequence]. *)
Definition call (self : InSequence) (w : World) : InSequence * final * World :=
  onActionSuccess self.(actions) self.(results) w.

End InSequence.

End FastAGI.

(* ================================================================= *)
(** ** [starpy/manager.py] *)

Module Manager.

(** A received message: lower-case field names to text. *)
Definition message : Type := Py.dict (K := string) (V := string).

(** A message to send, as the caller holds it: a list of header and value
    pairs, or a dict. *)
Inductive outgoing : Type :=
| MsgList (items : list (string * Py.value))
| MsgDict (d : Py.dict (K := string) (V := Py.value)).

(** The caller's objects, by address. *)
Definition heap : Type := list outgoing.

Definition load (h : heap) (address : nat) : option outgoing :=
  nth_error h address.

Fixpoint store (h : heap) (address : nat) (o : outgoing) : heap :=
  match h, address with
  | [], _ => []
  | _ :: r, O => o :: r
  | x :: r, S n => x :: store r n o
  end.

(** What a callback is called with: a message, the exception object of
    [connectionLost], or the list [collectDeferred] gathers. *)
Inductive argument : Type :=
| ArgMessage (m : message)
| ArgException (e : exn)
| ArgList (l : list message).

(** The callables kept in [actionIDCallbacks]. *)
Inductive callback : Type :=
| DeferredCallback (df : deferred)
    (** [df.callback], as [sendDeferred] registers it *)
| OnEvent (df : deferred) (stopEvent : string)
    (** the closure [onEvent] of [collectDeferred] *)
| ApplicationCallback (tag : nat)
    (** a callable of the application *).

(** An event handler of the application, by identity. *)
Definition handler : Type := nat.

(** A Deferred made by [sendDeferred] or [collectDeferred]: whether it has
    fired, the [actionid] bound into the callbacks [addCallbacks] gave it
    ([checkErrorResponse] and [cleanup]), and the [cache] of
    [collectDeferred]. *)
Record deferred_state : Type := {
  called : bool;
  bound_actionid : option Py.value;
  cache : list message
}.

Inductive effect : Type :=
| SendLine (line : string)
| Callback (df : deferred) (a : argument)
| Errback (df : deferred) (e : exn)
| CallApplication (tag : nat) (a : argument)
| CallHandler (h : handler) (event : message)
| LogWarn (text : string) (line : string)
| LogError (text : string) (e : exn)
| LogFailure (text : string) (e : exn).

(** The instance attributes of [AMIProtocol], and the Deferreds its
    methods made. *)
Record AMIProtocol : Type := {
  count : Z;
  ami_id : string;
  amiVersion : option string;
  messageCache : list string;
  actionIDCallbacks : Py.dict (K := Py.value) (V := callback);
  eventTypeCallbacks : Py.dict (K := option string) (V := list handler);
  deferreds : list deferred_state
}.

(** [__init__]; [count = 0] is the class attribute, and [uuid] the text of
    [uuid.uuid4()]. *)
Definition init (uuid : string) : AMIProtocol := {|
  count := 0;
  ami_id := uuid;
  amiVersion := None;
  messageCache := [];
  actionIDCallbacks := [];
  eventTypeCallbacks := [];
  deferreds := []
|}.

Definition set_count (n : Z) (self : AMIProtocol) : AMIProtocol := {|
  count := n;
  ami_id := self.(ami_id);
  amiVersion := self.(amiVersion);
  messageCache := self.(messageCache);
  actionIDCallbacks := self.(actionIDCallbacks);
  eventTypeCallbacks := self.(eventTypeCallbacks);
  deferreds := self.(deferreds)
|}.

Definition set_amiVersion (v : option string) (self : AMIProtocol) : AMIProtocol := {|
  count := self.(count);
  ami_id := self.(ami_id);
  amiVersion := v;
  messageCache := self.(messageCache);
  actionIDCallbacks := self.(actionIDCallbacks);
  eventTypeCallbacks := self.(eventTypeCallbacks);
  deferreds := self.(deferreds)
|}.

Definition set_messageCache (c : list string) (self : AMIProtocol) : AMIProtocol := {|
  count := self.(count);
  ami_id := self.(ami_id);
  amiVersion := self.(amiVersion);
  messageCache := c;
  actionIDCallbacks := self.(actionIDCallbacks);
  eventTypeCallbacks := self.(eventTypeCallbacks);
  deferreds := self.(deferreds)
|}.

Definition set_actionIDCallbacks (d : Py.dict) (self : AMIProtocol) : AMIProtocol := {|
  count := self.(count);
  ami_id := self.(ami_id);
  amiVersion := self.(amiVersion);
  messageCache := self.(messageCache);
  actionIDCallbacks := d;
  eventTypeCallbacks := self.(eventTypeCallbacks);
  deferreds := self.(deferreds)
|}.

Definition set_eventTypeCallbacks (d : Py.dict) (self : AMIProtocol) : AMIProtocol := {|
  count := self.(count);
  ami_id := self.(ami_id);
  amiVersion := self.(amiVersion);
  messageCache := self.(messageCache);
  actionIDCallbacks := self.(actionIDCallbacks);
  eventTypeCallbacks := d;
  deferreds := self.(deferreds)
|}.

Definition set_deferreds (d : list deferred_state) (self : AMIProtocol) : AMIProtocol := {|
  count := self.(count);
  ami_id := self.(ami_id);
  amiVersion := self.(amiVersion);
  messageCache := self.(messageCache);
  actionIDCallbacks := self.(actionIDCallbacks);
  eventTypeCallbacks := self.(eventTypeCallbacks);
  deferreds := d
|}.

(** Equality of event types: a name, or [None] for every event. *)
Definition event_eqb (a b : option string) : bool :=
  match a, b with
  | None, None => true
  | Some x, Some y => String.eqb x y
  | _, _ => false
  end.

Definition VERSION_PREFIX : string := "Asterisk Call Manager".
Definition END_DATA : string := "--END COMMAND--".

(** [s[n:]]. *)
Fixpoint drop (n : nat) (s : string) : string :=
  match n, s with
  | O, _ => s
  | S n, String _ r => drop n r
  | S _, EmptyString => EmptyString
  end.

(** *** Event handlers *)

(** The argument [event] of [registerEvent] and [deregisterEvent]: one
    type (a name or [None]), or a tuple of them. *)
Inductive event_types : Type :=
| OneType (ev : option string)
| TypeTuple (evs : list (option string)).

Definition as_tuple (event : event_types) : list (option string) :=
  match event with
  | OneType ev => [ev]
  | TypeTuple evs => evs
  end.

(** [registerEvent]. *)
Definition registerEvent (self : AMIProtocol) (event : event_types)
           (function : handler) : AMIProtocol :=
  fold_left
    (fun self ev =>
       let handlers :=
         match Py.get event_eqb ev self.(eventTypeCallbacks) with
         | Some l => l
         | None => []
         end in
       set_eventTypeCallbacks
         (Py.set event_eqb ev (handlers ++ [function])%list self.(eventTypeCallbacks))
         self)
    (as_tuple event) self.

(** [deregisterEvent]; [function] is [None] to drop every handler of the
    type. *)
Definition deregisterEvent (self : AMIProtocol) (event : event_types)
           (function : option handler) : bool * AMIProtocol :=
  fold_left
    (fun '(success, self) ev =>
       match Py.get event_eqb ev self.(eventTypeCallbacks) with
       | None => (false, self)
       | Some handlers =>
           let handlers :=
             match function with
             | Some f => filter (fun h => negb (Nat.eqb h f)) handlers
             | None => handlers
             end in
           let empty := match handlers with [] => true | _ => false end in
           let none := match function with None => true | Some _ => false end in
           if (empty || none)%bool
           then (success,
                 set_eventTypeCallbacks
                   (Py.del event_eqb ev self.(eventTypeCallbacks)) self)
           else (success,
                 set_eventTypeCallbacks
                   (Py.set event_eqb ev handlers self.(eventTypeCallbacks)) self)
       end)
    (as_tuple event) (true, self).

(** *** Deferreds *)

Definition new_deferred (self : AMIProtocol) : deferred * AMIProtocol :=
  (length self.(deferreds),
   set_deferreds
     (self.(deferreds) ++ [{| called := false; bound_actionid := None; cache := [] |}])%list
     self).

Fixpoint update {A} (l : list A) (n : nat) (x : A) : list A :=
  match l, n with
  | [], _ => []
  | _ :: r, O => x :: r
  | y :: r, S n => y :: update r n x
  end.

(** [cleanup(result, actionid)]: the [KeyError] of an absent key is
    passed over. *)
Definition cleanup (self : AMIProtocol) (actionid : Py.value) : AMIProtocol :=
  set_actionIDCallbacks (Py.del Py.eqb actionid self.(actionIDCallbacks)) self.

(** [df.callback(a)] and [df.errback(e)] on a Deferred of [sendDeferred] or
    [collectDeferred]: a second firing raises; the first one runs the
    callbacks, of which the first ([checkErrorResponse] or [cleanup], on
    either path) deletes the bound [actionid] from [actionIDCallbacks]. *)
Definition fire (self : AMIProtocol) (df : deferred) (how : effect)
  : pyresult unit * AMIProtocol * list effect :=
  match nth_error self.(deferreds) df with
  | Some st =>
      if st.(called) then (Raise AlreadyCalledError, self, [])
      else
        let st' := {| called := true;
                      bound_actionid := st.(bound_actionid);
                      cache := st.(cache) |} in
        let self := set_deferreds (update self.(deferreds) df st') self in
        let self :=
          match st.(bound_actionid) with
          | Some actionid => cleanup self actionid
          | None => self
          end in
        (Return tt, self, [how])
  | None => (Return tt, self, [how])
  end.

Definition deferred_callback (self : AMIProtocol) (df : deferred) (a : argument) :=
  fire self df (Callback df a).

Definition deferred_errback (self : AMIProtocol) (df : deferred) (e : exn) :=
  fire self df (Errback df e).

(** [cache.append(event)] in [onEvent]. *)
Definition cache_append (self : AMIProtocol) (df : deferred) (event : message)
  : list message * AMIProtocol :=
  match nth_error self.(deferreds) df with
  | Some st =>
      let c := (st.(cache) ++ [event])%list in
      (c, set_deferreds
            (update self.(deferreds) df
               {| called := st.(called);
                  bound_actionid := st.(bound_actionid);
                  cache := c |})
            self)
  | None => ([event], self)
  end.

Definition field_is (m : message) (key expected : string) : bool :=
  match Py.get String.eqb key m with
  | Some v => String.eqb v expected
  | None => false
  end.

(** [onEvent(event)] of [collectDeferred]; called with an exception object
    it fails on [event.get]. *)
Definition onEvent (self : AMIProtocol) (df : deferred) (stopEvent : string)
           (a : argument) : pyresult unit * AMIProtocol * list effect :=
  match a with
  | ArgMessage event =>
      if field_is event "response" "Error" then
        deferred_errback self df (AMICommandFailure event)
      else if field_is event "event" stopEvent then
        let '(c, self) := cache_append self df event in
        deferred_callback self df (ArgList c)
      else
        let '(_, self) := cache_append self df event in
        (Return tt, self, [])
  | _ => (Raise AttributeError, self, [])
  end.

Section Application.

(** What the callables of the application do when called: they return
    ([None]) or raise, and leave the protocol object as it is.  (The
    handler that [dbGet] registers for itself, which deregisters itself
    when called, is not among them.) *)
Variable application_raises : nat -> argument -> option exn.
Variable handler_raises : handler -> message -> option exn.

(** [callable(a)] for a value of [actionIDCallbacks]. *)
Definition call (self : AMIProtocol) (callable : callback) (a : argument)
  : pyresult unit * AMIProtocol * list effect :=
  match callable with
  | DeferredCallback df => deferred_callback self df a
  | OnEvent df stopEvent => onEvent self df stopEvent a
  | ApplicationCallback tag =>
      (match application_raises tag a with
       | Some e => Raise e
       | None => Return tt
       end, self, [CallApplication tag a])
  end.

(** The inner loop of [dispatchEvent]. *)
Fixpoint call_handlers (handlers : list handler) (event : message)
  : list effect :=
  match handlers with
  | [] => []
  | h :: rest =>
      (CallHandler h event
       :: match handler_raises h event with
          | Some err => [LogError "Exception in event handler" err]
          | None => []
          end
       ++ call_handlers rest event)%list
  end.

(** [dispatchEvent(event)], for a message that has the field [event]. *)
Definition dispatchEvent (self : AMIProtocol) (event : message) : list effect :=
  match Py.get String.eqb "event" event with
  | Some name =>
      flat_map
        (fun key =>
           match Py.get event_eqb key self.(eventTypeCallbacks) with
           | Some handlers => call_handlers handlers event
           | None => []
           end)
        [Some name; None]
  | None => []
  end.

(** One turn of the loop of [dispatchIncoming]: a line popped from
    [messageCache] and merged into [message]. *)
Definition merge_line (self : AMIProtocol) (message : Manager.message)
           (line : string) : AMIProtocol * Manager.message * list effect :=
  let line := Py.strip line in
  if Py.is_empty line then (self, message, [])
  else
    match Py.drop_suffix END_DATA line with
    | Some line =>
        (self,
         Py.set String.eqb "output" (Py.join CRLF (Py.split Py.LF line)) message,
         [])
    | None =>
        if Py.startswith line VERSION_PREFIX then
          (set_amiVersion
             (Some (Py.strip (drop (String.length VERSION_PREFIX + 1) line))) self,
           message, [])
        else
          match Py.split_first ":" line with
          | None =>
              (self, message,
               [LogWarn "Improperly formatted line received and ignored" line])
          | Some (key, value) =>
              let key := Py.strip (Py.lower key) in
              match Py.get String.eqb key message with
              | Some old =>
                  (self,
                   Py.set String.eqb key (old ++ CRLF ++ Py.strip value) message,
                   [])
              | None =>
                  (self, Py.set String.eqb key (Py.strip value) message, [])
              end
          end
    end.

Fixpoint merge_lines (self : AMIProtocol) (message : Manager.message)
         (lines : list string) : AMIProtocol * Manager.message * list effect :=
  match lines with
  | [] => (self, message, [])
  | line :: rest =>
      let '(self, message, e1) := merge_line self message line in
      let '(self, message, e2) := merge_lines self message rest in
      (self, message, (e1 ++ e2)%list)
  end.

(** [dispatchIncoming]. *)
Definition dispatchIncoming (self : AMIProtocol) : AMIProtocol * list effect :=
  let '(self, message, e1) := merge_lines self [] self.(messageCache) in
  let self := set_messageCache [] self in
  let '(self, e2) :=
    match Py.get String.eqb "actionid" message with
    | Some key =>
        match Py.get Py.eqb (Py.PyStr key) self.(actionIDCallbacks) with
        | Some callback =>
            match call self callback (ArgMessage message) with
            | (Return _, self, e) => (self, e)
            | (Raise err, self, e) =>
                (self, (e ++ [LogFailure "exception in callback" err])%list)
            end
        | None => (self, [])
        end
    | None => (self, [])
    end in
  let e3 :=
    if Py.mem String.eqb "event" message then dispatchEvent self message else [] in
  (self, (e1 ++ e2 ++ e3)%list).

(** [lineReceived], on the decoded line. *)
Definition lineReceived (self : AMIProtocol) (line : string)
  : AMIProtocol * list effect :=
  let self := set_messageCache (self.(messageCache) ++ [line])%list self in
  if Py.is_empty (Py.bytes_strip line) then dispatchIncoming self
  else (self, []).

(** The loop of [connectionLost] over [actionIDCallbacks.items()]: the
    view is live, and each step first checks that the dict still has the
    size it had when the loop began.  The callables modelled never add or
    replace an entry, so as long as the size is the same the dict is, and the
    items still to come are those of [items]. *)
Fixpoint connectionLost_loop (used : nat) (items : list (Py.value * callback))
         (self : AMIProtocol) : pyresult unit * AMIProtocol * list effect :=
  if negb (Nat.eqb (length self.(actionIDCallbacks)) used) then
    (Raise (RuntimeError "dictionary changed size during iteration"), self, [])
  else
    match items with
    | [] => (Return tt, self, [])
    | (key, callable) :: rest =>
        let '(r, self, e1) :=
          call self callable (ArgException (ConnectionDone "Manager connection terminated")) in
        let e1 :=
          match r with
          | Return _ => e1
          | Raise err =>
              (e1 ++ [LogError "Failure during connectionLost for callable" err])%list
          end in
        let '(r, self, e2) := connectionLost_loop used rest self in
        (r, self, (e1 ++ e2)%list)
    end.

(** [connectionLost]: the two [clear()] calls are reached when the loop
    ends without raising. *)
Definition connectionLost (self : AMIProtocol) (reason : exn)
  : pyresult unit * AMIProtocol * list effect :=
  match connectionLost_loop (length self.(actionIDCallbacks))
                            self.(actionIDCallbacks) self with
  | (Return _, self, e) =>
      (Return tt, set_eventTypeCallbacks [] (set_actionIDCallbacks [] self), e)
  | (Raise err, self, e) => (Raise err, self, e)
  end.

End Application.

(** *** Sending *)

(** [generateActionId]. *)
Definition generateActionId (self : AMIProtocol) : string * AMIProtocol :=
  let self := set_count (self.(count) + 1) self in
  (self.(ami_id) ++ "-" ++ Py.str_int self.(count), self).

(** The first loop of [sendMessage] on a list: the value of the last
    header that reads [actionid], or [None]. *)
Definition supplied_actionid (items : list (string * Py.value)) : Py.value :=
  fold_left
    (fun actionid '(header, value) =>
       if String.eqb (Py.lower header) "actionid" then value else actionid)
    items Py.PyNone.

Definition header_line (item : string * Py.value) : effect :=
  SendLine (Py.lower (fst item) ++ ": " ++ Py.str (snd item)).

Definition register (self : AMIProtocol) (actionid : Py.value)
           (responseCallback : option callback) : AMIProtocol :=
  match responseCallback with
  | Some f =>
      set_actionIDCallbacks (Py.set Py.eqb actionid f self.(actionIDCallbacks)) self
  | None => self
  end.

(** [sendMessage(message, responseCallback)], where [message] is the
    address of the caller's object; no result when nothing lives there.
    Returns the [actionid]. *)
Definition sendMessage (self : AMIProtocol) (h : heap) (message : nat)
           (responseCallback : option callback)
  : option (Py.value * AMIProtocol * heap * list effect) :=
  match load h message with
  | Some (MsgList items) =>
      let actionid := supplied_actionid items in
      let '(actionid, self, items) :=
        match actionid with
        | Py.PyNone =>
            let '(generated, self) := generateActionId self in
            (Py.PyStr generated, self,
             (items ++ [("actionid", Py.PyStr generated)])%list)
        | _ => (actionid, self, items)
        end in
      let h := store h message (MsgList items) in
      let self := register self actionid responseCallback in
      Some (actionid, self, h,
            (map header_line items ++ [SendLine EmptyString])%list)
  | Some (MsgDict d) =>
      let message :=
        Py.of_pairs String.eqb (map (fun '(k, v) => (Py.lower k, v)) d) in
      let '(message, self) :=
        if Py.mem String.eqb "actionid" message then (message, self)
        else
          let '(generated, self) := generateActionId self in
          (Py.set String.eqb "actionid" (Py.PyStr generated) message, self) in
      let actionid :=
        match Py.get String.eqb "actionid" message with
        | Some v => v
        | None => Py.PyNone
        end in
      let self := register self actionid responseCallback in
      Some (actionid, self, h,
            (map header_line message ++ [SendLine EmptyString])%list)
  | None => None
  end.

Definition bind_actionid (self : AMIProtocol) (df : deferred)
           (actionid : Py.value) : AMIProtocol :=
  match nth_error self.(deferreds) df with
  | Some st =>
      set_deferreds
        (update self.(deferreds) df
           {| called := st.(called);
              bound_actionid := Some actionid;
              cache := st.(cache) |})
        self
  | None => self
  end.

(** [sendDeferred(message)]. *)
Definition sendDeferred (self : AMIProtocol) (h : heap) (message : nat)
  : option (deferred * AMIProtocol * heap * list effect) :=
  let '(df, self) := new_deferred self in
  match sendMessage self h message (Some (DeferredCallback df)) with
  | Some (actionid, self, h, e) => Some (df, bind_actionid self df actionid, h, e)
  | None => None
  end.

(** [collectDeferred(message, stopEvent)]. *)
Definition collectDeferred (self : AMIProtocol) (h : heap) (message : nat)
           (stopEvent : string)
  : option (deferred * AMIProtocol * heap * list effect) :=
  let '(df, self) := new_deferred self in
  match sendMessage self h message (Some (OnEvent df stopEvent)) with
  | Some (actionid, self, h, e) => Some (df, bind_actionid self df actionid, h, e)
  | None => None
  end.

(** *** Callbacks on the result *)

(** [errorUnlessResponse(message, expected)]: what is not a dict passes. *)
Definition errorUnlessResponse (message : argument) (expected : string)
  : outcome argument :=
  match message with
  | ArgMessage m =>
      match Py.get String.eqb "response" m with
      | Some response =>
          if String.eqb response expected then Ok message
          else Fail (Known (AMICommandFailure m))
      | None => Fail KeyError
      end
  | _ => Ok message
  end.

(** [onResult] of [command]: the lines of the output, or what is not a
    dict as it came. *)
Definition command_onResult (message : argument)
  : outcome (list string + argument) :=
  match message with
  | ArgMessage m =>
      match Py.get String.eqb "output" m with
      | Some output => Ok (inl (Py.split_crlf output))
      | None => Fail KeyError
      end
  | _ => Ok (inr message)
  end.

(** The callbacks of [command]; [newer] is the outcome of the comparison
    of [amiVersion] with [2.7.0] by [LooseVersion]. *)
Definition command_callbacks (newer : bool) (message : argument)
  : outcome (list string + argument) :=
  and_then (errorUnlessResponse message (if newer then "Success" else "Follows"))
           command_onResult.


End Manager.

(* ================================================================= *)
(** ** Runs of the protocols, and the vocabulary of the statements *)

Module Run.

(** *** FastAGI *)

(** [sendCommand] for each command in turn: the Deferreds returned, in
    order. *)
Fixpoint sendCommands (self : FastAGI.FastAGIProtocol) (commands : list string)
  : list deferred * FastAGI.FastAGIProtocol * list FastAGI.effect :=
  match commands with
  | [] => ([], self, [])
  | c :: rest =>
      let '(df, self, e1) := FastAGI.sendCommand self c in
      let '(dfs, self, e2) := sendCommands self rest in
      (df :: dfs, self, (e1 ++ e2)%list)
  end.

(** [lineReceived] for each line in turn. *)
Fixpoint linesReceived (self : FastAGI.FastAGIProtocol) (lines : list string)
  : FastAGI.FastAGIProtocol * list FastAGI.effect :=
  match lines with
  | [] => (self, [])
  | l :: rest =>
      let '(self, e1) := FastAGI.lineReceived self l in
      let '(self, e2) := linesReceived self rest in
      (self, (e1 ++ e2)%list)
  end.

(** A reply as the wire grammar has it: three digits, one space, and data
    that neither starts with a blank nor holds a newline. *)
Definition wire_reply (code data : string) : bool :=
  (Nat.eqb (String.length code) 3
   && Py.forall_chars Py.isdigit code
   && Py.forall_chars (fun c => negb (Ascii.eqb c Py.LF)) data
   && match data with
      | String c _ => negb (Py.isspace c)
      | EmptyString => true
      end)%bool.

Definition reply_line (r : string * string) : string :=
  fst r ++ " " ++ snd r.

(** How a reply resolves a Deferred: success with the data on [200], a
    fault with code and data otherwise. *)
Definition resolution (df : deferred) (r : string * string) : FastAGI.effect :=
  if String.eqb (fst r) "200" then FastAGI.Callback df (snd r)
  else FastAGI.Errback df (AGICommandFailure (Py.PyStr (fst r)) (snd r)).

(** The result-line grammar in the words of the specification: optional
    blanks around the line, the literal [result=], a signed integer, and
    optionally one space and a payload. *)
Definition spec_signed_integer (s : string) : bool :=
  let digits d := (negb (Py.is_empty d) && Py.forall_chars Py.isdigit d)%bool in
  match s with
  | String "-" r => digits r
  | String "+" r => digits r
  | _ => digits s
  end.

Definition spec_result_line (s : string) : bool :=
  match Py.drop_prefix "result=" (Py.strip s) with
  | Some rest =>
      match Py.split_first " " rest with
      | Some (number, payload) => spec_signed_integer number
      | None => spec_signed_integer rest
      end
  | None => false
  end.

Definition no_char (c : ascii) (s : string) : Prop :=
  Py.forall_chars (fun x => negb (Ascii.eqb x c)) s = true.

(** The lines the code takes, and the integer they carry: [result=] first,
    a token without space that [int] reads, and then nothing or one space and
    a payload; no newline anywhere. *)
Definition result_line (s : string) (n : Z) : Prop :=
  exists token tail,
    s = "result=" ++ token ++ tail
    /\ no_char Py.SP token /\ no_char Py.LF token
    /\ (tail = EmptyString
        \/ exists payload, tail = String Py.SP payload /\ no_char Py.LF payload)
    /\ Py.int_of_str token = Some n.

(** What follows the token: nothing, or one space and the payload. *)
Definition tail_of (data : option string) : string :=
  match data with
  | Some payload => String Py.SP payload
  | None => EmptyString
  end.

Definition clean (data : option string) : Prop :=
  match data with
  | Some payload => no_char Py.LF payload
  | None => True
  end.

(** *** InSequence *)

(** The results of actions that all succeed, one after the other, and the
    world they leave. *)
Fixpoint succeed_all {World Value} (actions : list (FastAGI.action World Value))
         (w : World) : option (list Value * World) :=
  match actions with
  | [] => Some ([], w)
  | a :: rest =>
      match a w with
      | (FastAGI.Succeeds _ r, w) =>
          match succeed_all rest w with
          | Some (rs, w) => Some (r :: rs, w)
          | None => None
          end
      | _ => None
      end
  end.

(** *** AMI *)

(** The handlers registered for a type, in registration order. *)
Definition handlers_of (self : Manager.AMIProtocol) (key : option string)
  : list Manager.handler :=
  match Py.get Manager.event_eqb key self.(Manager.eventTypeCallbacks) with
  | Some l => l
  | None => []
  end.




(** A list of header and value pairs with no [actionid] header among
    them. *)
Definition lacks_actionid (items : list (string * Py.value)) : bool :=
  forallb (fun '(header, _) => negb (String.eqb (Py.lower header) "actionid")) items.

(** Whether [sendMessage] generates the [actionid] of a message: the
    caller supplied none. *)
Definition generates (o : Manager.outgoing) : bool :=
  match o with
  | Manager.MsgList items =>
      match Manager.supplied_actionid items with
      | Py.PyNone => true
      | _ => false
      end
  | Manager.MsgDict d =>
      negb (Py.mem String.eqb "actionid"
              (Py.of_pairs String.eqb (map (fun '(k, v) => (Py.lower k, v)) d)))
  end.


(** What [connectionLost] hands to every pending callable. *)
Definition closing : Manager.argument :=
  Manager.ArgException (ConnectionDone "Manager connection terminated").

(** The trace of [connectionLost] over callables of the application. *)
Fixpoint application_calls
         (application_raises : nat -> Manager.argument -> option exn)
         (items : list (Py.value * Manager.callback)) : list Manager.effect :=
  match items with
  | [] => []
  | (_, Manager.ApplicationCallback tag) :: rest =>
      (Manager.CallApplication tag closing
       :: match application_raises tag closing with
          | Some err =>
              [Manager.LogError "Failure during connectionLost for callable" err]
          | None => []
          end
       ++ application_calls application_raises rest)%list
  | _ :: rest => application_calls application_raises rest
  end.

Definition is_application (item : Py.value * Manager.callback) : Prop :=
  exists tag, snd item = Manager.ApplicationCallback tag.

Definition token (uuid : string) (counter : Z) : Py.value :=
  Py.PyStr (uuid ++ "-" ++ Py.str_int counter).


(** *** Further vocabulary *)

(** The Deferreds a FastAGI trace resolves, in order. *)
Fixpoint resolved (trace : list FastAGI.effect) : list deferred :=
  match trace with
  | [] => []
  | FastAGI.Callback df _ :: rest => df :: resolved rest
  | FastAGI.Errback df _ :: rest => df :: resolved rest
  | _ :: rest => resolved rest
  end.

(** Whether a colon followed by a space occurs in a text. *)
Fixpoint colon_space (s : string) : bool :=
  match s with
  | EmptyString => false
  | String c r =>
      (Ascii.eqb c ":"
       && match r with
          | String d _ => Ascii.eqb d " "
          | EmptyString => false
          end
       || colon_space r)%bool
  end.

(** A word: no space and no parenthesis. *)
Definition word (s : string) : bool :=
  Py.forall_chars
    (fun c => negb (Ascii.eqb c " " || Ascii.eqb c "(" || Ascii.eqb c ")")%bool) s.

(** The characters that [strip('()')] removes. *)
Definition paren (c : ascii) : bool :=
  existsb (Ascii.eqb c) (list_ascii_of_string "()").

(** The closure [onEvent] of [collectDeferred], called with each event
    in turn. *)
Fixpoint onEvents (self : Manager.AMIProtocol) (df : deferred)
         (stopEvent : string) (events : list Manager.message)
  : Manager.AMIProtocol * list Manager.effect :=
  match events with
  | [] => (self, [])
  | event :: rest =>
      let '(_, self, e1) :=
        Manager.onEvent self df stopEvent (Manager.ArgMessage event) in
      let '(self, e2) := onEvents self df stopEvent rest in
      (self, (e1 ++ e2)%list)
  end.

(** An event that [onEvent] keeps and waits on: no [Error] response, not
    the stop event. *)
Definition keeps_waiting (stopEvent : string) (event : Manager.message) : bool :=
  (negb (Manager.field_is event "response" "Error")
   && negb (Manager.field_is event "event" stopEvent))%bool.

Definition is_collector (item : Py.value * Manager.callback) : Prop :=
  exists df stopEvent, snd item = Manager.OnEvent df stopEvent.


(** A text that does not begin with a blank. *)
Definition starts_clean (s : string) : bool :=
  match s with
  | String c _ => negb (Py.isspace c)
  | EmptyString => true
  end.

(** [lineReceived] of the AMI protocol for each line in turn. *)
Fixpoint ami_linesReceived
         (application_raises : nat -> Manager.argument -> option exn)
         (handler_raises : Manager.handler -> Manager.message -> option exn)
         (self : Manager.AMIProtocol) (lines : list string)
  : Manager.AMIProtocol * list Manager.effect :=
  match lines with
  | [] => (self, [])
  | l :: rest =>
      let '(self, e1) :=
        Manager.lineReceived application_raises handler_raises self l in
      let '(self, e2) :=
        ami_linesReceived application_raises handler_raises self rest in
      (self, (e1 ++ e2)%list)
  end.

(** An effect that reaches a pending callable: a Deferred fired, or a
    callable of the application called. *)
Definition reaches_callback (x : Manager.effect) : bool :=
  match x with
  | Manager.Callback _ _ => true
  | Manager.Errback _ _ => true
  | Manager.CallApplication _ _ => true
  | _ => false
  end.

(** A pending entry whose token is a text. *)
Definition text_token (item : Py.value * Manager.callback) : bool :=
  match fst item with
  | Py.PyStr _ => true
  | _ => false
  end.

(** Whether a carriage return followed by a newline occurs in a text. *)
Fixpoint has_crlf (s : string) : bool :=
  match s with
  | EmptyString => false
  | String c r =>
      (Ascii.eqb c Py.CR
       && match r with
          | String d _ => Ascii.eqb d Py.LF
          | EmptyString => false
          end
       || has_crlf r)%bool
  end.

(** The header line [Output: <value>] of a response to [command]. *)
Definition output_line (value : string) : string := "Output: " ++ value.

(** A value as such a header line carries it: no blank at either end, no
    line end inside, and the line does not end as the output of an old
    response does. *)
Definition output_value (v : string) : bool :=
  (starts_clean v
   && String.eqb (Py.rstrip_with Py.isspace v) v
   && negb (has_crlf v)
   && negb (Py.endswith (output_line v) Manager.END_DATA))%bool.

(** The line that carries a variable in the preamble of a FastAGI
    connection, and the pairs such lines can carry: no newline in name or
    value, and no colon followed by a space in the value. *)
Definition variable_line (kv : string * string) : string :=
  "agi_" ++ fst kv ++ ": " ++ snd kv.

Definition variable_pair (kv : string * string) : bool :=
  (Py.forall_chars (fun x => negb (Ascii.eqb x Py.LF)) (fst kv)
   && Py.forall_chars (fun x => negb (Ascii.eqb x Py.LF)) (snd kv)
   && negb (colon_space (snd kv)))%bool.

End Run.

(* ================================================================= *)
(** ** Concrete connections and actions *)

Module Example.

(** A FastAGI connection that has read its variables. *)
Definition ready : FastAGI.FastAGIProtocol :=
  fst (FastAGI.lineReceived (FastAGI.connectionMade (FastAGI.init false)) EmptyString).

Definition commands : list string := ["ANSWER"; "HANGUP"].

Definition replies : list (string * string) :=
  [("200", "result=0"); ("510", "Invalid or unknown command")].

(** Three actions on a world that logs who ran; the second one fails. *)
Definition first_action : FastAGI.action (list nat) string :=
  fun w => (FastAGI.Succeeds _ "one", (w ++ [1%nat])%list).
Definition second_action : FastAGI.action (list nat) string :=
  fun w => (FastAGI.Fails _ (ApplicationError 2), (w ++ [2%nat])%list).
Definition third_action : FastAGI.action (list nat) string :=
  fun w => (FastAGI.Succeeds _ "three", (w ++ [3%nat])%list).

(** An application whose callables return. *)
Definition quiet : nat -> Manager.argument -> option exn := fun _ _ => None.

(** An AMI connection with two requests of [sendDeferred] in flight. *)
Definition two_requests : Manager.heap :=
  [Manager.MsgDict [("action", Py.PyStr "ping")];
   Manager.MsgDict [("action", Py.PyStr "status")]].

Definition two_pending : Manager.AMIProtocol :=
  match Manager.sendDeferred (Manager.init "uuid") two_requests 0%nat with
  | Some (_, self, h, _) =>
      match Manager.sendDeferred self h 1%nat with
      | Some (_, self, _, _) => self
      | None => self
      end
  | None => Manager.init "uuid"
  end.

(** Handler [1] for [Hangup], which raises, and handler [2] for every
    event. *)
Definition subscribed : Manager.AMIProtocol :=
  Manager.registerEvent
    (Manager.registerEvent (Manager.init "uuid")
       (Manager.OneType (Some "Hangup")) 1%nat)
    (Manager.OneType None) 2%nat.



(** Handlers that return. *)
Definition silent : Manager.handler -> Manager.message -> option exn :=
  fun _ _ => None.

(** The message of the lines [Response: Success] and [ActionID: x-1]. *)
Definition success_message : Manager.message :=
  [("response", "Success"); ("actionid", "x-1")].

(** A connection on which [sendDeferred] has sent a request under the
    caller's token [x-1]. *)
Definition one_request : Manager.heap :=
  [Manager.MsgDict [("action", Py.PyStr "ping"); ("actionid", Py.PyStr "x-1")]].

Definition one_pending : Manager.AMIProtocol :=
  match Manager.sendDeferred (Manager.init "uuid") one_request 0%nat with
  | Some (_, self, _, _) => self
  | None => Manager.init "uuid"
  end.

(** A list and a dict, both without [actionid]. *)
Definition list_and_dict : Manager.heap :=
  [Manager.MsgList [("Action", Py.PyStr "Ping")];
   Manager.MsgDict [("Action", Py.PyStr "Ping")]].

(** A collector of [collectDeferred] for [StatusComplete], two [Status]
    events and the closing one. *)
Definition status_request : Manager.heap :=
  [Manager.MsgDict [("action", Py.PyStr "Status")]].

Definition collecting : Manager.AMIProtocol :=
  match Manager.collectDeferred (Manager.init "uuid") status_request 0%nat
          "StatusComplete" with
  | Some (_, self, _, _) => self
  | None => Manager.init "uuid"
  end.

Definition status_event (channel : string) : Manager.message :=
  [("event", "Status"); ("actionid", "uuid-1"); ("channel", channel)].

Definition status_complete : Manager.message :=
  [("event", "StatusComplete"); ("actionid", "uuid-1")].


(** A request of [sendDeferred] whose caller chose the integer [7] as
    token. *)
Definition numbered_request : Manager.heap :=
  [Manager.MsgDict [("action", Py.PyStr "ping"); ("actionid", Py.PyInt 7)]].

Definition numbered_pending : Manager.AMIProtocol :=
  match Manager.sendDeferred (Manager.init "uuid") numbered_request 0%nat with
  | Some (_, self, _, _) => self
  | None => Manager.init "uuid"
  end.

End Example.

(* ================================================================= *)
(** ** Facts about text *)

Section TextFacts.

Lemma append_nil_r (s : string) : s ++ EmptyString = s.
Proof. induction s as [|c s IH]; simpl; [reflexivity | now rewrite IH]. Qed.

Lemma append_assoc (a b c : string) : (a ++ b) ++ c = a ++ (b ++ c).
Proof. induction a as [|x a IH]; simpl; [reflexivity | now rewrite IH]. Qed.

Lemma drop_prefix_append (p s : string) :
  Py.drop_prefix p (p ++ s) = Some s.
Proof.
  induction p as [|c p IH]; simpl.
  - now destruct s.
  - now rewrite Ascii.eqb_refl.
Qed.

Lemma drop_prefix_inv (p : string) :
  forall s r, Py.drop_prefix p s = Some r -> s = p ++ r.
Proof.
  induction p as [|c p IH]; intros s r H; simpl in *.
  - destruct s; now inversion H.
  - destruct s as [|d s]; [discriminate|].
    destruct (Ascii.eqb_spec c d) as [->|]; [|discriminate].
    simpl. f_equal. now apply IH.
Qed.

Lemma forall_chars_append (p : ascii -> bool) (a b : string) :
  Py.forall_chars p (a ++ b)
  = (Py.forall_chars p a && Py.forall_chars p b)%bool.
Proof.
  induction a as [|c a IH]; simpl; [reflexivity|].
  now rewrite IH, andb_assoc.
Qed.

Lemma lstrip_none (p : ascii -> bool) (s : string) :
  Py.forall_chars (fun c => negb (p c)) s = true -> Py.lstrip_with p s = s.
Proof.
  destruct s as [|c s]; simpl; [reflexivity|].
  intros H. apply andb_prop in H. destruct H as [H _].
  now apply negb_true_iff in H; rewrite H.
Qed.

Lemma rstrip_none (p : ascii -> bool) (s : string) :
  Py.forall_chars (fun c => negb (p c)) s = true -> Py.rstrip_with p s = s.
Proof.
  induction s as [|c s IH]; simpl; [reflexivity|].
  intros H. apply andb_prop in H. destruct H as [Hc Hs].
  rewrite (IH Hs). apply negb_true_iff in Hc. rewrite Hc.
  now rewrite andb_false_r.
Qed.

Lemma strip_none (p : ascii -> bool) (s : string) :
  Py.forall_chars (fun c => negb (p c)) s = true -> Py.strip_with p s = s.
Proof.
  intros H. unfold Py.strip_with. rewrite (lstrip_none p s H).
  now apply rstrip_none.
Qed.

Lemma forall_chars_impl (p q : ascii -> bool) (s : string) :
  (forall c, p c = true -> q c = true) ->
  Py.forall_chars p s = true -> Py.forall_chars q s = true.
Proof.
  intros Hpq. induction s as [|c s IH]; simpl; [reflexivity|].
  intros H. apply andb_prop in H. destruct H as [Hc Hs].
  now rewrite (Hpq c Hc), (IH Hs).
Qed.

End TextFacts.

(* ================================================================= *)
(** ** [str] and [int] on integers *)

Section Decimal.

Ltac eval_digit :=
  cbn [Py.int_digits];
  match goal with
  | |- context [Py.isdigit ?c] =>
      let b := eval vm_compute in (Py.isdigit c) in
      change (Py.isdigit c) with b
  end;
  cbv iota;
  match goal with
  | |- context [Py.digit_value ?c] =>
      let v := eval vm_compute in (Py.digit_value c) in
      change (Py.digit_value c) with v
  end.

Lemma int_digits_acc (d : Decimal.uint) :
  forall acc : positive,
    Py.int_digits (Z.pos acc) true (DecimalString.NilEmpty.string_of_uint d)
    = Some (Z.pos (Pos.of_uint_acc d acc)).
Proof.
  induction d; intros acc; cbn [DecimalString.NilEmpty.string_of_uint Pos.of_uint_acc];
    try reflexivity;
    eval_digit;
    match goal with
    | |- Py.int_digits ?a _ _ = Some (Z.pos (Pos.of_uint_acc _ ?b)) =>
        replace a with (Z.pos b) by lia
    end; apply IHd.
Qed.

Lemma int_digits_zero (d : Decimal.uint) :
  Py.int_digits 0 true (DecimalString.NilEmpty.string_of_uint d)
  = Some (Z.of_N (Pos.of_uint d)).
Proof.
  induction d; cbn [DecimalString.NilEmpty.string_of_uint Pos.of_uint];
    try reflexivity;
    eval_digit; cbn [Z.mul Z.add Z.of_N];
    first [ exact IHd | apply (int_digits_acc d) ].
Qed.

Lemma int_digits_start (d : Decimal.uint) :
  d <> Decimal.Nil ->
  Py.int_digits 0 false (DecimalString.NilEmpty.string_of_uint d)
  = Py.int_digits 0 true (DecimalString.NilEmpty.string_of_uint d).
Proof.
  destruct d; intros H; try congruence; reflexivity.
Qed.

Lemma int_digits_uint (d : Decimal.uint) :
  Py.int_digits 0 false (DecimalString.NilZero.string_of_uint d) = Some (Z.of_uint d).
Proof.
  unfold Z.of_uint. destruct d; try reflexivity;
    unfold DecimalString.NilZero.string_of_uint;
    (rewrite int_digits_start by discriminate); apply int_digits_zero.
Qed.

Lemma string_of_uint_chars (d : Decimal.uint) :
  Py.forall_chars Py.isdigit (DecimalString.NilEmpty.string_of_uint d) = true.
Proof. induction d; simpl; try reflexivity; exact IHd. Qed.

Lemma nilzero_chars (d : Decimal.uint) :
  Py.forall_chars Py.isdigit (DecimalString.NilZero.string_of_uint d) = true.
Proof.
  destruct d; try reflexivity; apply (string_of_uint_chars).
Qed.

Lemma digit_not_blank (c : ascii) :
  Py.isdigit c = true -> negb (Py.isspace_int c) = true.
Proof.
  unfold Py.isdigit, Py.isspace_int, Py.isspace_ascii, Py.in_range.
  generalize (Py.ord c). intros n H.
  apply andb_prop in H. destruct H as [H1 H2].
  apply N.leb_le in H1. apply N.leb_le in H2.
  apply negb_true_iff.
  repeat (apply orb_false_iff; split);
    try (apply andb_false_iff; right; apply N.leb_gt; lia);
    apply N.eqb_neq; lia.
Qed.

Lemma int_signed_uint (d : Decimal.uint) :
  Py.int_signed (DecimalString.NilZero.string_of_uint d) = Some (Z.of_uint d).
Proof.
  pose proof (int_digits_uint d) as H.
  destruct d; try exact H; reflexivity.
Qed.

(** [int(str(n)) == n]. *)
Lemma int_of_str_str_int (z : Z) : Py.int_of_str (Py.str_int z) = Some z.
Proof.
  unfold Py.int_of_str, Py.str_int.
  rewrite <- (DecimalZ.of_to z) at 2.
  destruct (Z.to_int z) as [d|d]; cbn [DecimalString.NilZero.string_of_int Z.of_int].
  - rewrite strip_none.
    + apply int_signed_uint.
    + apply forall_chars_impl with (p := Py.isdigit);
        [apply digit_not_blank | apply nilzero_chars].
  - rewrite strip_none.
    + cbn [Py.int_signed]. rewrite int_digits_uint. reflexivity.
    + cbn [Py.forall_chars]. apply andb_true_intro. split; [reflexivity|].
      apply forall_chars_impl with (p := Py.isdigit);
        [apply digit_not_blank | apply nilzero_chars].
Qed.


End Decimal.

(* ================================================================= *)
(** ** The result line *)

Section ResultLine.

Import FastAGI Run.

Lemma result_tail_complete (token : string) :
  forall group1 data,
    no_char Py.SP token -> no_char Py.LF token -> clean data ->
    result_tail group1 (token ++ tail_of data)
    = Some (group1 ++ token, data).
Proof.
  unfold no_char.
  induction token as [|c token IH]; intros group1 data Hs Hn Hd.
  - rewrite append_nil_r. destruct data as [payload|]; simpl in *.
    + now rewrite Hd.
    + reflexivity.
  - simpl in Hs, Hn. apply andb_prop in Hs. apply andb_prop in Hn.
    destruct Hs as [Hs1 Hs2], Hn as [Hn1 Hn2].
    apply negb_true_iff in Hs1, Hn1.
    cbn [String.append result_tail]. rewrite Hs1, Hn1. cbn [andb].
    rewrite (IH _ data Hs2 Hn2 Hd), append_assoc. reflexivity.
Qed.

Lemma result_tail_sound (s : string) :
  forall group1 group1' data,
    result_tail group1 s = Some (group1', data) ->
    exists token,
      group1' = group1 ++ token /\ s = token ++ tail_of data
      /\ no_char Py.SP token /\ no_char Py.LF token /\ clean data.
Proof.
  unfold no_char.
  induction s as [|c s IH]; intros group1 group1' data H; cbn [result_tail] in H.
  - inversion H; subst. exists EmptyString. rewrite append_nil_r.
    repeat split; reflexivity.
  - destruct (Ascii.eqb c Py.SP && _)%bool eqn:E.
    + inversion H; subst. exists EmptyString.
      apply andb_prop in E. destruct E as [E1 E2].
      apply Ascii.eqb_eq in E1. subst c.
      rewrite append_nil_r. repeat split; try reflexivity. exact E2.
    + destruct (Ascii.eqb c Py.LF) eqn:El; [discriminate|].
      destruct (IH _ _ _ H) as (token & -> & -> & Hs & Hn & Hd).
      exists (String c token). rewrite append_assoc.
      repeat split; try assumption; cbn [Py.forall_chars].
      * rewrite Hs, andb_true_r. apply negb_true_iff.
        destruct (Ascii.eqb c Py.SP) eqn:Es; [|reflexivity].
        cbn [andb] in E.
        (* the space was followed by a newline: no match at all *)
        exfalso. clear - E Hn Hd.
        rewrite forall_chars_append in E. unfold no_char in *.
        rewrite Hn in E. cbn [andb] in E.
        destruct data as [payload|]; simpl in *; [|discriminate].
        rewrite Hd in E. discriminate.
      * now rewrite El, Hn.
Qed.

Lemma result_re_iff (s token : string) (data : option string) :
  result_re s = Some (token, data)
  <-> s = "result=" ++ token ++ tail_of data
      /\ no_char Py.SP token /\ no_char Py.LF token /\ clean data.
Proof.
  unfold result_re. split.
  - destruct (Py.drop_prefix "result=" s) as [r|] eqn:E; [|discriminate].
    intros H. apply drop_prefix_inv in E.
    destruct (result_tail_sound _ _ _ _ H) as (t & Ht & -> & Hs & Hn & Hd).
    simpl in Ht. subst t. auto.
  - intros (-> & Hs & Hn & Hd). rewrite drop_prefix_append.
    now rewrite result_tail_complete.
Qed.

Lemma result_re_none (s : string) :
  result_re s = None
  <-> (forall rest, s = "result=" ++ rest -> ~ no_char Py.LF rest).
Proof.
  split.
  - intros H rest -> Hn. unfold result_re in H.
    rewrite drop_prefix_append in H.
    clear - H Hn. revert H. generalize EmptyString as g.
    unfold no_char in Hn.
    induction rest as [|c r IH]; intros g H; cbn [result_tail] in H.
    + discriminate.
    + cbn [Py.forall_chars] in Hn. apply andb_prop in Hn.
      destruct Hn as [Hc Hr]. rewrite Hr, andb_true_r in H.
      destruct (Ascii.eqb c Py.SP); [discriminate|].
      apply negb_true_iff in Hc. rewrite Hc in H. eapply IH; eauto.
  - intros H. destruct (result_re s) as [[token data]|] eqn:E; [|reflexivity].
    apply result_re_iff in E. destruct E as (E & Hs & Hn & Hd).
    exfalso. apply (H _ E). unfold no_char in *.
    rewrite forall_chars_append, Hn.
    destruct data as [payload|]; simpl in *; [exact Hd | reflexivity].
Qed.

Lemma result_line_iff (s : string) (n : Z) :
  result_line s n
  <-> exists token data,
        result_re s = Some (token, data) /\ Py.int_of_str token = Some n.
Proof.
  split.
  - intros (token & tail & -> & Hs & Hn & Ht & Hi).
    destruct Ht as [->|(payload & -> & Hp)].
    + exists token, None. split; [|exact Hi].
      apply result_re_iff. simpl. auto.
    + exists token, (Some payload). split; [|exact Hi].
      apply result_re_iff. simpl. auto.
  - intros (token & data & H & Hi).
    apply result_re_iff in H. destruct H as (-> & Hs & Hn & Hd).
    exists token, (tail_of data). repeat split; try assumption.
    destruct data as [payload|]; [right|left; reflexivity].
    exists payload. split; [reflexivity | exact Hd].
Qed.

Lemma resultAsInt_iff (s : string) (n : Z) :
  resultAsInt s = Return n <-> result_line s n.
Proof.
  rewrite result_line_iff. unfold resultAsInt. split.
  - destruct (result_re s) as [[token data]|]; [|discriminate].
    destruct (Py.int_of_str token) as [m|] eqn:E; [|discriminate].
    intros H. inversion H; subst. now exists token, data.
  - intros (token & data & -> & ->). reflexivity.
Qed.

Lemma resultAsInt_fault (s : string) :
  (forall n, ~ result_line s n) ->
  resultAsInt s = Raise (AGICommandFailure (Py.PyInt (-1)) s).
Proof.
  intros H. destruct (resultAsInt s) as [n|e] eqn:E.
  - exfalso. apply (H n). now apply resultAsInt_iff.
  - revert E. unfold resultAsInt.
    destruct (result_re s) as [[token data]|];
      [destruct (Py.int_of_str token)|];
      intros E; try discriminate; now rewrite <- E.
Qed.

Lemma checkFailure_code (s : string) (n : Z) (failure : Py.value) :
  result_line s n ->
  checkFailure s failure
  = if Py.eqb (Py.PyInt n) failure
    then Raise (AGICommandFailure (Py.PyInt (-1)) s)
    else Return s.
Proof.
  rewrite result_line_iff. intros (token & data & H & Hi).
  unfold checkFailure. now rewrite H, Hi.
Qed.

Lemma checkFailure_no_match (s : string) (failure : Py.value) :
  (forall rest, s = "result=" ++ rest -> ~ no_char Py.LF rest) ->
  checkFailure s failure = Raise (AGICommandFailure (Py.PyInt (-1)) s).
Proof.
  intros H. apply result_re_none in H. unfold checkFailure. now rewrite H.
Qed.

End ResultLine.

(** The characters of [str(n)]: digits, and the sign. *)
Lemma str_int_chars (n : Z) :
  Py.forall_chars (fun c => (Py.isdigit c || Ascii.eqb c "-")%bool) (Py.str_int n)
  = true.
Proof.
  unfold Py.str_int.
  assert (D : forall d,
             Py.forall_chars (fun c => (Py.isdigit c || Ascii.eqb c "-")%bool)
               (DecimalString.NilZero.string_of_uint d) = true).
  { intros d. apply forall_chars_impl with (p := Py.isdigit);
      [intros c Hc; now rewrite Hc | apply nilzero_chars]. }
  destruct (Z.to_int n) as [d|d]; cbn [DecimalString.NilZero.string_of_int Py.forall_chars];
    [apply D | now rewrite D].
Qed.

Lemma str_int_no_char (n : Z) (c : ascii) :
  Py.isdigit c = false -> Ascii.eqb c "-" = false ->
  Run.no_char c (Py.str_int n).
Proof.
  intros Hd Hm. unfold Run.no_char.
  apply forall_chars_impl with (2 := str_int_chars n).
  intros x Hx. apply negb_true_iff.
  destruct (Ascii.eqb_spec x c) as [->|]; [|reflexivity].
  now rewrite Hd, Hm in Hx.
Qed.

(** A line [result=<n>] or [result=<n> <payload>] is in the grammar, with
    [n]. *)
Lemma decimal_result_line (n : Z) (data : option string) :
  Run.clean data ->
  Run.result_line ("result=" ++ Py.str_int n ++ Run.tail_of data) n.
Proof.
  intros Hd. exists (Py.str_int n), (Run.tail_of data).
  repeat split.
  - now apply str_int_no_char.
  - now apply str_int_no_char.
  - destruct data as [payload|]; [right|left; reflexivity].
    now exists payload.
  - apply int_of_str_str_int.
Qed.

(* ================================================================= *)
(** ** The result-line parsers ([checkFailure], [resultAsInt]) *)

(** C2, as the specification words it, fails: a line with a blank before
    [result=] is in the specification's grammar, and both parsers answer it
    with the fault. *)
Lemma leading_blank_is_a_fault :
  Run.spec_result_line " result=5" = true
  /\ FastAGI.resultAsInt " result=5"
     = Raise (AGICommandFailure (Py.PyInt (-1)) " result=5")
  /\ FastAGI.checkFailure " result=5" (Py.PyInt (-1))
     = Raise (AGICommandFailure (Py.PyInt (-1)) " result=5").
Proof. repeat split; reflexivity. Qed.

(** C2, amended.  The parsers take exactly the lines of [Run.result_line]:
    [result=] at the very start, a token that [int] reads, then nothing
    or one space and a payload that may hold spaces and parentheses.
    [resultAsInt] returns the integer of such a line and answers every other
    input with the typed fault; [checkFailure] hands such a line back
    unchanged unless its integer is the sentinel, and answers every input
    that is not [result=] followed by newline-free text with the typed fault.
    Every line [result=<n>] and [result=<n> <payload>], for a decimal [n],
    is such a line. *)
Theorem result_parsers_grammar (s : string) :
  (forall n, FastAGI.resultAsInt s = Return n <-> Run.result_line s n)
  /\ ((forall n, ~ Run.result_line s n) ->
      FastAGI.resultAsInt s = Raise (AGICommandFailure (Py.PyInt (-1)) s))
  /\ (forall failure s',
         FastAGI.checkFailure s failure = Return s'
         <-> s' = s /\ exists n, Run.result_line s n
                                 /\ Py.eqb (Py.PyInt n) failure = false)
  /\ (forall failure,
         (forall rest, s = "result=" ++ rest -> ~ Run.no_char Py.LF rest) ->
         FastAGI.checkFailure s failure
         = Raise (AGICommandFailure (Py.PyInt (-1)) s))
  /\ (forall n data,
         Run.clean data -> s = "result=" ++ Py.str_int n ++ Run.tail_of data ->
         Run.result_line s n).
Proof.
  split; [intros n; apply resultAsInt_iff|].
  split; [apply resultAsInt_fault|].
  split; [|split].
  - intros failure s'. split.
    + intros H. unfold FastAGI.checkFailure in H.
      destruct (FastAGI.result_re s) as [[token data]|] eqn:E; [|discriminate].
      destruct (Py.int_of_str token) as [n|] eqn:Ei; [|discriminate].
      destruct (Py.eqb (Py.PyInt n) failure) eqn:Ef; [discriminate|].
      inversion H; subst. split; [reflexivity|].
      exists n. split; [|exact Ef].
      apply result_line_iff. now exists token, data.
    + intros (-> & n & Hl & Hf).
      now rewrite (checkFailure_code s n failure Hl), Hf.
  - intros failure. apply checkFailure_no_match.
  - intros n data Hd ->. now apply decimal_result_line.
Qed.

(** The slip beside C2: a line that has [result=] but no integer leaves
    [checkFailure] as the [ValueError] of [int], which [resultAsInt]
    catches and [checkFailure] does not. *)
Lemma checkFailure_untyped_fault :
  FastAGI.checkFailure "result=abc" (Py.PyInt (-1)) = Raise ValueError
  /\ FastAGI.resultAsInt "result=abc"
     = Raise (AGICommandFailure (Py.PyInt (-1)) "result=abc").
Proof. split; reflexivity. Qed.

(** C3, as the specification words it, fails: with the sentinel of
    [databaseDel] in force, a result code of [-1] is no fault. *)
Lemma sentinel_replaces_default :
  FastAGI.checkFailure "result=-1" (Py.PyStr "0") = Return "result=-1"
  /\ FastAGI.databaseDel_callbacks "result=-1" = Return (-1).
Proof. split; reflexivity. Qed.

(** C3, amended.  On a result line that carries the integer [code],
    [checkFailure] with an integer sentinel [failure] (by default [-1])
    raises the typed fault exactly when [code] is [failure], and hands the
    line back unchanged otherwise: the caller's sentinel takes the place of
    [-1]. *)
Theorem checkFailure_sentinel (result : string) (code failure : Z) :
  Run.result_line result code ->
  FastAGI.checkFailure result (Py.PyInt failure)
  = if code =? failure
    then Raise (AGICommandFailure (Py.PyInt (-1)) result)
    else Return result.
Proof. intros H. now rewrite (checkFailure_code result code _ H). Qed.

Lemma checkFailure_sentinel_witness :
  Run.result_line "result=-1" (-1)
  /\ FastAGI.checkFailure "result=-1" (Py.PyInt (-1))
     = Raise (AGICommandFailure (Py.PyInt (-1)) "result=-1").
Proof.
  assert (H : Run.result_line "result=-1" (-1))
    by (apply resultAsInt_iff; reflexivity).
  split; [exact H | exact (checkFailure_sentinel "result=-1" (-1) (-1) H)].
Defined.

(** The slip beside C3: the sentinels the operations pass are text, the
    parsed code is an integer, and the two never compare equal; a result of
    [0] leaves [databaseDel] as the integer [0], and a result of [-2] leaves
    [execute] as the line. *)
Lemma text_sentinel_never_matches (result : string) (code : Z) (sentinel : string) :
  Run.result_line result code ->
  FastAGI.checkFailure result (Py.PyStr sentinel) = Return result.
Proof. intros H. now rewrite (checkFailure_code result code _ H). Qed.

Lemma operations_miss_their_sentinel :
  FastAGI.databaseDel_callbacks "result=0" = Return 0
  /\ FastAGI.execute_callbacks "result=-2" = Return "result=-2".
Proof. split; reflexivity. Qed.

(* ================================================================= *)
(** ** FastAGI: replies in send order *)

Section Fifo.

Import FastAGI Run.

Lemma dot_star_clean (s : string) :
  no_char Py.LF s -> dot_star s = (s, EmptyString).
Proof.
  unfold no_char. induction s as [|c s IH]; simpl; [reflexivity|].
  intros H. apply andb_prop in H. destruct H as [Hc Hs].
  apply negb_true_iff in Hc. now rewrite Hc, (IH Hs).
Qed.

Lemma dot_star_eol_clean (s : string) :
  no_char Py.LF s -> dot_star_eol s = Some s.
Proof. intros H. unfold dot_star_eol. now rewrite (dot_star_clean s H). Qed.

Lemma line_re_reply (code data : string) :
  wire_reply code data = true ->
  line_re (reply_line (code, data)) = Some (code, data).
Proof.
  unfold wire_reply, reply_line. intros H.
  apply andb_prop in H. destruct H as [H Hb].
  apply andb_prop in H. destruct H as [H Hn].
  apply andb_prop in H. destruct H as [Hl Hd].
  destruct code as [|a [|b [|c [|d code]]]]; try discriminate.
  cbn [Py.forall_chars] in Hd.
  apply andb_prop in Hd. destruct Hd as [Ha Hd].
  apply andb_prop in Hd. destruct Hd as [Hb' Hd].
  apply andb_prop in Hd. destruct Hd as [Hc _].
  cbn [fst snd String.append line_re].
  rewrite Ha, Hb', Hc.
  cbn [andb spaces_then_data].
  change (Py.isspace " ") with true. cbv iota.
  assert (E : spaces_then_data data = None).
  { destruct data as [|x data]; [reflexivity|].
    cbn [spaces_then_data]. apply negb_true_iff in Hb. now rewrite Hb. }
  rewrite E. now rewrite dot_star_eol_clean.
Qed.

Lemma sendCommands_spec (commands : list string) :
  forall self,
    let sent := sendCommands self commands in
    fst (fst sent) = seq (created self) (length commands)
    /\ pendingMessages (snd (fst sent))
       = (pendingMessages self ++ seq (created self) (length commands))%list
    /\ reading_variables (snd (fst sent)) = reading_variables self
    /\ snd sent = map SendLine commands.
Proof.
  induction commands as [|c commands IH]; intros self; cbn zeta.
  - cbn. rewrite List.app_nil_r. auto.
  - cbn [sendCommands sendCommand new_deferred].
    set (self1 := set_pendingMessages _ _).
    specialize (IH self1). cbn zeta in IH.
    destruct (sendCommands self1 commands) as [[dfs self2] e2].
    cbn [fst snd] in *. destruct IH as (-> & -> & -> & ->).
    subst self1. cbn. rewrite <- List.app_assoc. auto.
Qed.

Lemma lineReceived_reply (self : FastAGIProtocol) (df : deferred)
      (q : list deferred) (code data : string) :
  reading_variables self = false ->
  pendingMessages self = df :: q ->
  wire_reply code data = true ->
  lineReceived self (reply_line (code, data))
  = (set_pendingMessages q self, [resolution df (code, data)]).
Proof.
  intros Hr Hq Hw. unfold lineReceived.
  rewrite Hr, (line_re_reply code data Hw), Hq.
  unfold resolution. cbn [fst snd].
  now destruct (String.eqb code "200").
Qed.

Lemma linesReceived_replies (replies : list (string * string)) :
  forall dfs rest self,
    reading_variables self = false ->
    pendingMessages self = (dfs ++ rest)%list ->
    length dfs = length replies ->
    Forall (fun r => wire_reply (fst r) (snd r) = true) replies ->
    let received := linesReceived self (map reply_line replies) in
    snd received = map (fun p => resolution (fst p) (snd p)) (combine dfs replies)
    /\ pendingMessages (fst received) = rest
    /\ reading_variables (fst received) = false.
Proof.
  induction replies as [|[code data] replies IH];
    intros dfs rest self Hr Hq Hl Hw; cbn zeta.
  - destruct dfs; [|discriminate]. cbn. auto.
  - destruct dfs as [|df dfs]; [discriminate|].
    inversion Hw as [|? ? Hw1 Hw2]; subst.
    cbn [map linesReceived].
    rewrite (lineReceived_reply self df (dfs ++ rest) code data Hr Hq Hw1).
    specialize (IH dfs rest (set_pendingMessages (dfs ++ rest) self)).
    cbn zeta in IH.
    destruct (linesReceived _ (map reply_line replies)) as [self2 e2].
    cbn [fst snd] in *.
    destruct IH as (-> & -> & ->); cbn; auto.
Qed.

End Fifo.

(** C1.  [N] commands go out through [sendCommand] on a connection that
    is past its variables and has nothing pending, and then [N] reply lines
    of the wire grammar come in.  The Deferreds returned are distinct and
    are the queue, in send order; the replies resolve them one each, in that
    order, a reply with code [200] as success carrying its data and a reply
    with any other code as a fault carrying code and data; the queue ends
    empty. *)
Theorem replies_resolve_in_send_order
        (self : FastAGI.FastAGIProtocol) (commands : list string)
        (replies : list (string * string)) :
  FastAGI.reading_variables self = false ->
  FastAGI.pendingMessages self = [] ->
  length replies = length commands ->
  Forall (fun r => Run.wire_reply (fst r) (snd r) = true) replies ->
  let sent := Run.sendCommands self commands in
  let dfs := fst (fst sent) in
  let received :=
    Run.linesReceived (snd (fst sent)) (map Run.reply_line replies) in
  NoDup dfs
  /\ length dfs = length commands
  /\ FastAGI.pendingMessages (snd (fst sent)) = dfs
  /\ snd received
     = map (fun p => Run.resolution (fst p) (snd p)) (combine dfs replies)
  /\ FastAGI.pendingMessages (fst received) = [].
Proof.
  intros Hr Hq Hl Hw. cbn zeta.
  destruct (sendCommands_spec commands self) as (Hd & Hp & Hv & _).
  rewrite Hq in Hp. cbn [app] in Hp. rewrite Hr in Hv.
  set (sent := Run.sendCommands self commands) in *.
  rewrite Hd at 1 2. rewrite <- Hd in Hp.
  split; [apply seq_NoDup|]. split; [apply length_seq|].
  split; [exact Hp|].
  assert (Hq' : FastAGI.pendingMessages (snd (fst sent))
                = (fst (fst sent) ++ [])%list) by now rewrite List.app_nil_r.
  assert (Hl' : length (fst (fst sent)) = length replies)
    by now rewrite Hd, length_seq.
  destruct (linesReceived_replies replies _ _ _ Hv Hq' Hl' Hw) as (H1 & H2 & _).
  auto.
Qed.

Lemma replies_resolve_in_send_order_witness :
  snd (Run.linesReceived
         (snd (fst (Run.sendCommands Example.ready Example.commands)))
         (map Run.reply_line Example.replies))
  = [FastAGI.Callback 0%nat "result=0";
     FastAGI.Errback 1%nat
       (AGICommandFailure (Py.PyStr "510") "Invalid or unknown command")].
Proof.
  refine (proj1 (proj2 (proj2 (proj2
    (replies_resolve_in_send_order Example.ready Example.commands
       Example.replies eq_refl eq_refl eq_refl _))))).
  repeat constructor.
Defined.

Section Teardown.

Import FastAGI.

(** The FastAGI side of a disconnect: every pending Deferred gets the
    [ConnectionDone] fault once, in queue order, then the close waiter if
    there is one; the queue is emptied. *)
Lemma fastagi_connectionLost_resolves_all (self : FastAGIProtocol) (reason : exn) :
  snd (connectionLost self reason)
  = (map (fun df => Errback df (ConnectionDone "FastAGI connection lost"))
         (pendingMessages self)
     ++ match lostConnectionDeferred self with
        | Some d => [LostConnectionErrback d reason]
        | None => []
        end)%list
  /\ pendingMessages (fst (connectionLost self reason)) = [].
Proof. split; reflexivity. Qed.

End Teardown.

Section AmiTeardown.

Import Manager.
Variable application_raises : nat -> argument -> option exn.

Lemma connectionLost_loop_applications (items : list (Py.value * callback)) :
  forall self,
    Forall Run.is_application items ->
    connectionLost_loop application_raises
      (length (actionIDCallbacks self)) items self
    = (Return tt, self, Run.application_calls application_raises items).
Proof.
  induction items as [|[key callable] items IH]; intros self H;
    cbn [connectionLost_loop]; rewrite Nat.eqb_refl; cbn [negb].
  - reflexivity.
  - inversion H as [|? ? [tag Ht] H']; subst. cbn [snd] in Ht. subst callable.
    cbn [call]. rewrite (IH self H'). cbn [Run.application_calls].
    destruct (application_raises tag _); reflexivity.
Qed.

(** The AMI side of a disconnect when every pending callable is the
    application's own: each is called once, in order, and both dicts are
    cleared. *)
Lemma ami_connectionLost_applications (self : AMIProtocol) (reason : exn) :
  Forall Run.is_application (actionIDCallbacks self) ->
  exists self',
    connectionLost application_raises self reason
    = (Return tt, self', Run.application_calls application_raises (actionIDCallbacks self))
    /\ actionIDCallbacks self' = [] /\ eventTypeCallbacks self' = [].
Proof.
  intros H. unfold connectionLost.
  rewrite (connectionLost_loop_applications _ self H).
  eexists. split; [reflexivity|]. split; reflexivity.
Qed.

End AmiTeardown.

(** C4 fails on the AMI side.  Two requests of [sendDeferred] are
    pending.  [connectionLost] calls the first callable, [df.callback]; the
    Deferred fires and its first callback, [checkErrorResponse], deletes
    the token from [actionIDCallbacks] through [cleanup]; the loop over the
    live [items()] then finds the dict smaller and raises [RuntimeError].
    The second request is never resolved, it stays in [actionIDCallbacks],
    and neither [clear()] is reached. *)
Theorem ami_connectionLost_stops_at_first
        (application_raises : nat -> Manager.argument -> option exn) (reason : exn) :
  let lost := Manager.connectionLost application_raises Example.two_pending reason in
  Manager.actionIDCallbacks Example.two_pending
  = [(Py.PyStr "uuid-1", Manager.DeferredCallback 0%nat);
     (Py.PyStr "uuid-2", Manager.DeferredCallback 1%nat)]
  /\ fst (fst lost) = Raise (RuntimeError "dictionary changed size during iteration")
  /\ snd lost
     = [Manager.Callback 0%nat
          (Manager.ArgException (ConnectionDone "Manager connection terminated"))]
  /\ Manager.actionIDCallbacks (snd (fst lost))
     = [(Py.PyStr "uuid-2", Manager.DeferredCallback 1%nat)]
  /\ option_map Manager.called (nth_error (Manager.deferreds (snd (fst lost))) 1%nat)
     = Some false.
Proof. repeat split; reflexivity. Qed.

(* ================================================================= *)
(** ** InSequence: the first failure ends the run *)

Section Sequencer.

Import FastAGI.
Context {World Value : Type}.
Implicit Types (w : World) (rs : list Value).

Lemma onActionSuccess_prefix (before : list (action World Value)) :
  forall rest results w rs w1,
    Run.succeed_all before w = Some (rs, w1) ->
    onActionSuccess World Value (before ++ rest) results w
    = onActionSuccess World Value rest (results ++ rs) w1.
Proof.
  induction before as [|a before IH]; intros rest results w rs w1 H;
    cbn [Run.succeed_all] in H.
  - inversion H; subst. now rewrite app_nil_r.
  - cbn [app onActionSuccess].
    destruct (a w) as [[r| |] w'] eqn:E; try discriminate.
    destruct (Run.succeed_all before w') as [[rs' w'']|] eqn:E'; [|discriminate].
    inversion H; subst. cbv beta iota.
    rewrite (IH rest (results ++ [r])%list w' rs' w1 E').
    now rewrite <- app_assoc.
Qed.

Lemma succeed_all_length (before : list (action World Value)) :
  forall w rs w1,
    Run.succeed_all before w = Some (rs, w1) -> length rs = length before.
Proof.
  induction before as [|a before IH]; intros w rs w1 H;
    cbn [Run.succeed_all] in H.
  - now inversion H.
  - destruct (a w) as [[r| |] w'] eqn:E; try discriminate.
    destruct (Run.succeed_all before w') as [[rs' w'']|] eqn:E'; [|discriminate].
    inversion H; subst. cbn. f_equal. eauto.
Qed.

(** [append] builds the list of actions in the order of the calls. *)
Lemma appended_actions (l : list (action World Value)) :
  fold_left (append World Value) l (InSequence_init World Value)
  = {| actions := l; results := [] |}.
Proof.
  change (InSequence_init World Value)
    with ({| actions := []; results := [] |} : InSequence World Value).
  change l with ([] ++ l)%list at 2.
  generalize (@nil (action World Value)) as done.
  induction l as [|a l IH]; intros done; cbn [fold_left].
  - now rewrite app_nil_r.
  - unfold append at 2. cbn [actions results]. rewrite IH.
    now rewrite <- app_assoc.
Qed.

End Sequencer.

(** C5.  The actions [before] all succeed, one after the other, with the
    results [rs]; the next one, [failing], fails with [reason].  Then the run
    of [before ++ failing :: after] ends in the errback of [finalDF] with
    [reason], which carries [rs] (as many results as there are actions in
    [before]); the actions of [after] are still in the list, not popped,
    and the world is the one the failing action left.  The run of [before]
    alone ends in the callback of [finalDF] with all of [rs]. *)
Theorem in_sequence_first_failure
        {World Value : Type}
        (before after : list (FastAGI.action World Value))
        (failing : FastAGI.action World Value)
        (w w1 w2 : World) (rs : list Value) (reason : exn) :
  Run.succeed_all before w = Some (rs, w1) ->
  failing w1 = (FastAGI.Fails Value reason, w2) ->
  FastAGI.call World Value
    (fold_left (FastAGI.append World Value) (before ++ failing :: after)
               (FastAGI.InSequence_init World Value)) w
  = ({| FastAGI.actions := after; FastAGI.results := rs |},
     FastAGI.FinalErrback Value reason rs, w2)
  /\ length rs = length before
  /\ FastAGI.call World Value
       (fold_left (FastAGI.append World Value) before
                  (FastAGI.InSequence_init World Value)) w
     = ({| FastAGI.actions := []; FastAGI.results := rs |},
        FastAGI.FinalCallback Value rs, w1).
Proof.
  intros Hb Hf. rewrite !appended_actions. unfold FastAGI.call.
  cbn [FastAGI.actions FastAGI.results].
  split; [|split].
  - rewrite (onActionSuccess_prefix before _ [] w rs w1 Hb).
    cbn [app FastAGI.onActionSuccess]. now rewrite Hf.
  - exact (succeed_all_length before w rs w1 Hb).
  - rewrite <- (app_nil_r before) at 1.
    rewrite (onActionSuccess_prefix before [] [] w rs w1 Hb).
    reflexivity.
Qed.

Lemma in_sequence_first_failure_witness :
  FastAGI.call (list nat) string
    (fold_left (FastAGI.append (list nat) string)
       [Example.first_action; Example.second_action; Example.third_action]
       (FastAGI.InSequence_init (list nat) string)) []
  = ({| FastAGI.actions := [Example.third_action]; FastAGI.results := ["one"] |},
     FastAGI.FinalErrback string (ApplicationError 2) ["one"], [1%nat; 2%nat]).
Proof.
  exact (proj1 (in_sequence_first_failure
                  [Example.first_action] [Example.third_action]
                  Example.second_action [] [1%nat] [1%nat; 2%nat] ["one"]
                  (ApplicationError 2) eq_refl eq_refl)).
Defined.

(* ================================================================= *)
(** ** AMI: event dispatch *)

Section DictFacts.

Context {K V : Type} (keq : K -> K -> bool).
Hypothesis keq_spec : forall x y, reflect (x = y) (keq x y).

Lemma get_set_same (k : K) (v : V) (d : Py.dict) :
  Py.get keq k (Py.set keq k v d) = Some v.
Proof.
  induction d as [|[k' v'] d IH]; cbn [Py.set Py.get].
  - now destruct (keq_spec k k).
  - destruct (keq_spec k k') as [->|N]; cbn [Py.get].
    + now destruct (keq_spec k' k').
    + destruct (keq_spec k k'); [contradiction | exact IH].
Qed.

Lemma get_set_other (k k' : K) (v : V) (d : Py.dict) :
  k <> k' -> Py.get keq k' (Py.set keq k v d) = Py.get keq k' d.
Proof.
  intros N. induction d as [|[k0 v0] d IH]; cbn [Py.set Py.get].
  - destruct (keq_spec k' k); [congruence | reflexivity].
  - destruct (keq_spec k k0) as [->|N0]; cbn [Py.get].
    + destruct (keq_spec k' k0); [congruence | reflexivity].
    + destruct (keq_spec k' k0); [reflexivity | exact IH].
Qed.

Lemma get_del_same (k : K) (d : Py.dict (V := V)) :
  Py.get keq k (Py.del keq k d) = None.
Proof.
  unfold Py.del. induction d as [|[k' v'] d IH]; cbn [filter Py.get fst].
  - reflexivity.
  - destruct (keq_spec k k') as [->|N]; cbn [negb Py.get]; [exact IH|].
    destruct (keq_spec k k'); [contradiction | exact IH].
Qed.

End DictFacts.

Lemma event_eqb_spec (a b : option string) :
  reflect (a = b) (Manager.event_eqb a b).
Proof.
  destruct a as [x|], b as [y|]; cbn; try (constructor; congruence).
  destruct (String.eqb_spec x y); constructor; congruence.
Qed.

Lemma value_eqb_spec (a b : Py.value) : reflect (a = b) (Py.eqb a b).
Proof.
  destruct a as [|x|x], b as [|y|y]; cbn; try (constructor; congruence).
  - destruct (Z.eqb_spec x y); constructor; congruence.
  - destruct (String.eqb_spec x y); constructor; congruence.
Qed.

Section Dispatch.

Import Manager Run.
Variable handler_raises : handler -> message -> option exn.






Lemma registerEvent_same (self : AMIProtocol) (ev : option string) (f : handler) :
  handlers_of (registerEvent self (OneType ev) f) ev
  = (handlers_of self ev ++ [f])%list.
Proof.
  unfold handlers_of, registerEvent. cbn.
  now rewrite (get_set_same event_eqb event_eqb_spec).
Qed.

Lemma registerEvent_other (self : AMIProtocol) (ev ev' : option string) (f : handler) :
  ev <> ev' ->
  handlers_of (registerEvent self (OneType ev) f) ev' = handlers_of self ev'.
Proof.
  intros N. unfold handlers_of, registerEvent. cbn.
  now rewrite (get_set_other event_eqb event_eqb_spec _ _ _ _ N).
Qed.

End Dispatch.



(* ================================================================= *)
(** ** AMI: reassembly and correlation *)

Section Reassembly.

Import Manager.
Variable application_raises : nat -> argument -> option exn.
Variable handler_raises : handler -> message -> option exn.

Lemma lineReceived_field (self : AMIProtocol) (line : string) :
  Py.is_empty (Py.bytes_strip line) = false ->
  lineReceived application_raises handler_raises self line
  = (set_messageCache (messageCache self ++ [line])%list self, []).
Proof. intros H. unfold lineReceived. now rewrite H. Qed.

Lemma dispatch_success (self : AMIProtocol) (df : deferred) (st : deferred_state) :
  messageCache self = ["Response: Success"; "ActionID: x-1"; EmptyString] ->
  Py.get Py.eqb (Py.PyStr "x-1") (actionIDCallbacks self)
  = Some (DeferredCallback df) ->
  nth_error (deferreds self) df = Some st ->
  called st = false ->
  bound_actionid st = Some (Py.PyStr "x-1") ->
  let r := dispatchIncoming application_raises handler_raises self in
  snd r = [Callback df (ArgMessage Example.success_message)]
  /\ Py.get Py.eqb (Py.PyStr "x-1") (actionIDCallbacks (fst r)) = None
  /\ messageCache (fst r) = [].
Proof.
  intros Hc Hg Hd Hf Hb. cbn zeta. unfold dispatchIncoming. rewrite Hc.
  assert (M : merge_lines self []
                ["Response: Success"; "ActionID: x-1"; EmptyString]
              = (self, Example.success_message, [])) by reflexivity.
  rewrite M. clear M.
  change (Py.get String.eqb "actionid" Example.success_message)
    with (Some "x-1").
  cbn [actionIDCallbacks set_messageCache]. rewrite Hg.
  unfold call, deferred_callback, fire.
  cbn [deferreds set_messageCache]. rewrite Hd, Hf, Hb.
  change (Py.mem String.eqb "event" Example.success_message) with false.
  cbn [fst snd app]. split; [reflexivity|]. split; [|reflexivity].
  unfold cleanup. cbn [actionIDCallbacks set_actionIDCallbacks set_deferreds].
  apply (get_del_same Py.eqb value_eqb_spec).
Qed.

Lemma three_lines (self : AMIProtocol) (df : deferred) (st : deferred_state) :
  messageCache self = [] ->
  Py.get Py.eqb (Py.PyStr "x-1") (actionIDCallbacks self)
  = Some (DeferredCallback df) ->
  nth_error (deferreds self) df = Some st ->
  called st = false ->
  bound_actionid st = Some (Py.PyStr "x-1") ->
  let receive := lineReceived application_raises handler_raises in
  let s1 := receive self "Response: Success" in
  let s2 := receive (fst s1) "ActionID: x-1" in
  let s3 := receive (fst s2) EmptyString in
  snd s1 = [] /\ snd s2 = []
  /\ snd s3 = [Callback df (ArgMessage Example.success_message)]
  /\ Py.get Py.eqb (Py.PyStr "x-1") (actionIDCallbacks (fst s3)) = None
  /\ messageCache (fst s3) = [].
Proof.
  intros Hc Hg Hd Hf Hb. cbn zeta.
  rewrite (lineReceived_field self "Response: Success" eq_refl).
  cbn [fst snd]. rewrite Hc. cbn [app].
  rewrite (lineReceived_field _ "ActionID: x-1" eq_refl).
  cbn [fst snd messageCache set_messageCache app].
  split; [reflexivity|]. split; [reflexivity|].
  unfold lineReceived.
  change (Py.is_empty (Py.bytes_strip EmptyString)) with true. cbv iota.
  cbn [messageCache set_messageCache app].
  apply dispatch_success with (st := st);
    [reflexivity | exact Hg | exact Hd | exact Hf | exact Hb].
Qed.

(** A field line merged into the message under construction: a new name
    takes the value, a name already there gets the value appended after
    CRLF; the other names keep theirs. *)
Lemma merge_line_field (self : AMIProtocol) (message : Manager.message)
      (line key value : string) :
  Py.is_empty (Py.strip line) = false ->
  Py.endswith (Py.strip line) END_DATA = false ->
  Py.startswith (Py.strip line) VERSION_PREFIX = false ->
  Py.split_first ":" (Py.strip line) = Some (key, value) ->
  let name := Py.strip (Py.lower key) in
  let merged := snd (fst (merge_line self message line)) in
  Py.get String.eqb name merged
  = Some match Py.get String.eqb name message with
         | Some old => old ++ CRLF ++ Py.strip value
         | None => Py.strip value
         end
  /\ (forall other, other <> name ->
                    Py.get String.eqb other merged
                    = Py.get String.eqb other message).
Proof.
  intros He Hs Hv Hk. cbn zeta. unfold merge_line. rewrite He.
  unfold Py.endswith in Hs.
  destruct (Py.drop_suffix END_DATA (Py.strip line)); [discriminate|].
  rewrite Hv, Hk.
  destruct (Py.get String.eqb (Py.strip (Py.lower key)) message) as [old|];
    cbn [fst snd]; split;
    try apply (get_set_same String.eqb String.eqb_spec);
    intros other N;
    apply (get_set_other String.eqb String.eqb_spec); congruence.
Qed.

End Reassembly.

(** C7.  On a connection whose cache is empty and where a request of
    [sendDeferred] waits under the token [x-1], the lines
    [Response: Success], [ActionID: x-1] and the blank line are reassembled
    into the mapping [{response: Success, actionid: x-1}], names in lower
    case; the first two lines do nothing visible, the blank one fires the
    Deferred of that request with the mapping and takes the token out of
    [actionIDCallbacks].  In general a field line gives its name the
    stripped value, and appends it after CRLF to the value a repeated name
    already has. *)
Theorem message_reassembly_and_correlation
        (application_raises : nat -> Manager.argument -> option exn)
        (handler_raises : Manager.handler -> Manager.message -> option exn)
        (self : Manager.AMIProtocol) (df : deferred)
        (st : Manager.deferred_state) :
  Manager.messageCache self = [] ->
  Py.get Py.eqb (Py.PyStr "x-1") (Manager.actionIDCallbacks self)
  = Some (Manager.DeferredCallback df) ->
  nth_error (Manager.deferreds self) df = Some st ->
  Manager.called st = false ->
  Manager.bound_actionid st = Some (Py.PyStr "x-1") ->
  let receive := Manager.lineReceived application_raises handler_raises in
  let s1 := receive self "Response: Success" in
  let s2 := receive (fst s1) "ActionID: x-1" in
  let s3 := receive (fst s2) EmptyString in
  (snd s1 = [] /\ snd s2 = []
   /\ snd s3
      = [Manager.Callback df
           (Manager.ArgMessage [("response", "Success"); ("actionid", "x-1")])]
   /\ Py.get Py.eqb (Py.PyStr "x-1") (Manager.actionIDCallbacks (fst s3)) = None
   /\ Manager.messageCache (fst s3) = [])
  /\ (forall protocol message line key value,
         Py.is_empty (Py.strip line) = false ->
         Py.endswith (Py.strip line) Manager.END_DATA = false ->
         Py.startswith (Py.strip line) Manager.VERSION_PREFIX = false ->
         Py.split_first ":" (Py.strip line) = Some (key, value) ->
         let name := Py.strip (Py.lower key) in
         let merged := snd (fst (Manager.merge_line protocol message line)) in
         Py.get String.eqb name merged
         = Some match Py.get String.eqb name message with
                | Some old => old ++ CRLF ++ Py.strip value
                | None => Py.strip value
                end
         /\ (forall other, other <> name ->
                           Py.get String.eqb other merged
                           = Py.get String.eqb other message)).
Proof.
  intros Hc Hg Hd Hf Hb. split.
  - exact (three_lines application_raises handler_raises self df st Hc Hg Hd Hf Hb).
  - intros protocol message line key value. apply merge_line_field.
Qed.

Lemma message_reassembly_and_correlation_witness :
  snd (Manager.lineReceived Example.quiet Example.silent
         (fst (Manager.lineReceived Example.quiet Example.silent
                 (fst (Manager.lineReceived Example.quiet Example.silent
                         Example.one_pending "Response: Success"))
                 "ActionID: x-1"))
         EmptyString)
  = [Manager.Callback 0%nat
       (Manager.ArgMessage [("response", "Success"); ("actionid", "x-1")])].
Proof.
  exact (proj1 (proj2 (proj2 (proj1
    (message_reassembly_and_correlation Example.quiet Example.silent
       Example.one_pending 0%nat
       {| Manager.called := false;
          Manager.bound_actionid := Some (Py.PyStr "x-1");
          Manager.cache := [] |}
       eq_refl eq_refl eq_refl eq_refl eq_refl))))).
Defined.

(** Two lines with the same name, whatever its case: one field, the two
    values joined by CRLF. *)
Lemma repeated_field_example (self : Manager.AMIProtocol) :
  snd (fst (Manager.merge_lines self [] ["Variable: a=1"; "variable: b=2"]))
  = [("variable", "a=1" ++ CRLF ++ "b=2")].
Proof. reflexivity. Qed.

(* ================================================================= *)
(** ** AMI: the generated tokens *)

Section Tokens.

Import Manager Run.






Lemma generateActionId_spec (self : AMIProtocol) :
  generateActionId self
  = (ami_id self ++ "-" ++ Py.str_int (count self + 1),
     set_count (count self + 1) self).
Proof. reflexivity. Qed.

Lemma register_count (self : AMIProtocol) (actionid : Py.value)
      (cb : option callback) :
  count (register self actionid cb) = count self.
Proof. now destruct cb. Qed.

Lemma register_ami_id (self : AMIProtocol) (actionid : Py.value)
      (cb : option callback) :
  ami_id (register self actionid cb) = ami_id self.
Proof. now destruct cb. Qed.

(** One call of [sendMessage]: a token is generated exactly for a
    message that came without one, it is the connection's identifier, a
    dash and the counter after its increment. *)
Lemma sendMessage_token (self : AMIProtocol) (h : heap) (message : nat)
      (cb : option callback) (o : outgoing) :
  load h message = Some o ->
  exists actionid self' h' e,
    sendMessage self h message cb = Some (actionid, self', h', e)
    /\ ami_id self' = ami_id self
    /\ if generates o
       then actionid = token (ami_id self) (count self + 1)
            /\ count self' = count self + 1
       else count self' = count self.
Proof.
  intros H. unfold sendMessage. rewrite H.
  destruct o as [items|d]; cbn [generates].
  - destruct (supplied_actionid items) eqn:E;
      do 4 eexists; (split; [reflexivity|]);
      rewrite ?register_count, ?register_ami_id; auto.
  - set (m := Py.of_pairs String.eqb _).
    destruct (Py.mem String.eqb "actionid" m) eqn:E; cbn [negb].
    + do 4 eexists. split; [reflexivity|].
      rewrite ?register_count, ?register_ami_id; auto.
    + do 4 eexists. split; [reflexivity|].
      rewrite ?register_count, ?register_ami_id.
      rewrite (get_set_same String.eqb String.eqb_spec). auto.
Qed.


End Tokens.


(* ================================================================= *)
(** ** FastAGI: durations on the wire *)



(* ================================================================= *)
(** ** AMI: what [sendMessage] does to the caller's message *)

Section Frame.

Import Manager Run.

Lemma load_store_same (h : heap) :
  forall address o o',
    load h address = Some o -> load (store h address o') address = Some o'.
Proof.
  unfold load. induction h as [|x h IH]; intros [|n] o o' H;
    cbn [store nth_error] in *; try discriminate; eauto.
Qed.

Lemma load_store_other (h : heap) :
  forall address other o',
    other <> address -> load (store h address o') other = load h other.
Proof.
  unfold load. induction h as [|x h IH]; intros [|n] [|m] o' N;
    cbn [store nth_error]; try reflexivity; try congruence.
  apply IH. congruence.
Qed.

Lemma lacks_actionid_supplied (items : list (string * Py.value)) :
  lacks_actionid items = true -> supplied_actionid items = Py.PyNone.
Proof.
  unfold lacks_actionid, supplied_actionid. generalize Py.PyNone as start.
  induction items as [|[header value] items IH]; intros start H;
    cbn [forallb fold_left] in *; [reflexivity|].
  apply andb_prop in H. destruct H as [Hh Hi].
  apply negb_true_iff in Hh. rewrite Hh. now apply IH.
Qed.

Lemma sendMessage_frame (self : AMIProtocol) (h : heap) (message : nat)
      (cb : option callback) (o : outgoing) :
  load h message = Some o ->
  exists actionid self' h' e,
    sendMessage self h message cb = Some (actionid, self', h', e)
    /\ (forall other, other <> message -> load h' other = load h other)
    /\ match o with
       | MsgList items =>
           load h' message
           = Some (MsgList (if generates o
                            then (items ++ [("actionid", actionid)])%list
                            else items))
       | MsgDict d => h' = h
       end.
Proof.
  intros H. unfold sendMessage. rewrite H.
  destruct o as [items|d]; cbn [generates].
  - destruct (supplied_actionid items) eqn:E;
      do 4 eexists; (split; [reflexivity|]);
      (split; [intros other N; now apply load_store_other|]);
      now apply load_store_same with (o := MsgList items).
  - set (m := Py.of_pairs String.eqb _).
    destruct (Py.mem String.eqb "actionid" m) eqn:E;
      do 4 eexists; (split; [reflexivity|]); split; reflexivity.
Qed.

End Frame.

(** C10.  [sendMessage] on the caller's object at address [message]
    leaves every other object alone.  If the object is a list with no
    [actionid] header, it holds one more pair afterwards, [actionid] and
    the generated token, at the same address; a list for which no token is
    generated is unchanged.  If the object is a dict the whole heap is
    unchanged: the token goes into the copy. *)
Theorem sendMessage_mutates_list_only
        (self : Manager.AMIProtocol) (h : Manager.heap) (message : nat)
        (responseCallback : option Manager.callback) (o : Manager.outgoing) :
  Manager.load h message = Some o ->
  exists actionid self' h' e,
    Manager.sendMessage self h message responseCallback
    = Some (actionid, self', h', e)
    /\ (forall other, other <> message -> Manager.load h' other = Manager.load h other)
    /\ match o with
       | Manager.MsgList items =>
           (Run.lacks_actionid items = true ->
            actionid = Py.PyStr (fst (Manager.generateActionId self))
            /\ Manager.load h' message
               = Some (Manager.MsgList (items ++ [("actionid", actionid)])))
           /\ (Run.generates o = false -> Manager.load h' message = Some o)
       | Manager.MsgDict d => h' = h
       end.
Proof.
  intros H.
  destruct (sendMessage_frame self h message responseCallback o H)
    as (actionid & self' & h' & e & Hs & Ho & Hm).
  destruct (sendMessage_token self h message responseCallback o H)
    as (actionid2 & self2 & h2 & e2 & Hs2 & _ & Hg).
  rewrite Hs in Hs2. inversion Hs2; subst actionid2 self2 h2 e2. clear Hs2.
  exists actionid, self', h', e. split; [exact Hs|]. split; [exact Ho|].
  destruct o as [items|d]; [|exact Hm]. split.
  - intros Hl. apply lacks_actionid_supplied in Hl.
    cbn [Run.generates] in Hm, Hg. rewrite Hl in Hm, Hg.
    destruct Hg as [-> _]. split; [reflexivity | exact Hm].
  - intros Hg'. now rewrite Hg' in Hm.
Qed.

Lemma sendMessage_mutates_list_only_witness :
  exists actionid self' h' e,
    Manager.sendMessage (Manager.init "uuid") Example.list_and_dict 0%nat None
    = Some (actionid, self', h', e)
    /\ (forall other, other <> 0%nat ->
                      Manager.load h' other = Manager.load Example.list_and_dict other)
    /\ ((Run.lacks_actionid [("Action", Py.PyStr "Ping")] = true ->
         actionid = Py.PyStr (fst (Manager.generateActionId (Manager.init "uuid")))
         /\ Manager.load h' 0%nat
            = Some (Manager.MsgList
                      ([("Action", Py.PyStr "Ping")] ++ [("actionid", actionid)])))
        /\ (Run.generates (Manager.MsgList [("Action", Py.PyStr "Ping")]) = false ->
            Manager.load h' 0%nat
            = Some (Manager.MsgList [("Action", Py.PyStr "Ping")]))).
Proof.
  exact (sendMessage_mutates_list_only (Manager.init "uuid")
           Example.list_and_dict 0%nat None _ eq_refl).
Defined.

(** The two forms side by side, on a heap that holds a list at address 0
    and a dict at address 1. *)
Lemma list_grows_dict_stays :
  option_map (fun r => snd (fst r))
    (Manager.sendMessage (Manager.init "uuid") Example.list_and_dict 0%nat None)
  = Some [Manager.MsgList [("Action", Py.PyStr "Ping");
                           ("actionid", Py.PyStr "uuid-1")];
          Manager.MsgDict [("Action", Py.PyStr "Ping")]]
  /\ option_map (fun r => snd (fst r))
       (Manager.sendMessage (Manager.init "uuid") Example.list_and_dict 1%nat None)
     = Some Example.list_and_dict.
Proof. split; reflexivity. Qed.


(* ================================================================= *)
(** ** FastAGI: the queue under arbitrary lines *)

Section Queue.

Import FastAGI Run.

Lemma resolved_app (a b : list effect) :
  resolved (a ++ b) = (resolved a ++ resolved b)%list.
Proof.
  induction a as [|x a IH]; [reflexivity|].
  destruct x; cbn [List.app resolved]; try exact IH; now rewrite IH.
Qed.

Lemma lineReceived_conserves (self : FastAGIProtocol) (line : string) :
  reading_variables self = false ->
  (resolved (snd (lineReceived self line))
   ++ pendingMessages (fst (lineReceived self line)))%list
  = pendingMessages self
  /\ reading_variables (fst (lineReceived self line)) = false
  /\ (length (resolved (snd (lineReceived self line))) <= 1)%nat.
Proof.
  intros Hr. unfold lineReceived. rewrite Hr.
  destruct (line_re line) as [[code data]|]; [|cbn; auto].
  destruct (pendingMessages self) as [|df rest] eqn:E; [cbn; auto|].
  destruct (String.eqb code "200"); cbn; auto.
Qed.

End Queue.

(** X1.  Whatever lines arrive on a connection that is past its variables
    (replies, lines that match nothing, replies that find the queue
    empty), no Deferred is lost and none is resolved twice: the Deferreds
    resolved, in order, followed by those still pending, are the queue as it
    was; each line resolves at most one. *)
Theorem lines_conserve_the_queue
        (lines : list string) (self : FastAGI.FastAGIProtocol) :
  FastAGI.reading_variables self = false ->
  (Run.resolved (snd (Run.linesReceived self lines))
   ++ FastAGI.pendingMessages (fst (Run.linesReceived self lines)))%list
  = FastAGI.pendingMessages self
  /\ (length (Run.resolved (snd (Run.linesReceived self lines)))
      <= length lines)%nat.
Proof.
  revert self. induction lines as [|line lines IH]; intros self Hr.
  - cbn. auto.
  - cbn [Run.linesReceived].
    destruct (lineReceived_conserves self line Hr) as (H1 & H2 & H3).
    destruct (FastAGI.lineReceived self line) as [self1 e1]. cbn [fst snd] in *.
    destruct (IH self1 H2) as (H4 & H5).
    destruct (Run.linesReceived self1 lines) as [self2 e2]. cbn [fst snd] in *.
    rewrite resolved_app, length_app. split; [|cbn [length]; lia].
    rewrite <- List.app_assoc, H4. exact H1.
Qed.

Lemma lines_conserve_the_queue_witness :
  (Run.resolved
     (snd (Run.linesReceived
             (snd (fst (Run.sendCommands Example.ready Example.commands)))
             ["garbage"; "200 result=1"; "520 bad"; "200 late"]))
   ++ FastAGI.pendingMessages
        (fst (Run.linesReceived
                (snd (fst (Run.sendCommands Example.ready Example.commands)))
                ["garbage"; "200 result=1"; "520 bad"; "200 late"])))%list
  = [0%nat; 1%nat].
Proof.
  exact (proj1 (lines_conserve_the_queue
                  ["garbage"; "200 result=1"; "520 bad"; "200 late"]
                  (snd (fst (Run.sendCommands Example.ready Example.commands)))
                  eq_refl)).
Defined.

(* ================================================================= *)
(** ** FastAGI: callbacks in a chain *)

Lemma checkFailure_return (s s' : string) (failure : Py.value) :
  FastAGI.checkFailure s failure = Return s' ->
  s' = s /\ exists token data n,
      FastAGI.result_re s = Some (token, data)
      /\ Py.int_of_str token = Some n
      /\ Py.eqb (Py.PyInt n) failure = false.
Proof.
  unfold FastAGI.checkFailure.
  destruct (FastAGI.result_re s) as [[token data]|]; [|discriminate].
  destruct (Py.int_of_str token) as [n|] eqn:Ei; [|discriminate].
  destruct (Py.eqb (Py.PyInt n) failure) eqn:Ef; [discriminate|].
  intros H. inversion H. split; [reflexivity|]. now exists token, data, n.
Qed.

Lemma checkFailure_raise (s : string) (failure : Py.value) (e : exn) :
  FastAGI.checkFailure s failure = Raise e ->
  e = AGICommandFailure (Py.PyInt (-1)) s \/ e = ValueError.
Proof.
  unfold FastAGI.checkFailure.
  destruct (FastAGI.result_re s) as [[token data]|].
  - destruct (Py.int_of_str token) as [n|]; [|intros H; inversion H; auto].
    destruct (Py.eqb (Py.PyInt n) failure); intros H; inversion H; auto.
  - intros H; inversion H; auto.
Qed.

(** X2.  The callbacks of [answer] (and of the operations that chain the
    same two) give the integer [n] exactly on a result line that carries an
    [n] other than [-1]; every other outcome is an exception, the typed
    fault on the line or the [ValueError] of [int], never a value. *)
Theorem answer_callbacks_outcome (data : string) :
  (forall n, FastAGI.answer_callbacks data = Return n
             <-> Run.result_line data n /\ n <> -1)
  /\ (forall e, FastAGI.answer_callbacks data = Raise e ->
                e = AGICommandFailure (Py.PyInt (-1)) data \/ e = ValueError).
Proof.
  unfold FastAGI.answer_callbacks, bind. split.
  - intros n. split.
    + destruct (FastAGI.checkFailure data (Py.PyInt (-1))) as [r|e] eqn:E;
        [|discriminate].
      apply checkFailure_return in E.
      destruct E as (-> & token & d & m & Hr & Hi & Hf).
      unfold FastAGI.resultAsInt. rewrite Hr, Hi. intros H. inversion H; subst m.
      split.
      * apply result_line_iff. now exists token, d.
      * cbn in Hf. now apply Z.eqb_neq in Hf.
    + intros (Hl & Hn).
      rewrite (checkFailure_code data n _ Hl). cbn [Py.eqb].
      apply Z.eqb_neq in Hn. rewrite Hn. now apply resultAsInt_iff.
  - intros e.
    destruct (FastAGI.checkFailure data (Py.PyInt (-1))) as [r|e'] eqn:E.
    + apply checkFailure_return in E.
      destruct E as (-> & token & d & m & Hr & Hi & Hf).
      unfold FastAGI.resultAsInt. rewrite Hr, Hi. discriminate.
    + intros H. inversion H; subst e'. now apply checkFailure_raise in E.
Qed.



(* ================================================================= *)
(** ** FastAGI: parsing what follows the result code *)

Section Pieces.

Lemma split_first_append (sep : ascii) (a b : string) :
  Run.no_char sep a ->
  Py.split_first sep (a ++ String sep b) = Some (a, b).
Proof.
  unfold Run.no_char. induction a as [|c a IH]; cbn [String.append Py.split_first].
  - now rewrite Ascii.eqb_refl.
  - cbn [Py.forall_chars]. intros H. apply andb_prop in H. destruct H as [Hc Ha].
    apply negb_true_iff in Hc. now rewrite Hc, (IH Ha).
Qed.

Lemma split_first_none (sep : ascii) (a : string) :
  Run.no_char sep a -> Py.split_first sep a = None.
Proof.
  unfold Run.no_char. induction a as [|c a IH]; cbn [Py.split_first]; [reflexivity|].
  cbn [Py.forall_chars]. intros H. apply andb_prop in H. destruct H as [Hc Ha].
  apply negb_true_iff in Hc. now rewrite Hc, (IH Ha).
Qed.

Lemma drop_last_snoc (s : string) (c : ascii) :
  Py.drop_last (s ++ String c EmptyString) = s.
Proof.
  induction s as [|x s IH]; [reflexivity|].
  cbn [String.append Py.drop_last]. rewrite IH.
  now destruct s.
Qed.

Lemma rstrip_snoc (p : ascii -> bool) (s : string) (c : ascii) :
  p c = true ->
  Py.rstrip_with p (s ++ String c EmptyString) = Py.rstrip_with p s.
Proof.
  intros Hc. induction s as [|x s IH]; cbn [String.append Py.rstrip_with].
  - now rewrite Hc.
  - now rewrite IH.
Qed.

Lemma take_digits_all (s : string) :
  Py.forall_chars Py.isdigit s = true -> Py.take_digits s = (s, EmptyString).
Proof.
  induction s as [|c s IH]; cbn [Py.forall_chars Py.take_digits]; [reflexivity|].
  intros H. apply andb_prop in H. destruct H as [Hc Hs].
  now rewrite Hc, (IH Hs).
Qed.

(** [str(n)] for [n >= 0]: digits, and at least one. *)
Lemma str_int_digits (n : Z) :
  0 <= n ->
  Py.forall_chars Py.isdigit (Py.str_int n) = true
  /\ Py.str_int n <> EmptyString.
Proof.
  intros H. unfold Py.str_int.
  destruct n as [|p|p]; [split; [reflexivity|discriminate] | | lia].
  cbn [Z.to_int DecimalString.NilZero.string_of_int].
  split; [apply nilzero_chars|].
  destruct (Pos.to_uint p); discriminate.
Qed.

Lemma digit_not_space (c : ascii) :
  (Py.isdigit c || Ascii.eqb c "-")%bool = true -> negb (Py.isspace c) = true.
Proof.
  intros H. apply orb_prop in H. destruct H as [H|H].
  - unfold Py.isdigit, Py.isspace, Py.in_range in *.
    revert H. generalize (Py.ord c). intros n H.
    apply andb_prop in H. destruct H as [H1 H2].
    apply N.leb_le in H1. apply N.leb_le in H2.
    apply negb_true_iff.
    repeat (apply orb_false_iff; split);
      try (apply andb_false_iff; right; apply N.leb_gt; lia);
      try (apply N.eqb_neq; lia).
  - apply Ascii.eqb_eq in H. now subst c.
Qed.

Lemma strip_str_int (n : Z) : Py.strip (Py.str_int n) = Py.str_int n.
Proof.
  apply strip_none. apply forall_chars_impl with (2 := str_int_chars n).
  apply digit_not_space.
Qed.

Lemma int_of_str_result (a : string) : Py.int_of_str ("result=" ++ a) = None.
Proof.
  unfold Py.int_of_str, Py.strip_with.
  cbn [String.append Py.lstrip_with].
  change (Py.isspace_int "r") with false. cbv iota.
  cbn [Py.rstrip_with]. change (Py.isspace_int "r") with false.
  rewrite andb_false_r. reflexivity.
Qed.

Lemma split_first_result (rest : string) :
  Py.split_first " " ("result=" ++ rest)
  = match Py.split_first " " rest with
    | Some (a, b) => Some ("result=" ++ a, b)
    | None => None
    end.
Proof. cbn. now destruct (Py.split_first " " rest) as [[a b]|]. Qed.

End Pieces.

(** X4.  The callbacks of [getVariable] and [databaseGet]: a result line
    whose second item is a value in brackets gives the value, whatever the
    result code; a result line without second item ends in the [TypeError]
    of slicing [None]. *)
Theorem getVariable_value (code : Z) (value : string) :
  Run.no_char Py.LF value ->
  FastAGI.getVariable_callbacks
    ("result=" ++ Py.str_int code ++ " (" ++ value ++ ")")
  = Ok value
  /\ FastAGI.getVariable_callbacks ("result=" ++ Py.str_int code)
     = Fail TypeError.
Proof.
  intros Hv. unfold FastAGI.getVariable_callbacks, bind.
  assert (S1 : Run.no_char Py.SP (Py.str_int code)) by now apply str_int_no_char.
  assert (S2 : Run.no_char Py.LF (Py.str_int code)) by now apply str_int_no_char.
  split.
  - assert (R : FastAGI.result_re
                  ("result=" ++ Py.str_int code ++ " (" ++ value ++ ")")
                = Some (Py.str_int code, Some ("(" ++ value ++ ")"))).
    { apply result_re_iff. repeat split; try assumption.
      unfold Run.clean, Run.no_char in *. cbn [Py.forall_chars String.append].
      rewrite forall_chars_append, Hv. reflexivity. }
    unfold FastAGI.checkFailure, FastAGI.secondResultItem.
    rewrite R, int_of_str_str_int. cbn [Py.eqb lift].
    rewrite R, int_of_str_str_int. cbn [lift and_then FastAGI.returnValue].
    cbn [String.append Py.slice_1_m1]. now rewrite drop_last_snoc.
  - assert (R : FastAGI.result_re ("result=" ++ Py.str_int code)
                = Some (Py.str_int code, None)).
    { apply result_re_iff. cbn [Run.tail_of Run.clean].
      rewrite append_nil_r. auto. }
    unfold FastAGI.checkFailure, FastAGI.secondResultItem.
    rewrite R, int_of_str_str_int. cbn [Py.eqb lift].
    rewrite R, int_of_str_str_int. reflexivity.
Qed.

Lemma getVariable_value_witness :
  FastAGI.getVariable_callbacks ("result=" ++ Py.str_int 1 ++ " (en_GB)")
  = Ok "en_GB".
Proof. exact (proj1 (getVariable_value 1 "en_GB" eq_refl)). Defined.

Lemma endpos_re_digits (n : Z) :
  0 <= n -> FastAGI.endpos_re ("endpos=" ++ Py.str_int n) = Some (Py.str_int n).
Proof.
  intros H. destruct (str_int_digits n H) as [Hd Hn].
  cbn [String.append FastAGI.endpos_re].
  change (Py.drop_prefix "endpos=" (String "e" (String "n" (String "d"
            (String "p" (String "o" (String "s" (String "=" (Py.str_int n)))))))))
    with (Some (Py.str_int n)).
  cbv iota. rewrite (take_digits_all _ Hd).
  destruct (Py.str_int n); [contradiction | reflexivity].
Qed.

(** X5.  The callbacks of [streamFile] on the reply
    [result=<code> endpos=<n>], for a code other than [-1]: the pair of the
    code and the end position, unless the end position is the offset the
    caller gave (by default [0]), which is answered with the typed fault. *)
Theorem streamFile_end_position (code endpos : Z) (offset : option Z) :
  0 <= endpos -> code <> -1 ->
  FastAGI.streamFile_callbacks offset
    ("result=" ++ Py.str_int code ++ " endpos=" ++ Py.str_int endpos)
  = if match offset with Some o => endpos =? o | None => false end
    then Fail (Known (AGICommandFailure (Py.PyInt (-1))
                 ("End position " ++ Py.str_int endpos
                  ++ " == original position, result code " ++ Py.str_int code)))
    else Ok (code, endpos).
Proof.
  intros He Hc. unfold FastAGI.streamFile_callbacks.
  assert (R : FastAGI.result_re
                ("result=" ++ Py.str_int code ++ " endpos=" ++ Py.str_int endpos)
              = Some (Py.str_int code, Some ("endpos=" ++ Py.str_int endpos))).
  { apply result_re_iff. repeat split; try (now apply str_int_no_char).
    all: unfold Run.clean, Run.no_char; rewrite forall_chars_append;
      now rewrite (str_int_no_char endpos Py.LF eq_refl eq_refl). }
  unfold FastAGI.checkFailure. rewrite R, int_of_str_str_int. cbn [Py.eqb].
  apply Z.eqb_neq in Hc. rewrite Hc. cbn [lift and_then].
  unfold FastAGI.onStreamingComplete.
  rewrite R, int_of_str_str_int, (endpos_re_digits endpos He), int_of_str_str_int.
  destruct offset as [o|]; reflexivity.
Qed.

Lemma streamFile_end_position_witness :
  FastAGI.streamFile_callbacks (Some 0)
    ("result=" ++ Py.str_int 0 ++ " endpos=" ++ Py.str_int 1234)
  = Ok (0, 1234).
Proof.
  refine (streamFile_end_position 0 1234 (Some 0) _ _); [lia | discriminate].
Defined.

Section Recording.

Import Run.

Lemma word_no_paren (s : string) :
  Run.word s = true -> Py.forall_chars (fun c => negb (paren c)) s = true.
Proof.
  apply forall_chars_impl. intros c H. apply negb_true_iff in H.
  apply orb_false_iff in H. destruct H as [H H3].
  apply orb_false_iff in H. destruct H as [H1 H2].
  unfold paren. cbn. now rewrite H2, H3.
Qed.

Lemma word_no_space (s : string) : Run.word s = true -> Run.no_char " " s.
Proof.
  apply forall_chars_impl. intros c H. apply negb_true_iff in H.
  apply orb_false_iff in H. destruct H as [H H3].
  apply orb_false_iff in H. destruct H as [H1 H2]. now rewrite H1.
Qed.

Lemma strip_brackets (s : string) :
  Run.word s = true -> Py.strip_chars "()" ("(" ++ s ++ ")") = s.
Proof.
  intros H. apply word_no_paren in H.
  unfold Py.strip_chars, Py.strip_with.
  change (fun c => existsb (Ascii.eqb c) (list_ascii_of_string "()")) with paren.
  cbn [String.append Py.lstrip_with]. change (paren "(") with true. cbv iota.
  destruct s as [|c s].
  - reflexivity.
  - assert (L : Py.lstrip_with paren (String c s ++ ")") = String c s ++ ")").
    { cbn [String.append Py.lstrip_with]. cbn [Py.forall_chars] in H.
      apply andb_prop in H. destruct H as [Hc _].
      apply negb_true_iff in Hc. now rewrite Hc. }
    rewrite L, rstrip_snoc by reflexivity. now apply rstrip_none.
Qed.

End Recording.

(** X6.  [onRecordingComplete] on the line [<digit> (<type>) endpos=<n>],
    where the type is a word: the digit as integer, the type without its
    brackets, and the end position. *)
Theorem onRecordingComplete_pieces (digit endpos : Z) (exitType : string) :
  Run.word exitType = true ->
  FastAGI.onRecordingComplete
    (Py.str_int digit ++ " (" ++ exitType ++ ") endpos=" ++ Py.str_int endpos)
  = Return (digit, exitType, endpos).
Proof.
  intros Hw. unfold FastAGI.onRecordingComplete.
  assert (S1 : Run.no_char " " (Py.str_int digit)) by now apply str_int_no_char.
  assert (S2 : Run.no_char " " ("(" ++ exitType ++ ")")).
  { unfold Run.no_char. cbn [String.append Py.forall_chars].
    rewrite forall_chars_append. rewrite (word_no_space _ Hw). reflexivity. }
  assert (E : Py.str_int digit ++ " (" ++ exitType ++ ") endpos=" ++ Py.str_int endpos
              = Py.str_int digit
                ++ String " " (("(" ++ exitType ++ ")")
                               ++ String " " ("endpos=" ++ Py.str_int endpos))).
  { f_equal. cbn [String.append]. do 2 f_equal.
    now rewrite append_assoc. }
  rewrite E. cbn [Py.split_max].
  rewrite (split_first_append " " _ _ S1), (split_first_append " " _ _ S2).
  rewrite int_of_str_str_int, (strip_brackets _ Hw).
  assert (P : Py.strip ("endpos=" ++ Py.str_int endpos)
              = "endpos=" ++ Py.str_int endpos).
  { apply strip_none. rewrite forall_chars_append.
    apply andb_true_intro. split; [reflexivity|].
    apply forall_chars_impl with (2 := str_int_chars endpos).
    apply digit_not_space. }
  rewrite P. unfold Py.startswith. rewrite drop_prefix_append.
  change (Py.slice_from 7 ("endpos=" ++ Py.str_int endpos)) with (Py.str_int endpos).
  now rewrite strip_str_int, int_of_str_str_int.
Qed.

Lemma onRecordingComplete_pieces_witness :
  FastAGI.onRecordingComplete
    (Py.str_int 35 ++ " (dtmf) endpos=" ++ Py.str_int 23456)
  = Return (35, "dtmf", 23456).
Proof. exact (onRecordingComplete_pieces 35 23456 "dtmf" eq_refl). Defined.

(** X7.  The data of a reply reaches the callback of [recordFile] with
    [result=] in front, and the callback of [controlStreamFile] after
    [checkFailure] has let it pass with [result=] in front; both hand the
    first piece to [int] as it is.  So [recordFile] ends in [ValueError] on
    every data that starts with [result=], and [controlStreamFile] never
    yields a value at all. *)
Theorem completion_callbacks_reject_result_lines (data : string) :
  FastAGI.recordFile_callbacks ("result=" ++ data) = Raise ValueError
  /\ (FastAGI.controlStreamFile_callbacks data
      = Raise (AGICommandFailure (Py.PyInt (-1)) data)
      \/ FastAGI.controlStreamFile_callbacks data = Raise ValueError).
Proof.
  split.
  - unfold FastAGI.recordFile_callbacks, FastAGI.onRecordingComplete.
    cbn [Py.split_max]. rewrite split_first_result.
    destruct (Py.split_first " " data) as [[a b]|]; [|reflexivity].
    destruct (Py.split_first " " b) as [[c d]|]; [|reflexivity].
    now rewrite int_of_str_result.
  - unfold FastAGI.controlStreamFile_callbacks, bind.
    destruct (FastAGI.checkFailure data (Py.PyInt (-1))) as [r|e] eqn:E.
    + right. apply checkFailure_return in E.
      destruct E as (-> & token & d & n & Hr & _).
      apply result_re_iff in Hr. destruct Hr as (-> & _).
      unfold FastAGI.onControlStreamFileComplete. cbn [Py.split_max].
      rewrite split_first_result.
      destruct (Py.split_first " " (token ++ Run.tail_of d)) as [[a b]|];
        now rewrite int_of_str_result.
    + apply checkFailure_raise in E. destruct E as [->| ->]; auto.
Qed.

(** X8.  [setVariable] sends the name and the value between double
    quotes, and no double quote is left inside the value: a value without
    any goes out as it is. *)
Theorem setVariable_quotes (variable : string) (value : Py.value) :
  exists sent,
    FastAGI.setVariable_command variable value
    = "SET VARIABLE " ++ quoted variable ++ " " ++ quoted sent
    /\ Run.no_char "034" sent
    /\ (Run.no_char "034" (Py.str value) -> sent = Py.str value).
Proof.
  exists (Py.remove_char "034" (Py.str value)). split; [reflexivity|].
  unfold Run.no_char. generalize (Py.str value) as s.
  intros s. split.
  - induction s as [|c s IH]; cbn [Py.remove_char]; [reflexivity|].
    destruct (Ascii.eqb c "034") eqn:E; [exact IH|].
    cbn [Py.forall_chars]. now rewrite E, IH.
  - induction s as [|c s IH]; cbn [Py.remove_char Py.forall_chars];
      [reflexivity|].
    intros H. apply andb_prop in H. destruct H as [Hc Hs].
    apply negb_true_iff in Hc. now rewrite Hc, (IH Hs).
Qed.

(** X9.  [sayXXX], through which [sayAlpha], [sayDate], [sayDigits],
    [sayNumber], [sayPhonetic] and [sayTime] go, applies [%] to a format
    that has braces and no conversion: whatever the arguments, it raises
    [TypeError] before anything is sent or queued. *)
Theorem sayXXX_raises (self : FastAGI.FastAGIProtocol) (baseCommand : string)
        (value : Py.value) (escapeDigits : option string) :
  FastAGI.sayXXX self baseCommand value escapeDigits
  = Some (Fail TypeError, self, []).
Proof. reflexivity. Qed.


(* ================================================================= *)
(** ** FastAGI: the variables of the connection *)

Section Variables.

Import FastAGI Run.

Lemma variable_rest_step (c : ascii) (r : string) :
  variable_rest (String c r)
  = let here :=
      if Ascii.eqb c ":" then
        match r with
        | String d v =>
            if Ascii.eqb d " " then
              match dot_star_eol v with
              | Some x => Some (EmptyString, x)
              | None => None
              end
            else None
        | EmptyString => None
        end
      else None in
    if Ascii.eqb c Py.LF then here
    else match variable_rest r with
         | Some (k, x) => Some (String c k, x)
         | None => here
         end.
Proof.
  destruct c as [b0 b1 b2 b3 b4 b5 b6 b7].
  destruct b0, b1, b2, b3, b4, b5, b6, b7; try reflexivity.
  destruct r as [|d v]; [reflexivity|].
  destruct d as [b0 b1 b2 b3 b4 b5 b6 b7].
  destruct b0, b1, b2, b3, b4, b5, b6, b7; reflexivity.
Qed.

Lemma variable_rest_none (s : string) :
  colon_space s = false -> variable_rest s = None.
Proof.
  induction s as [|c r IH]; [reflexivity|].
  cbn [colon_space]. intros H. apply orb_false_iff in H. destruct H as [Hh Hr].
  rewrite variable_rest_step, (IH Hr). cbn zeta.
  assert (E : (if Ascii.eqb c ":" then
                 match r with
                 | String d v =>
                     if Ascii.eqb d " " then
                       match dot_star_eol v with
                       | Some x => Some (EmptyString, x)
                       | None => None
                       end
                     else None
                 | EmptyString => None
                 end
               else None) = None).
  { destruct (Ascii.eqb c ":"); [|reflexivity].
    destruct r as [|d v]; [reflexivity|]. cbn [andb] in Hh. now rewrite Hh. }
  rewrite E. now destruct (Ascii.eqb c Py.LF).
Qed.

Lemma variable_rest_key (key value : string) :
  no_char Py.LF key -> no_char Py.LF value -> colon_space value = false ->
  variable_rest (key ++ ": " ++ value) = Some (key, value).
Proof.
  unfold no_char. intros Hk Hv Hc.
  induction key as [|c key IH]; cbn [String.append].
  - rewrite variable_rest_step. cbn zeta.
    change (Ascii.eqb ":" ":") with true. change (Ascii.eqb " " " ") with true.
    change (Ascii.eqb ":" Py.LF) with false. cbv iota.
    rewrite variable_rest_none by (cbn [colon_space]; exact Hc).
    now rewrite (dot_star_eol_clean value Hv).
  - cbn [Py.forall_chars] in Hk. apply andb_prop in Hk. destruct Hk as [Hc' Hk].
    apply negb_true_iff in Hc'.
    rewrite variable_rest_step. cbn zeta. rewrite Hc'.
    cbn [String.append] in IH. now rewrite (IH Hk).
Qed.

Lemma lineReceived_variable (self : FastAGIProtocol) (key value : string) :
  reading_variables self = true ->
  no_char Py.LF key -> no_char Py.LF value -> colon_space value = false ->
  lineReceived self ("agi_" ++ key ++ ": " ++ value)
  = (set_variables (Py.set String.eqb ("agi_" ++ key) value (variables self)) self,
     []).
Proof.
  intros Hr Hk Hv Hc. unfold lineReceived. rewrite Hr.
  change (Py.is_empty ("agi_" ++ key ++ ": " ++ value)) with false. cbv iota.
  unfold agi_variable_re.
  now rewrite drop_prefix_append, (variable_rest_key key value Hk Hv Hc).
Qed.

End Variables.

(** X10.  While the variables are being read, the line [agi_<key>: <value>]
    stores the value under [agi_<key>], when key and value hold no newline
    and the value holds no colon followed by a space (the key takes the
    longest match); the other variables, the queue and the phase are as
    they were, and nothing is fired or logged. *)
Theorem variable_line_is_stored
        (self : FastAGI.FastAGIProtocol) (key value : string) :
  FastAGI.reading_variables self = true ->
  Run.no_char Py.LF key -> Run.no_char Py.LF value ->
  Run.colon_space value = false ->
  let received := FastAGI.lineReceived self ("agi_" ++ key ++ ": " ++ value) in
  Py.get String.eqb ("agi_" ++ key) (FastAGI.variables (fst received))
  = Some value
  /\ (forall other, other <> "agi_" ++ key ->
                    Py.get String.eqb other (FastAGI.variables (fst received))
                    = Py.get String.eqb other (FastAGI.variables self))
  /\ snd received = []
  /\ FastAGI.pendingMessages (fst received) = FastAGI.pendingMessages self
  /\ FastAGI.reading_variables (fst received) = true.
Proof.
  intros Hr Hk Hv Hc. cbn zeta.
  rewrite (lineReceived_variable self key value Hr Hk Hv Hc).
  cbn [fst snd FastAGI.variables FastAGI.set_variables
       FastAGI.pendingMessages FastAGI.reading_variables].
  split; [apply (get_set_same String.eqb String.eqb_spec)|].
  split; [|auto].
  intros other N. apply (get_set_other String.eqb String.eqb_spec). congruence.
Qed.

Lemma variable_line_is_stored_witness :
  Py.get String.eqb ("agi_" ++ "request")
    (FastAGI.variables
       (fst (FastAGI.lineReceived (FastAGI.connectionMade (FastAGI.init false))
               ("agi_" ++ "request" ++ ": " ++ "agi://localhost:4573/x"))))
  = Some "agi://localhost:4573/x".
Proof.
  exact (proj1 (variable_line_is_stored
                  (FastAGI.connectionMade (FastAGI.init false))
                  "request" "agi://localhost:4573/x"
                  eq_refl eq_refl eq_refl eq_refl)).
Defined.


Section Preamble.

Import FastAGI Run.

Lemma preamble_lines (pairs : list (string * string)) :
  forall self,
    reading_variables self = true ->
    forallb variable_pair pairs = true ->
    let r := linesReceived self (map variable_line pairs ++ [EmptyString]) in
    variables (fst r)
    = fold_left (fun d kv => Py.set String.eqb (fst kv) (snd kv) d)
        (map (fun kv => ("agi_" ++ fst kv, snd kv)) pairs) (variables self)
    /\ reading_variables (fst r) = false
    /\ pendingMessages (fst r) = pendingMessages self
    /\ snd r = if on_connect self then [OnConnect] else [].
Proof.
  induction pairs as [|[key value] pairs IH]; intros self Hr H r; subst r;
    cbn [map app linesReceived fold_left].
  - unfold lineReceived. rewrite Hr. cbn [Py.is_empty fst snd].
    rewrite app_nil_r. now repeat split.
  - cbn [forallb] in H. apply andb_prop in H. destruct H as [Hp Hs].
    unfold variable_pair in Hp. cbn [fst snd] in Hp.
    apply andb_prop in Hp. destruct Hp as [Hp Hc].
    apply andb_prop in Hp. destruct Hp as [Hk Hv].
    apply negb_true_iff in Hc.
    change (variable_line (key, value)) with ("agi_" ++ key ++ ": " ++ value).
    rewrite (lineReceived_variable self key value Hr Hk Hv Hc).
    cbv beta iota zeta.
    set (self1 := set_variables _ self).
    destruct (IH self1 Hr Hs) as (V & R & P & E).
    destruct (linesReceived self1 (map variable_line pairs ++ [EmptyString]))
      as [s2 e2].
    cbn [fst snd app] in *.
    split; [exact V|]. split; [exact R|]. split; [exact P | exact E].
Qed.

End Preamble.

(** X11.  The preamble of a connection, lines [agi_<name>: <value>] and
    then an empty line, is read into [variables] as [dict] would build it
    from the pairs in order, a later value for a name replacing the earlier
    one.  The empty line ends the reading, and [on_connect], when there is
    one, is called then and only then. *)
Theorem preamble_is_read (on_connect : bool) (pairs : list (string * string)) :
  forallb Run.variable_pair pairs = true ->
  let r :=
    Run.linesReceived (FastAGI.connectionMade (FastAGI.init on_connect))
      (map Run.variable_line pairs ++ [EmptyString]) in
  FastAGI.variables (fst r)
  = Py.of_pairs String.eqb (map (fun kv => ("agi_" ++ fst kv, snd kv)) pairs)
  /\ FastAGI.reading_variables (fst r) = false
  /\ snd r = if on_connect then [FastAGI.OnConnect] else [].
Proof.
  intros H r. subst r.
  destruct (preamble_lines pairs
              (FastAGI.connectionMade (FastAGI.init on_connect)) eq_refl H)
    as (V & R & _ & E).
  repeat split; assumption.
Qed.

Lemma preamble_is_read_witness :
  FastAGI.variables
    (fst (Run.linesReceived (FastAGI.connectionMade (FastAGI.init true))
            (map Run.variable_line
               [("request", "agi://localhost/x"); ("channel", "SIP/1")]
             ++ [EmptyString])))
  = [("agi_request", "agi://localhost/x"); ("agi_channel", "SIP/1")].
Proof.
  exact (proj1 (preamble_is_read true
                  [("request", "agi://localhost/x"); ("channel", "SIP/1")]
                  eq_refl)).
Defined.


(* ================================================================= *)
(** ** FastAGI: [playback] and [databaseDeltree] *)

Lemma checkFailure_text_absorbed
      (data sentinel : string) (failure : Py.value) {A} (k : string -> pyresult A) :
  (r <- FastAGI.checkFailure data (Py.PyStr sentinel) ;;
   r <- FastAGI.checkFailure r failure ;; k r)
  = (r <- FastAGI.checkFailure data failure ;; k r).
Proof.
  unfold FastAGI.checkFailure, bind.
  destruct (FastAGI.result_re data) as [[token rest]|] eqn:E; [|reflexivity].
  destruct (Py.int_of_str token) as [n|] eqn:Ei; [|reflexivity].
  cbn [Py.eqb]. now rewrite E, Ei.
Qed.

(** X12.  [playback] goes through [execute]: the line on the wire is an
    [EXEC] whose quoted application is the whole [PLAYBACK] command, quotes
    and all, and a [doAnswer] other than -1, 0 and 1 raises before
    anything is sent.  Of its three callbacks the first, the check of
    [execute] against the text [-2], changes nothing: the outcome is that of
    the two callbacks of [answer], on every line. *)
Theorem playback_is_an_exec
        (self : FastAGI.FastAGIProtocol) (filename data : string) (doAnswer : Z) :
  match FastAGI.playback_option doAnswer with
  | Some option =>
      snd (FastAGI.playback self filename doAnswer)
      = [FastAGI.SendLine
           ("EXEC "
            ++ quoted ("PLAYBACK " ++ quoted filename ++ " " ++ quoted option))]
  | None =>
      FastAGI.playback self filename doAnswer = (Fail TypeError, self, [])
  end
  /\ FastAGI.playback_callbacks data = FastAGI.answer_callbacks data.
Proof.
  split.
  - unfold FastAGI.playback.
    now destruct (FastAGI.playback_option doAnswer).
  - unfold FastAGI.playback_callbacks, FastAGI.execute_callbacks,
      FastAGI.answer_callbacks.
    apply checkFailure_text_absorbed.
Qed.

(** X13.  [databaseDeltree] never returns a Deferred.  With a [keyTree]
    it raises [NameError] before anything is sent.  Without one the command
    is sent and its new Deferred joins the queue, and then the call raises
    [AttributeError]: the caller never gets that Deferred, and it stays in
    the queue to take a reply in its turn. *)
Theorem databaseDeltree_raises
        (self : FastAGI.FastAGIProtocol) (family : string)
        (keyTree : option string) (code data : string) :
  FastAGI.reading_variables self = false ->
  Run.wire_reply code data = true ->
  match keyTree with
  | Some (String _ _) =>
      FastAGI.databaseDeltree self family keyTree = (Fail NameError, self, [])
  | _ =>
      let '(r, self', trace) := FastAGI.databaseDeltree self family keyTree in
      let queue :=
        (FastAGI.pendingMessages self ++ [FastAGI.created self])%list in
      r = Fail (Known AttributeError)
      /\ trace = [FastAGI.SendLine ("DATABASE DELTREE " ++ quoted family)]
      /\ FastAGI.pendingMessages self' = queue
      /\ FastAGI.lineReceived self' (Run.reply_line (code, data))
         = (FastAGI.set_pendingMessages (tl queue) self',
            [Run.resolution (hd (FastAGI.created self) queue) (code, data)])
  end.
Proof.
  intros Hr Hw.
  assert (G : forall self',
             FastAGI.reading_variables self' = false ->
             FastAGI.pendingMessages self'
             = (FastAGI.pendingMessages self ++ [FastAGI.created self])%list ->
             FastAGI.lineReceived self' (Run.reply_line (code, data))
             = (FastAGI.set_pendingMessages
                  (tl (FastAGI.pendingMessages self ++ [FastAGI.created self])%list)
                  self',
                [Run.resolution
                   (hd (FastAGI.created self)
                       (FastAGI.pendingMessages self ++ [FastAGI.created self])%list)
                   (code, data)])).
  { intros self' Hr' Hp.
    destruct (FastAGI.pendingMessages self ++ [FastAGI.created self])%list
      as [|d q] eqn:E.
    - now destruct (FastAGI.pendingMessages self).
    - now apply lineReceived_reply. }
  destruct keyTree as [[|c k]|]; try reflexivity;
    unfold FastAGI.databaseDeltree, FastAGI.sendCommand, FastAGI.new_deferred;
    cbv beta iota zeta;
    (split; [reflexivity|]); (split; [reflexivity|]);
    (split; [reflexivity|]); now apply G.
Qed.

Lemma databaseDeltree_raises_witness :
  FastAGI.lineReceived
    (snd (fst (FastAGI.databaseDeltree Example.ready "family" None)))
    (Run.reply_line ("200", "result=1"))
  = (FastAGI.set_pendingMessages []
       (snd (fst (FastAGI.databaseDeltree Example.ready "family" None))),
     [FastAGI.Callback 0%nat "result=1"]).
Proof.
  exact (proj2 (proj2 (proj2
           (databaseDeltree_raises Example.ready "family" None "200" "result=1"
              eq_refl eq_refl)))).
Defined.


(* ================================================================= *)
(** ** InSequence: a pending action, and a second call *)

(** X14.  The actions [before] all succeed with the results [rs]; the
    Deferred of the next one never fires.  Then [finalDF] stays pending: it
    gets neither the results nor a failure, the actions of [after] are
    still in the list and have not run, and the results so far are kept. *)
Theorem in_sequence_pending_action
        {World Value : Type}
        (before after : list (FastAGI.action World Value))
        (stuck : FastAGI.action World Value)
        (w w1 w2 : World) (rs : list Value) :
  Run.succeed_all before w = Some (rs, w1) ->
  stuck w1 = (FastAGI.NeverFires Value, w2) ->
  FastAGI.call World Value
    (fold_left (FastAGI.append World Value) (before ++ stuck :: after)
               (FastAGI.InSequence_init World Value)) w
  = ({| FastAGI.actions := after; FastAGI.results := rs |},
     FastAGI.FinalPending Value, w2).
Proof.
  intros Hb Hs. rewrite appended_actions. unfold FastAGI.call.
  cbn [FastAGI.actions FastAGI.results].
  rewrite (onActionSuccess_prefix before _ [] w rs w1 Hb).
  cbn [app FastAGI.onActionSuccess]. now rewrite Hs.
Qed.

Lemma in_sequence_pending_action_witness :
  FastAGI.call (list nat) string
    (fold_left (FastAGI.append (list nat) string)
       [Example.first_action; (fun w => (FastAGI.NeverFires string, w));
        Example.third_action]
       (FastAGI.InSequence_init (list nat) string)) []
  = ({| FastAGI.actions := [Example.third_action]; FastAGI.results := ["one"] |},
     FastAGI.FinalPending string, [1%nat]).
Proof.
  exact (in_sequence_pending_action
           [Example.first_action] [Example.third_action]
           (fun w => (FastAGI.NeverFires string, w)) [] [1%nat] [1%nat] ["one"]
           eq_refl eq_refl).
Defined.

(** X15.  The object is used up by a run: [actions] is popped and
    [results] is never reset.  After a run that ended in a failure, a
    second call starts at the action after the failed one, which is not
    tried again, and what it hands to its [finalDF] begins with the results
    of the first run; after a run that succeeded, a second call runs
    nothing and hands over the same results. *)
Theorem in_sequence_second_call
        {World Value : Type}
        (before after : list (FastAGI.action World Value))
        (failing : FastAGI.action World Value)
        (w w1 w2 w3 : World) (rs rs' : list Value) (reason : exn) :
  Run.succeed_all before w = Some (rs, w1) ->
  failing w1 = (FastAGI.Fails Value reason, w2) ->
  Run.succeed_all after w2 = Some (rs', w3) ->
  let sequence l :=
    fold_left (FastAGI.append World Value) l
              (FastAGI.InSequence_init World Value) in
  FastAGI.call World Value
    (fst (fst (FastAGI.call World Value
                 (sequence (before ++ failing :: after)%list) w))) w2
  = ({| FastAGI.actions := []; FastAGI.results := (rs ++ rs')%list |},
     FastAGI.FinalCallback Value (rs ++ rs')%list, w3)
  /\ FastAGI.call World Value
       (fst (fst (FastAGI.call World Value (sequence before) w))) w1
     = ({| FastAGI.actions := []; FastAGI.results := rs |},
        FastAGI.FinalCallback Value rs, w1).
Proof.
  intros Hb Hf Ha sequence. subst sequence. cbv beta.
  rewrite !appended_actions. unfold FastAGI.call.
  cbn [FastAGI.actions FastAGI.results]. split.
  - rewrite (onActionSuccess_prefix before _ [] w rs w1 Hb).
    cbn [app FastAGI.onActionSuccess]. rewrite Hf.
    cbn [fst FastAGI.actions FastAGI.results].
    rewrite <- (app_nil_r after).
    rewrite (onActionSuccess_prefix after [] rs w2 rs' w3 Ha).
    reflexivity.
  - rewrite <- (app_nil_r before).
    rewrite (onActionSuccess_prefix before [] [] w rs w1 Hb).
    reflexivity.
Qed.

Lemma in_sequence_second_call_witness :
  FastAGI.call (list nat) string
    (fst (fst (FastAGI.call (list nat) string
                 (fold_left (FastAGI.append (list nat) string)
                    [Example.first_action; Example.second_action;
                     Example.third_action]
                    (FastAGI.InSequence_init (list nat) string)) [])))
    [1%nat; 2%nat]
  = ({| FastAGI.actions := []; FastAGI.results := ["one"; "three"] |},
     FastAGI.FinalCallback string ["one"; "three"], [1%nat; 2%nat; 3%nat]).
Proof.
  exact (proj1 (in_sequence_second_call
                  [Example.first_action] [Example.third_action]
                  Example.second_action [] [1%nat] [1%nat; 2%nat]
                  [1%nat; 2%nat; 3%nat] ["one"] ["three"]
                  (ApplicationError 2) eq_refl eq_refl eq_refl)).
Defined.


(* ================================================================= *)
(** ** AMI: taking handlers off *)

Section MoreDictFacts.

Context {K V : Type} (keq : K -> K -> bool).
Hypothesis keq_spec : forall x y, reflect (x = y) (keq x y).

Lemma get_del_other (k k' : K) (d : Py.dict (V := V)) :
  k <> k' -> Py.get keq k' (Py.del keq k d) = Py.get keq k' d.
Proof.
  intros N. unfold Py.del.
  induction d as [|[k0 v0] d IH]; cbn [filter Py.get fst]; [reflexivity|].
  destruct (keq_spec k k0) as [->|N0]; cbn [negb Py.get].
  - destruct (keq_spec k' k0); [congruence | exact IH].
  - destruct (keq_spec k' k0); [reflexivity | exact IH].
Qed.


End MoreDictFacts.

Section Deregistration.

Import Manager Run.

Lemma filter_twice {A} (p : A -> bool) (l : list A) :
  filter p (filter p l) = filter p l.
Proof.
  induction l as [|x l IH]; cbn [filter]; [reflexivity|].
  destruct (p x) eqn:E; cbn [filter]; [now rewrite E, IH | exact IH].
Qed.

Lemma filter_absent (f : handler) (l : list handler) :
  ~ In f l -> filter (fun h => negb (Nat.eqb h f)) l = l.
Proof.
  induction l as [|x l IH]; cbn [filter In]; [reflexivity|].
  intros N. destruct (Nat.eqb_spec x f) as [->|_]; cbn [negb].
  - exfalso. apply N. now left.
  - rewrite IH; [reflexivity|]. intros H. apply N. now right.
Qed.

(** What [deregisterEvent] leaves of a list of handlers. *)
Lemma deregisterEvent_handlers
      (function : option handler) (types : list (option string)) :
  forall (success : bool) (self : AMIProtocol) (key : option string),
    let remaining l :=
      match function with
      | Some f => filter (fun h => negb (Nat.eqb h f)) l
      | None => []
      end in
    handlers_of
      (snd (fold_left
              (fun '(success, self) ev =>
                 match Py.get event_eqb ev self.(eventTypeCallbacks) with
                 | None => (false, self)
                 | Some handlers =>
                     let handlers :=
                       match function with
                       | Some f => filter (fun h => negb (Nat.eqb h f)) handlers
                       | None => handlers
                       end in
                     let empty := match handlers with [] => true | _ => false end in
                     let none := match function with None => true | Some _ => false end in
                     if (empty || none)%bool
                     then (success,
                           set_eventTypeCallbacks
                             (Py.del event_eqb ev self.(eventTypeCallbacks)) self)
                     else (success,
                           set_eventTypeCallbacks
                             (Py.set event_eqb ev handlers self.(eventTypeCallbacks)) self)
                 end)
              types (success, self))) key
    = if existsb (event_eqb key) types
      then remaining (handlers_of self key)
      else handlers_of self key.
Proof.
  match goal with |- context [fold_left ?s] => set (step := s) end.
  induction types as [|ev types IH]; intros success self key remaining;
    cbn [fold_left existsb]; [reflexivity|].
  unfold step at 2.
  assert (R0 : remaining [] = []) by (subst remaining; now destruct function).
  assert (R2 : forall l, remaining (remaining l) = remaining l).
  { intros l. subst remaining. cbv beta. destruct function; [|reflexivity].
    apply filter_twice. }
  destruct (Py.get event_eqb ev (eventTypeCallbacks self)) as [handlers|] eqn:E.
  - set (kept := match function with
                 | Some f => filter (fun h => negb (Nat.eqb h f)) handlers
                 | None => handlers
                 end).
    cbv zeta.
    assert (Hs : forall self',
               (forall k, handlers_of self' k
                          = if event_eqb k ev then remaining handlers
                            else handlers_of self k) ->
               handlers_of
                 (snd (fold_left step types (success, self'))) key
               = if (event_eqb key ev || existsb (event_eqb key) types)%bool
                 then remaining (handlers_of self key)
                 else handlers_of self key).
    { intros self' H'. rewrite (IH success self' key). fold remaining.
      rewrite (H' key).
      destruct (event_eqb_spec key ev) as [->|N]; cbn [orb]; [|reflexivity].
      unfold handlers_of. rewrite E. generalize (R2 handlers).
      subst remaining. cbv beta. intros ->.
      now destruct (existsb _ types). }
    destruct ((match kept with [] => true | _ => false end
               || match function with None => true | Some _ => false end)%bool)
      eqn:C.
    + apply Hs. intros k. unfold handlers_of.
      cbn [eventTypeCallbacks set_eventTypeCallbacks].
      destruct (event_eqb_spec k ev) as [->|N].
      * rewrite (get_del_same event_eqb event_eqb_spec).
        subst remaining kept. cbv beta.
        destruct function as [f|]; [|reflexivity].
        rewrite orb_false_r in C.
        now destruct (filter (fun h => negb (Nat.eqb h f)) handlers).
      * rewrite (get_del_other event_eqb event_eqb_spec); [reflexivity|].
        congruence.
    + apply Hs. intros k. unfold handlers_of.
      cbn [eventTypeCallbacks set_eventTypeCallbacks].
      destruct (event_eqb_spec k ev) as [->|N].
      * rewrite (get_set_same event_eqb event_eqb_spec).
        subst remaining kept. cbv beta.
        destruct function as [f|]; [reflexivity|].
        now rewrite orb_true_r in C.
      * rewrite (get_set_other event_eqb event_eqb_spec); [reflexivity|].
        congruence.
  - rewrite (IH false self key). fold remaining.
    destruct (event_eqb_spec key ev) as [->|N]; cbn [orb]; [|reflexivity].
    unfold handlers_of. rewrite E.
    subst remaining. cbv beta iota.
    destruct function; cbn [filter]; now destruct (existsb _ types).
Qed.

End Deregistration.

(** X16.  [deregisterEvent(event, function)] takes every occurrence of
    [function] out of the handlers of each type named, keeping the others
    in their order; with no [function] it drops all handlers of those
    types.  The handlers of the types not named are as they were.  For one
    type the result is [True] exactly when the type had an entry, also when
    [function] was not among its handlers. *)
Theorem deregisterEvent_removes
        (self : Manager.AMIProtocol) (event : Manager.event_types)
        (function : option Manager.handler) (key : option string) :
  Run.handlers_of (snd (Manager.deregisterEvent self event function)) key
  = (if existsb (Manager.event_eqb key) (Manager.as_tuple event)
     then match function with
          | Some f => filter (fun h => negb (Nat.eqb h f)) (Run.handlers_of self key)
          | None => []
          end
     else Run.handlers_of self key)
  /\ fst (Manager.deregisterEvent self (Manager.OneType key) function)
     = Py.mem Manager.event_eqb key (Manager.eventTypeCallbacks self).
Proof.
  split.
  - exact (deregisterEvent_handlers function (Manager.as_tuple event)
             true self key).
  - unfold Manager.deregisterEvent, Py.mem. cbn [Manager.as_tuple fold_left].
    destruct (Py.get Manager.event_eqb key _) as [handlers|]; [|reflexivity].
    cbv zeta.
    now destruct (_ || _)%bool.
Qed.

(** X17.  A handler that is registered for a type where it was not
    registered before, and then deregistered for it, leaves the handlers
    of every type as they were; the deregistration reports success. *)
Theorem register_then_deregister
        (self : Manager.AMIProtocol) (ev : option string) (f : Manager.handler) :
  ~ In f (Run.handlers_of self ev) ->
  let back :=
    Manager.deregisterEvent
      (Manager.registerEvent self (Manager.OneType ev) f)
      (Manager.OneType ev) (Some f) in
  fst back = true
  /\ forall key, Run.handlers_of (snd back) key = Run.handlers_of self key.
Proof.
  intros N back. subst back. split.
  - unfold Manager.deregisterEvent, Manager.registerEvent.
    cbn [Manager.as_tuple fold_left
         Manager.eventTypeCallbacks Manager.set_eventTypeCallbacks].
    rewrite (get_set_same Manager.event_eqb event_eqb_spec).
    cbv zeta. now destruct (_ || _)%bool.
  - intros key.
    etransitivity;
      [exact (deregisterEvent_handlers (Some f) [ev] true _ key)|].
    cbn [existsb]. rewrite orb_false_r.
    destruct (event_eqb_spec key ev) as [->|D].
    + rewrite registerEvent_same, filter_app.
      cbn [filter]. rewrite Nat.eqb_refl. cbn [negb]. rewrite app_nil_r.
      exact (filter_absent f _ N).
    + apply registerEvent_other. congruence.
Qed.

Lemma register_then_deregister_witness :
  fst (Manager.deregisterEvent
         (Manager.registerEvent Example.subscribed
            (Manager.OneType (Some "Hangup")) 7%nat)
         (Manager.OneType (Some "Hangup")) (Some 7%nat)) = true
  /\ forall key,
       Run.handlers_of
         (snd (Manager.deregisterEvent
                 (Manager.registerEvent Example.subscribed
                    (Manager.OneType (Some "Hangup")) 7%nat)
                 (Manager.OneType (Some "Hangup")) (Some 7%nat))) key
       = Run.handlers_of Example.subscribed key.
Proof.
  refine (register_then_deregister Example.subscribed (Some "Hangup") 7%nat _).
  cbn. intros [H|[]]. discriminate H.
Defined.


(* ================================================================= *)
(** ** AMI: [collectDeferred] *)

Section Collector.

Import Manager Run.

Lemma nth_error_update {A} (l : list A) :
  forall n x y, nth_error l n = Some x -> nth_error (update l n y) n = Some y.
Proof.
  induction l as [|a l IH]; intros [|n] x y H; cbn [update nth_error] in *;
    try discriminate; eauto.
Qed.

Lemma nth_error_last {A} (l : list A) (x : A) :
  nth_error (l ++ [x]) (length l) = Some x.
Proof. induction l as [|a l IH]; cbn [app length nth_error]; auto. Qed.

(** [sendMessage] with a callback registers it under the token it
    returns, and makes no Deferred. *)
Lemma sendMessage_registers (self : AMIProtocol) (h : heap) (message : nat)
      (f : callback) (actionid : Py.value) (self' : AMIProtocol) (h' : heap)
      (e : list effect) :
  sendMessage self h message (Some f) = Some (actionid, self', h', e) ->
  deferreds self' = deferreds self
  /\ Py.get Py.eqb actionid (actionIDCallbacks self') = Some f.
Proof.
  unfold sendMessage.
  destruct (load h message) as [[items|d]|]; [| |discriminate].
  - destruct (supplied_actionid items) eqn:S; intros H; inversion H; subst;
      (split; [reflexivity|]);
      apply (get_set_same Py.eqb value_eqb_spec).
  - set (m := Py.of_pairs String.eqb _).
    destruct (Py.mem String.eqb "actionid" m) eqn:S; intros H; inversion H; subst;
      (split; [reflexivity|]);
      apply (get_set_same Py.eqb value_eqb_spec).
Qed.

Lemma collectDeferred_state (self : AMIProtocol) (h : heap) (message : nat)
      (stopEvent : string) (df : deferred) (self' : AMIProtocol) (h' : heap)
      (e : list effect) :
  collectDeferred self h message stopEvent = Some (df, self', h', e) ->
  exists actionid,
    nth_error (deferreds self') df
    = Some {| called := false; bound_actionid := Some actionid; cache := [] |}
    /\ Py.get Py.eqb actionid (actionIDCallbacks self')
       = Some (OnEvent df stopEvent).
Proof.
  unfold collectDeferred, new_deferred.
  destruct (sendMessage _ h message _) as [[[[a s] h2] e2]|] eqn:E;
    [|discriminate].
  intros H. inversion H; subst. clear H.
  apply sendMessage_registers in E. destruct E as [Hd Hg].
  cbn [deferreds set_deferreds] in Hd.
  exists a. unfold bind_actionid. rewrite Hd, nth_error_last.
  cbn [deferreds set_deferreds actionIDCallbacks called cache]. split.
  - apply nth_error_update with (x := {| called := false; bound_actionid := None; cache := [] |}).
    apply nth_error_last.
  - exact Hg.
Qed.

Variables (df : deferred) (stopEvent : string).

Lemma onEvent_keeps (self : AMIProtocol) (st : deferred_state) (event : message) :
  nth_error (deferreds self) df = Some st ->
  keeps_waiting stopEvent event = true ->
  exists self',
    onEvent self df stopEvent (ArgMessage event) = (Return tt, self', [])
    /\ nth_error (deferreds self') df
       = Some {| called := called st;
                 bound_actionid := bound_actionid st;
                 cache := (cache st ++ [event])%list |}
    /\ actionIDCallbacks self' = actionIDCallbacks self.
Proof.
  intros Hd Hk. unfold keeps_waiting in Hk. apply andb_prop in Hk.
  destruct Hk as [H1 H2]. apply negb_true_iff in H1, H2.
  unfold onEvent. rewrite H1, H2. unfold cache_append. rewrite Hd.
  eexists. split; [reflexivity|].
  cbn [deferreds set_deferreds actionIDCallbacks]. split; [|reflexivity].
  now apply nth_error_update with (x := st).
Qed.

Lemma onEvents_keep (events : list message) :
  forall (self : AMIProtocol) (st : deferred_state),
    nth_error (deferreds self) df = Some st ->
    forallb (keeps_waiting stopEvent) events = true ->
    exists self',
      onEvents self df stopEvent events = (self', [])
      /\ nth_error (deferreds self') df
         = Some {| called := called st;
                   bound_actionid := bound_actionid st;
                   cache := (cache st ++ events)%list |}
      /\ actionIDCallbacks self' = actionIDCallbacks self.
Proof.
  induction events as [|event events IH]; intros self st Hd Hk.
  - exists self. split; [reflexivity|]. rewrite app_nil_r. now destruct st.
  - cbn [forallb] in Hk. apply andb_prop in Hk. destruct Hk as [Hk Hr].
    destruct (onEvent_keeps self st event Hd Hk) as (s1 & E1 & D1 & A1).
    destruct (IH s1 _ D1 Hr) as (s2 & E2 & D2 & A2).
    exists s2. cbn [onEvents]. rewrite E1, E2. split; [reflexivity|].
    cbn [called bound_actionid cache] in D2. rewrite <- app_assoc in D2.
    split; [exact D2 | congruence].
Qed.

Lemma onEvents_app (a b : list message) :
  forall self,
    onEvents self df stopEvent (a ++ b)
    = let '(s1, e1) := onEvents self df stopEvent a in
      let '(s2, e2) := onEvents s1 df stopEvent b in
      (s2, (e1 ++ e2)%list).
Proof.
  induction a as [|x a IH]; intros self; cbn [app onEvents].
  - now destruct (onEvents self df stopEvent b).
  - destruct (onEvent self df stopEvent (ArgMessage x)) as [[r s1] e1].
    rewrite IH. destruct (onEvents s1 df stopEvent a) as [s2 e2].
    destruct (onEvents s2 df stopEvent b) as [s3 e3].
    now rewrite app_assoc.
Qed.

(** The events kept, and then the one that ends the collection. *)
Lemma onEvents_end (self : AMIProtocol) (st : deferred_state)
      (events : list message) (last : message) (token : Py.value) :
  nth_error (deferreds self) df = Some st ->
  called st = false ->
  bound_actionid st = Some token ->
  forallb (keeps_waiting stopEvent) events = true ->
  let r := onEvents self df stopEvent (events ++ [last]) in
  (field_is last "response" "Error" = true ->
   snd r = [Errback df (AMICommandFailure last)]
   /\ Py.get Py.eqb token (actionIDCallbacks (fst r)) = None)
  /\ (field_is last "response" "Error" = false ->
      field_is last "event" stopEvent = true ->
      snd r = [Callback df (ArgList (cache st ++ events ++ [last])%list)]
      /\ Py.get Py.eqb token (actionIDCallbacks (fst r)) = None).
Proof.
  intros Hd Hc Hb Hk r. subst r. rewrite onEvents_app.
  destruct (onEvents_keep events self st Hd Hk) as (s1 & -> & D1 & A1).
  cbn [onEvents]. split.
  - intros He. unfold onEvent. rewrite He.
    unfold deferred_errback, fire. rewrite D1. cbn [called bound_actionid].
    rewrite Hc, Hb. cbn [fst snd app]. split; [reflexivity|].
    apply (get_del_same Py.eqb value_eqb_spec).
  - intros He Hs. unfold onEvent. rewrite He, Hs.
    unfold cache_append. rewrite D1. cbn [called bound_actionid cache].
    unfold deferred_callback, fire. cbn [deferreds set_deferreds].
    rewrite (nth_error_update _ _ _ _ D1). cbn [called bound_actionid].
    rewrite Hc, Hb. cbn [fst snd app]. rewrite <- app_assoc.
    split; [reflexivity|].
    apply (get_del_same Py.eqb value_eqb_spec).
Qed.

End Collector.

(** X18.  A request of [collectDeferred] waits under its token.  Events
    that are neither an [Error] response nor the stop event are kept and
    fire nothing; the stop event then fires the Deferred once, with the list
    of the events kept followed by the stop event, in the order they came,
    and the token is no longer among the pending ones. *)
Theorem collectDeferred_gathers
        (self : Manager.AMIProtocol) (h : Manager.heap) (message : nat)
        (stopEvent : string) (df : deferred) (self' : Manager.AMIProtocol)
        (h' : Manager.heap) (e : list Manager.effect)
        (events : list Manager.message) (stop : Manager.message) :
  Manager.collectDeferred self h message stopEvent = Some (df, self', h', e) ->
  forallb (Run.keeps_waiting stopEvent) events = true ->
  Manager.field_is stop "response" "Error" = false ->
  Manager.field_is stop "event" stopEvent = true ->
  exists token,
    Py.get Py.eqb token (Manager.actionIDCallbacks self')
    = Some (Manager.OnEvent df stopEvent)
    /\ snd (Run.onEvents self' df stopEvent events) = []
    /\ snd (Run.onEvents self' df stopEvent (events ++ [stop]))
       = [Manager.Callback df (Manager.ArgList (events ++ [stop])%list)]
    /\ Py.get Py.eqb token
         (Manager.actionIDCallbacks
            (fst (Run.onEvents self' df stopEvent (events ++ [stop]))))
       = None.
Proof.
  intros Hc Hk He Hs.
  destruct (collectDeferred_state _ _ _ _ _ _ _ _ Hc) as (token & Hd & Hg).
  exists token. split; [exact Hg|]. split.
  - destruct (onEvents_keep df stopEvent events self' _ Hd Hk) as (s & -> & _).
    reflexivity.
  - exact (proj2 (onEvents_end df stopEvent self' _ events stop token
                    Hd eq_refl eq_refl Hk) He Hs).
Qed.

Lemma collectDeferred_gathers_witness :
  exists token,
    Py.get Py.eqb token (Manager.actionIDCallbacks Example.collecting)
    = Some (Manager.OnEvent 0%nat "StatusComplete")
    /\ snd (Run.onEvents Example.collecting 0%nat "StatusComplete"
              [Example.status_event "SIP/1"; Example.status_event "SIP/2"])
       = []
    /\ snd (Run.onEvents Example.collecting 0%nat "StatusComplete"
              ([Example.status_event "SIP/1"; Example.status_event "SIP/2"]
               ++ [Example.status_complete]))
       = [Manager.Callback 0%nat
            (Manager.ArgList
               ([Example.status_event "SIP/1"; Example.status_event "SIP/2"]
                ++ [Example.status_complete])%list)]
    /\ Py.get Py.eqb token
         (Manager.actionIDCallbacks
            (fst (Run.onEvents Example.collecting 0%nat "StatusComplete"
                    ([Example.status_event "SIP/1"; Example.status_event "SIP/2"]
                     ++ [Example.status_complete]))))
       = None.
Proof.
  exact (collectDeferred_gathers
           (Manager.init "uuid") Example.status_request 0%nat "StatusComplete"
           0%nat Example.collecting Example.status_request _
           [Example.status_event "SIP/1"; Example.status_event "SIP/2"]
           Example.status_complete eq_refl eq_refl eq_refl eq_refl).
Defined.

(** X19.  An [Error] response ends the collection of [collectDeferred]:
    the Deferred fails with [AMICommandFailure] carrying that response, the
    events kept until then are handed to nobody, and the token is no longer
    among the pending ones. *)
Theorem collectDeferred_error
        (self : Manager.AMIProtocol) (h : Manager.heap) (message : nat)
        (stopEvent : string) (df : deferred) (self' : Manager.AMIProtocol)
        (h' : Manager.heap) (e : list Manager.effect)
        (events : list Manager.message) (response : Manager.message) :
  Manager.collectDeferred self h message stopEvent = Some (df, self', h', e) ->
  forallb (Run.keeps_waiting stopEvent) events = true ->
  Manager.field_is response "response" "Error" = true ->
  exists token,
    Py.get Py.eqb token (Manager.actionIDCallbacks self')
    = Some (Manager.OnEvent df stopEvent)
    /\ snd (Run.onEvents self' df stopEvent (events ++ [response]))
       = [Manager.Errback df (AMICommandFailure response)]
    /\ Py.get Py.eqb token
         (Manager.actionIDCallbacks
            (fst (Run.onEvents self' df stopEvent (events ++ [response]))))
       = None.
Proof.
  intros Hc Hk He.
  destruct (collectDeferred_state _ _ _ _ _ _ _ _ Hc) as (token & Hd & Hg).
  exists token. split; [exact Hg|].
  exact (proj1 (onEvents_end df stopEvent self' _ events response token
                  Hd eq_refl eq_refl Hk) He).
Qed.

Lemma collectDeferred_error_witness :
  exists token,
    Py.get Py.eqb token (Manager.actionIDCallbacks Example.collecting)
    = Some (Manager.OnEvent 0%nat "StatusComplete")
    /\ snd (Run.onEvents Example.collecting 0%nat "StatusComplete"
              ([Example.status_event "SIP/1"]
               ++ [[("response", "Error"); ("actionid", "uuid-1")]]))
       = [Manager.Errback 0%nat
            (AMICommandFailure [("response", "Error"); ("actionid", "uuid-1")])]
    /\ Py.get Py.eqb token
         (Manager.actionIDCallbacks
            (fst (Run.onEvents Example.collecting 0%nat "StatusComplete"
                    ([Example.status_event "SIP/1"]
                     ++ [[("response", "Error"); ("actionid", "uuid-1")]]))))
       = None.
Proof.
  exact (collectDeferred_error
           (Manager.init "uuid") Example.status_request 0%nat "StatusComplete"
           0%nat Example.collecting Example.status_request _
           [Example.status_event "SIP/1"]
           [("response", "Error"); ("actionid", "uuid-1")]
           eq_refl eq_refl eq_refl).
Defined.


(* ================================================================= *)
(** ** AMI: what [sendMessage] writes *)

Section Wire.

Import Manager Run.




End Wire.



(* ================================================================= *)
(** ** AMI: a lost connection and the requests of [collectDeferred] *)

Section CollectorsTeardown.

Import Manager.
Variable application_raises : nat -> argument -> option exn.

Lemma connectionLost_loop_collectors (items : list (Py.value * callback)) :
  forall self,
    Forall Run.is_collector items ->
    connectionLost_loop application_raises
      (length (actionIDCallbacks self)) items self
    = (Return tt, self,
       map (fun _ => LogError "Failure during connectionLost for callable"
                              AttributeError) items).
Proof.
  induction items as [|[key callable] items IH]; intros self H;
    cbn [connectionLost_loop]; rewrite Nat.eqb_refl; cbn [negb].
  - reflexivity.
  - inversion H as [|? ? (df & stopEvent & Ht) H']; subst.
    cbn [snd] in Ht. subst callable.
    cbn [call onEvent]. rewrite (IH self H'). reflexivity.
Qed.

End CollectorsTeardown.

(** X21.  When the connection is lost while only requests of
    [collectDeferred] are pending, no Deferred is fired: each closure
    [onEvent] is called with the exception object, fails on it with
    [AttributeError], and that is logged, once per request and in order.
    Both dicts are emptied, so the Deferreds can no longer fire. *)
Theorem connectionLost_leaves_collectors_pending
        (application_raises : nat -> Manager.argument -> option exn)
        (self : Manager.AMIProtocol) (reason : exn) :
  Forall Run.is_collector (Manager.actionIDCallbacks self) ->
  let lost := Manager.connectionLost application_raises self reason in
  snd lost
  = map (fun _ => Manager.LogError "Failure during connectionLost for callable"
                                   AttributeError)
        (Manager.actionIDCallbacks self)
  /\ fst (fst lost) = Return tt
  /\ Manager.deferreds (snd (fst lost)) = Manager.deferreds self
  /\ Manager.actionIDCallbacks (snd (fst lost)) = []
  /\ Manager.eventTypeCallbacks (snd (fst lost)) = [].
Proof.
  intros H lost. subst lost. unfold Manager.connectionLost.
  rewrite (connectionLost_loop_collectors application_raises _ self H).
  repeat split.
Qed.

Lemma connectionLost_leaves_collectors_pending_witness :
  snd (Manager.connectionLost Example.quiet Example.collecting
         (ConnectionDone "closed"))
  = [Manager.LogError "Failure during connectionLost for callable"
                      AttributeError]
  /\ Manager.deferreds
       (snd (fst (Manager.connectionLost Example.quiet Example.collecting
                    (ConnectionDone "closed"))))
     = Manager.deferreds Example.collecting.
Proof.
  refine ((fun H => conj (proj1 H) (proj1 (proj2 (proj2 H))))
            (connectionLost_leaves_collectors_pending Example.quiet
               Example.collecting (ConnectionDone "closed") _)).
  repeat constructor. exists 0%nat, "StatusComplete". reflexivity.
Defined.


(* ================================================================= *)
(** ** AMI: the output of [command] *)

Section Output.

Lemma rev_string_reverse (s : string) :
  forall acc, Py.rev_string acc s = Py.reverse s ++ acc.
Proof.
  unfold Py.reverse. induction s as [|c s IH]; intros acc; cbn [Py.rev_string].
  - reflexivity.
  - rewrite (IH (String c acc)), (IH (String c EmptyString)).
    now rewrite append_assoc.
Qed.

Lemma reverse_append (a b : string) :
  Py.reverse (a ++ b) = Py.reverse b ++ Py.reverse a.
Proof.
  induction a as [|c a IH]; cbn [String.append].
  - now rewrite append_nil_r.
  - unfold Py.reverse at 1 3. cbn [Py.rev_string].
    rewrite !rev_string_reverse, IH. now rewrite append_assoc.
Qed.

Lemma reverse_reverse (s : string) : Py.reverse (Py.reverse s) = s.
Proof.
  induction s as [|c s IH]; [reflexivity|].
  unfold Py.reverse at 2. cbn [Py.rev_string].
  rewrite rev_string_reverse, reverse_append, IH. reflexivity.
Qed.

Lemma drop_suffix_append (p s : string) :
  Py.drop_suffix p (s ++ p) = Some s.
Proof.
  unfold Py.drop_suffix.
  now rewrite reverse_append, drop_prefix_append, reverse_reverse.
Qed.

Lemma rstrip_append_keep (p : ascii -> bool) (a x : string) :
  Py.rstrip_with p x = x -> x <> EmptyString ->
  Py.rstrip_with p (a ++ x) = a ++ x.
Proof.
  intros Hx Hn. induction a as [|c a IH]; cbn [String.append Py.rstrip_with].
  - exact Hx.
  - rewrite IH.
    assert (E : Py.is_empty (a ++ x) = false)
      by (destruct a; [now destruct x | reflexivity]).
    now rewrite E.
Qed.

Lemma strip_before_end (text : string) :
  Run.starts_clean text = true ->
  Py.strip (text ++ Manager.END_DATA) = text ++ Manager.END_DATA.
Proof.
  intros H. unfold Py.strip, Py.strip_with.
  assert (L : Py.lstrip_with Py.isspace (text ++ Manager.END_DATA)
              = text ++ Manager.END_DATA).
  { destruct text as [|c r]; [reflexivity|].
    cbn [Run.starts_clean] in H. apply negb_true_iff in H.
    cbn [String.append Py.lstrip_with]. now rewrite H. }
  rewrite L. apply rstrip_append_keep; [reflexivity | discriminate].
Qed.

Lemma split_cons (sep : ascii) (s : string) :
  exists p ps, Py.split sep s = p :: ps.
Proof.
  destruct s as [|c r]; cbn [Py.split]; [now eauto|].
  destruct (Ascii.eqb c sep); [now eauto|].
  destruct (Py.split sep r); eauto.
Qed.

Lemma join_cons_char (sep : string) (c : ascii) (p : string) (ps : list string) :
  Py.join sep (String c p :: ps) = String c (Py.join sep (p :: ps)).
Proof. now destruct ps. Qed.

(** The text joined again does not begin with a newline. *)
Lemma join_split_head (r : string) :
  match Py.join CRLF (Py.split Py.LF r) with
  | String d _ => Ascii.eqb d Py.LF = false
  | EmptyString => True
  end.
Proof.
  destruct r as [|c r]; cbn [Py.split]; [exact I|].
  destruct (Ascii.eqb c Py.LF) eqn:E.
  - destruct (split_cons Py.LF r) as (p & ps & ->). reflexivity.
  - destruct (split_cons Py.LF r) as (p & ps & ->).
    now rewrite join_cons_char.
Qed.

(** Joining the lines with CRLF and splitting at CRLF gives the lines
    again. *)
Lemma split_crlf_join (text : string) :
  Py.split_crlf (Py.join CRLF (Py.split Py.LF text)) = Py.split Py.LF text.
Proof.
  induction text as [|c r IH]; [reflexivity|].
  cbn [Py.split]. destruct (Ascii.eqb c Py.LF) eqn:E.
  - destruct (split_cons Py.LF r) as (p & ps & S). rewrite S in *.
    change (Py.join CRLF (EmptyString :: p :: ps))
      with (String Py.CR (String Py.LF (Py.join CRLF (p :: ps)))).
    cbn [Py.split_crlf]. rewrite !Ascii.eqb_refl. cbn [andb].
    now rewrite IH.
  - generalize (join_split_head r).
    destruct (split_cons Py.LF r) as (p & ps & S). rewrite S in *.
    rewrite join_cons_char. cbn [Py.split_crlf].
    destruct (Py.join CRLF (p :: ps)) as [|d r'] eqn:J.
    + intros _. cbn [Py.split_crlf] in IH.
      now inversion IH.
    + intros Hd. rewrite Hd, andb_false_r. now rewrite IH.
Qed.

End Output.

(** X22.  The output of a command arrives in one line that ends with
    [--END COMMAND--], its lines separated by newlines.  When the text
    does not begin with a blank, [dispatchIncoming] stores it under [output]
    and the callbacks of [command] give back its lines as split at the
    newlines, if the response is [Follows] and [amiVersion] is not above
    [2.7.0]; above it the same response is refused with
    [AMICommandFailure]. *)
Theorem command_output_lines
        (self : Manager.AMIProtocol) (message : Manager.message)
        (text : string) :
  Run.starts_clean text = true ->
  Py.get String.eqb "response" message = Some "Follows" ->
  let merged :=
    snd (fst (Manager.merge_line self message (text ++ Manager.END_DATA))) in
  Manager.command_callbacks false (Manager.ArgMessage merged)
  = Ok (inl (Py.split Py.LF text))
  /\ Manager.command_callbacks true (Manager.ArgMessage merged)
     = Fail (Known (AMICommandFailure merged)).
Proof.
  intros Hs Hr merged. subst merged. unfold Manager.merge_line.
  rewrite (strip_before_end text Hs).
  assert (E : Py.is_empty (text ++ Manager.END_DATA) = false)
    by now destruct text.
  rewrite E, drop_suffix_append. cbn [fst snd].
  unfold Manager.command_callbacks, Manager.errorUnlessResponse.
  rewrite (get_set_other String.eqb String.eqb_spec) by discriminate.
  rewrite Hr. cbn [String.eqb Ascii.eqb Bool.eqb and_then].
  split; [|reflexivity].
  unfold Manager.command_onResult.
  rewrite (get_set_same String.eqb String.eqb_spec).
  now rewrite split_crlf_join.
Qed.

Lemma command_output_lines_witness :
  Manager.command_callbacks false
    (Manager.ArgMessage
       (snd (fst (Manager.merge_line (Manager.init "uuid")
                    [("response", "Follows")]
                    (String "a" (String Py.LF "b") ++ Manager.END_DATA)))))
  = Ok (inl ["a"; "b"]).
Proof.
  exact (proj1 (command_output_lines (Manager.init "uuid")
                  [("response", "Follows")] (String "a" (String Py.LF "b"))
                  eq_refl eq_refl)).
Defined.


(* ================================================================= *)
(** ** AMI: responses are looked up by text *)

Section Lookup.

Import Manager Run.
Variable application_raises : nat -> argument -> option exn.
Variable handler_raises : handler -> message -> option exn.

Lemma get_text_none (d : Py.dict (K := Py.value) (V := callback)) (t : string) :
  existsb text_token d = false -> Py.get Py.eqb (Py.PyStr t) d = None.
Proof.
  induction d as [|[k v] d IH]; cbn [existsb Py.get]; [reflexivity|].
  intros H. apply orb_false_iff in H. destruct H as [Hk Hd].
  destruct k as [|z|s]; cbn [text_token fst] in Hk; try discriminate;
    cbn [Py.eqb]; now apply IH.
Qed.

Lemma merge_line_quiet (self : AMIProtocol) (m : Manager.message) (line : string) :
  actionIDCallbacks (fst (fst (merge_line self m line))) = actionIDCallbacks self
  /\ eventTypeCallbacks (fst (fst (merge_line self m line)))
     = eventTypeCallbacks self
  /\ existsb reaches_callback (snd (merge_line self m line)) = false.
Proof.
  unfold merge_line.
  destruct (Py.is_empty (Py.strip line)); [now repeat split|].
  destruct (Py.drop_suffix END_DATA (Py.strip line)); [now repeat split|].
  destruct (Py.startswith (Py.strip line) VERSION_PREFIX); [now repeat split|].
  destruct (Py.split_first ":" (Py.strip line)) as [[key value]|];
    [|now repeat split].
  now destruct (Py.get String.eqb (Py.strip (Py.lower key)) m).
Qed.

Lemma merge_lines_quiet (lines : list string) :
  forall (self : AMIProtocol) (m : Manager.message),
    actionIDCallbacks (fst (fst (merge_lines self m lines)))
    = actionIDCallbacks self
    /\ existsb reaches_callback (snd (merge_lines self m lines)) = false.
Proof.
  induction lines as [|line lines IH]; intros self m; cbn [merge_lines];
    [now split|].
  destruct (merge_line_quiet self m line) as (A1 & _ & E1).
  destruct (merge_line self m line) as [[s1 m1] e1].
  destruct (IH s1 m1) as (A2 & E2).
  destruct (merge_lines s1 m1 lines) as [[s2 m2] e2].
  cbn [fst snd] in *. split; [congruence|].
  now rewrite existsb_app, E1, E2.
Qed.

Lemma call_handlers_quiet (handlers : list handler) (event : message) :
  existsb reaches_callback (call_handlers handler_raises handlers event) = false.
Proof.
  induction handlers as [|f handlers IH]; cbn [call_handlers]; [reflexivity|].
  cbn [existsb reaches_callback orb]. rewrite existsb_app, IH.
  now destruct (handler_raises f event).
Qed.

Lemma dispatchEvent_quiet (self : AMIProtocol) (event : message) :
  existsb reaches_callback (dispatchEvent handler_raises self event) = false.
Proof.
  unfold dispatchEvent.
  destruct (Py.get String.eqb "event" event) as [name|]; [|reflexivity].
  cbn [flat_map]. rewrite !existsb_app. cbn [existsb].
  destruct (Py.get event_eqb (Some name) _), (Py.get event_eqb None _);
    rewrite ?call_handlers_quiet; reflexivity.
Qed.

Lemma dispatchIncoming_no_text (self : AMIProtocol) :
  existsb text_token (actionIDCallbacks self) = false ->
  actionIDCallbacks
    (fst (dispatchIncoming application_raises handler_raises self))
  = actionIDCallbacks self
  /\ existsb reaches_callback
       (snd (dispatchIncoming application_raises handler_raises self)) = false.
Proof.
  intros H. unfold dispatchIncoming.
  destruct (merge_lines_quiet (messageCache self) self []) as (A1 & E1).
  destruct (merge_lines self [] (messageCache self)) as [[s1 m1] e1].
  cbn [fst snd] in A1, E1.
  assert (G : forall t,
             Py.get Py.eqb (Py.PyStr t)
               (actionIDCallbacks (set_messageCache [] s1)) = None).
  { intros t. cbn [actionIDCallbacks set_messageCache]. rewrite A1.
    now apply get_text_none. }
  destruct (Py.get String.eqb "actionid" m1) as [key|]; [rewrite G|];
    cbn [fst snd actionIDCallbacks set_messageCache app];
    (split; [exact A1|]); rewrite existsb_app, E1; cbn [orb];
    destruct (Py.mem String.eqb "event" m1);
    rewrite ?dispatchEvent_quiet; reflexivity.
Qed.

Lemma lineReceived_no_text (self : AMIProtocol) (line : string) :
  existsb text_token (actionIDCallbacks self) = false ->
  actionIDCallbacks
    (fst (lineReceived application_raises handler_raises self line))
  = actionIDCallbacks self
  /\ existsb reaches_callback
       (snd (lineReceived application_raises handler_raises self line)) = false.
Proof.
  intros H. unfold lineReceived.
  destruct (Py.is_empty (Py.bytes_strip line)); [|now split].
  exact (dispatchIncoming_no_text
           (set_messageCache (messageCache self ++ [line])%list self) H).
Qed.

End Lookup.

(** X23.  [dispatchIncoming] looks a response up under the text of its
    [actionid] field.  While none of the pending tokens is a text (the
    caller of [sendMessage] supplied an integer, say, which is written to
    the wire as its digits), no line that arrives ever reaches a pending
    callable: no Deferred fires, no callable of the application is called,
    and the pending entries stay as they are. *)
Theorem responses_reach_text_tokens_only
        (application_raises : nat -> Manager.argument -> option exn)
        (handler_raises : Manager.handler -> Manager.message -> option exn)
        (lines : list string) (self : Manager.AMIProtocol) :
  existsb Run.text_token (Manager.actionIDCallbacks self) = false ->
  let received :=
    Run.ami_linesReceived application_raises handler_raises self lines in
  existsb Run.reaches_callback (snd received) = false
  /\ Manager.actionIDCallbacks (fst received) = Manager.actionIDCallbacks self.
Proof.
  revert self. induction lines as [|line lines IH]; intros self H received;
    subst received; cbn [Run.ami_linesReceived]; [now split|].
  destruct (lineReceived_no_text application_raises handler_raises self line H)
    as (A1 & E1).
  destruct (Manager.lineReceived application_raises handler_raises self line)
    as [s1 e1].
  cbn [fst snd] in A1, E1.
  assert (H1 : existsb Run.text_token (Manager.actionIDCallbacks s1) = false)
    by now rewrite A1.
  destruct (IH s1 H1) as (E2 & A2).
  destruct (Run.ami_linesReceived application_raises handler_raises s1 lines)
    as [s2 e2].
  cbn [fst snd] in *. split; [|congruence].
  now rewrite existsb_app, E1, E2.
Qed.

Lemma responses_reach_text_tokens_only_witness :
  existsb Run.reaches_callback
    (snd (Run.ami_linesReceived Example.quiet Example.silent
            Example.numbered_pending
            ["Response: Success"; "ActionID: 7"; EmptyString])) = false
  /\ Manager.actionIDCallbacks
       (fst (Run.ami_linesReceived Example.quiet Example.silent
               Example.numbered_pending
               ["Response: Success"; "ActionID: 7"; EmptyString]))
     = [(Py.PyInt 7, Manager.DeferredCallback 0%nat)].
Proof.
  exact (responses_reach_text_tokens_only Example.quiet Example.silent
           ["Response: Success"; "ActionID: 7"; EmptyString]
           Example.numbered_pending eq_refl).
Defined.


(* ================================================================= *)
(** ** AMI: the output of [command] in header lines *)

Section OutputHeaders.

Import Manager Run.

Lemma split_crlf_step (c d : ascii) (r : string) :
  Py.split_crlf (String c (String d r))
  = if (Ascii.eqb c Py.CR && Ascii.eqb d Py.LF)%bool
    then EmptyString :: Py.split_crlf r
    else Py.cons_first c (Py.split_crlf (String d r)).
Proof. reflexivity. Qed.

Lemma split_crlf_one (v : string) :
  has_crlf v = false -> Py.split_crlf v = [v].
Proof.
  induction v as [|c v IH]; [reflexivity|].
  cbn [has_crlf]. intros H. apply orb_false_iff in H. destruct H as [Hp Hv].
  destruct v as [|d v']; [reflexivity|].
  rewrite split_crlf_step, Hp, (IH Hv). reflexivity.
Qed.

Lemma split_crlf_first (v rest : string) :
  has_crlf v = false ->
  Py.split_crlf (v ++ CRLF ++ rest) = v :: Py.split_crlf rest.
Proof.
  induction v as [|c v IH].
  - intros _. cbn [String.append CRLF Py.split_crlf].
    change (String.append CRLF rest) with (String Py.CR (String Py.LF rest)).
    cbn [Py.split_crlf]. now rewrite !Ascii.eqb_refl.
  - cbn [has_crlf]. intros H. apply orb_false_iff in H. destruct H as [Hp Hv].
    destruct v as [|d v'].
    + change (String c EmptyString ++ CRLF ++ rest)
        with (String c (String Py.CR (String Py.LF rest))).
      cbn [Py.split_crlf]. change (Ascii.eqb Py.CR Py.LF) with false.
      rewrite andb_false_r, !Ascii.eqb_refl. reflexivity.
    + change (String c (String d v') ++ CRLF ++ rest)
        with (String c (String d (v' ++ CRLF ++ rest))).
      rewrite split_crlf_step, Hp.
      change (String d (v' ++ CRLF ++ rest)) with (String d v' ++ CRLF ++ rest).
      now rewrite (IH Hv).
Qed.

Lemma split_crlf_values (v : string) (vs : list string) :
  forallb (fun v => negb (has_crlf v)) (v :: vs) = true ->
  Py.split_crlf (Py.join CRLF (v :: vs)) = v :: vs.
Proof.
  revert v. induction vs as [|w vs IH]; intros v H; cbn [forallb] in H;
    apply andb_prop in H; destruct H as [Hv Hr]; apply negb_true_iff in Hv.
  - now apply split_crlf_one.
  - change (Py.join CRLF (v :: w :: vs)) with (v ++ CRLF ++ Py.join CRLF (w :: vs)).
    now rewrite (split_crlf_first _ _ Hv), (IH w Hr).
Qed.

Lemma merge_output_line (self : AMIProtocol) (m : Manager.message) (v : string) :
  output_value v = true ->
  merge_line self m (output_line v)
  = (self,
     Py.set String.eqb "output"
       match Py.get String.eqb "output" m with
       | Some old => old ++ CRLF ++ v
       | None => v
       end m,
     []).
Proof.
  unfold output_value. intros H.
  apply andb_prop in H. destruct H as [H He].
  apply andb_prop in H. destruct H as [H _].
  apply andb_prop in H. destruct H as [Hs Hr].
  apply String.eqb_eq in Hr. apply negb_true_iff in He.
  destruct v as [|c r].
  - now destruct (Py.get String.eqb "output" m) eqn:G;
      unfold merge_line; cbn; rewrite G.
  - assert (S : Py.strip (output_line (String c r)) = output_line (String c r)).
    { unfold Py.strip, Py.strip_with, output_line.
      change (Py.lstrip_with Py.isspace ("Output: " ++ String c r))
        with ("Output: " ++ String c r).
      apply rstrip_append_keep; [exact Hr | discriminate]. }
    assert (V : Py.strip (String " " (String c r)) = String c r).
    { unfold Py.strip, Py.strip_with.
      change (Py.lstrip_with Py.isspace (String " " (String c r)))
        with (Py.lstrip_with Py.isspace (String c r)).
      cbn [starts_clean] in Hs. apply negb_true_iff in Hs.
      cbn [Py.lstrip_with]. now rewrite Hs. }
    unfold merge_line. rewrite S.
    change (Py.is_empty (output_line (String c r))) with false. cbv iota.
    unfold Py.endswith in He.
    destruct (Py.drop_suffix END_DATA (output_line (String c r)));
      [discriminate|].
    change (Py.startswith (output_line (String c r)) VERSION_PREFIX) with false.
    cbv iota.
    change (Py.split_first ":" (output_line (String c r)))
      with (Some ("Output", String " " (String c r))).
    cbv iota beta zeta.
    change (Py.strip (Py.lower "Output")) with "output".
    rewrite V. now destruct (Py.get String.eqb "output" m).
Qed.

Lemma merge_output_lines (values : list string) :
  forall (self : AMIProtocol) (m : Manager.message) (old : string),
    forallb output_value values = true ->
    Py.get String.eqb "output" m = Some old ->
    let merged := snd (fst (merge_lines self m (map output_line values))) in
    Py.get String.eqb "output" merged = Some (Py.join CRLF (old :: values))
    /\ Py.get String.eqb "response" merged = Py.get String.eqb "response" m.
Proof.
  induction values as [|v values IH]; intros self m old H G merged;
    subst merged; cbn [map merge_lines].
  - now split.
  - cbn [forallb] in H. apply andb_prop in H. destruct H as [Hv Hr].
    rewrite (merge_output_line self m v Hv), G.
    set (m1 := Py.set String.eqb "output" (old ++ CRLF ++ v) m).
    assert (G1 : Py.get String.eqb "output" m1 = Some (old ++ CRLF ++ v))
      by apply (get_set_same String.eqb String.eqb_spec).
    destruct (IH self m1 _ Hr G1) as (O & R).
    destruct (merge_lines self m1 (map output_line values)) as [[s2 m2] e2].
    cbn [fst snd] in *. split.
    + rewrite O. f_equal. destruct values as [|w values].
      * reflexivity.
      * change (Py.join CRLF ((old ++ CRLF ++ v) :: w :: values))
          with ((old ++ CRLF ++ v) ++ CRLF ++ Py.join CRLF (w :: values)).
        change (Py.join CRLF (old :: v :: w :: values))
          with (old ++ CRLF ++ v ++ CRLF ++ Py.join CRLF (w :: values)).
        now rewrite !append_assoc.
    + rewrite R. subst m1.
      now rewrite (get_set_other String.eqb String.eqb_spec) by discriminate.
Qed.

End OutputHeaders.

(** X24.  A response to [command] above version [2.7.0] carries the
    output in header lines [Output: <value>], one per line of output.
    [dispatchIncoming] joins their values under [output], and the callbacks
    of [command] give back exactly the values, in order, when the response
    is [Success] and the values have no blank at either end and no line end
    inside. *)
Theorem command_output_headers
        (self : Manager.AMIProtocol) (message : Manager.message)
        (value : string) (values : list string) :
  forallb Run.output_value (value :: values) = true ->
  Py.get String.eqb "response" message = Some "Success" ->
  Py.get String.eqb "output" message = None ->
  let merged :=
    snd (fst (Manager.merge_lines self message
                (map Run.output_line (value :: values)))) in
  Manager.command_callbacks true (Manager.ArgMessage merged)
  = Ok (inl (value :: values)).
Proof.
  intros H Hr Ho merged. subst merged.
  assert (C : forallb (fun v => negb (Run.has_crlf v)) (value :: values) = true).
  { revert H. generalize (value :: values). intros l.
    induction l as [|x l IH]; cbn [forallb]; [reflexivity|].
    intros H. apply andb_prop in H. destruct H as [Hx Hl].
    rewrite (IH Hl), andb_true_r.
    unfold Run.output_value in Hx.
    apply andb_prop in Hx. destruct Hx as [Hx _].
    apply andb_prop in Hx. now destruct Hx as [_ Hx]. }
  cbn [forallb] in H. apply andb_prop in H. destruct H as [Hv Hvs].
  cbn [map Manager.merge_lines].
  rewrite (merge_output_line self message value Hv), Ho.
  set (m1 := Py.set String.eqb "output" value message).
  assert (G1 : Py.get String.eqb "output" m1 = Some value)
    by apply (get_set_same String.eqb String.eqb_spec).
  destruct (merge_output_lines values self m1 value Hvs G1) as (O & R).
  destruct (Manager.merge_lines self m1 (map Run.output_line values))
    as [[s2 m2] e2].
  cbn [fst snd] in *.
  unfold Manager.command_callbacks, Manager.errorUnlessResponse.
  rewrite R. subst m1.
  rewrite (get_set_other String.eqb String.eqb_spec) by discriminate.
  rewrite Hr. cbn [String.eqb Ascii.eqb Bool.eqb and_then].
  unfold Manager.command_onResult. rewrite O.
  now rewrite (split_crlf_values value values C).
Qed.

Lemma command_output_headers_witness :
  Manager.command_callbacks true
    (Manager.ArgMessage
       (snd (fst (Manager.merge_lines (Manager.init "uuid")
                    [("response", "Success")]
                    (map Run.output_line ["core show"; "channels"])))))
  = Ok (inl ["core show"; "channels"]).
Proof.
  exact (command_output_headers (Manager.init "uuid")
           [("response", "Success")] "core show" ["channels"]
           eq_refl eq_refl eq_refl).
Defined.
